(** * Chimera: actor coordination and event-sourced memory

    A shallow embedding of the coordination core of the repository:

    - [EventStore]   : src/events/event_store.py and src/events/base_event.py
    - [MemoryActor]  : src/actors/memory_actor.py
    - [UserSession]  : src/actors/user_session_actor.py
    - [BaseActor]    : src/actors/base_actor.py

    Coroutines are embedded as state-passing computations over an explicit
    world (in-memory fields of the object plus the database tables it
    touches).  A computation ends in one of three ways: it returns a value,
    it raises a Python exception, or it is suspended on an [await] that is
    never resumed. *)

From stdpp Require Import gmap strings list sorting pretty.
From Stdlib Require Import ZArith Lia.

#[local] Set Warnings "-register-all".
#[local] Open Scope Z_scope.

(** ** Python values, exceptions and coroutine outcomes *)

Module Py.

(** The exception classes that occur in the modelled code, all of them
    subclasses of [Exception] (what [except Exception] catches; the
    cancellation of a task is not among them).  [str(e)] is what the
    handlers put into their result dictionaries. *)
Inductive exn : Type :=
| ValueError (msg : string)
| KeyError (key : string)
| TypeError (msg : string)
| AttributeError (msg : string)
| StorageError (msg : string)      (* any asyncpg / pool failure *)
| TimeoutError.                    (* asyncio.TimeoutError *)

Definition str (e : exn) : string :=
  match e with
  | ValueError m | TypeError m | AttributeError m | StorageError m => m
  | KeyError k => "'" +:+ k +:+ "'"
  | TimeoutError => EmptyString
  end.

#[global] Instance exn_eq_dec : EqDecision exn.
Proof. solve_decision. Defined.

(** How the run of a coroutine ends. *)
Inductive outcome (A : Type) : Type :=
| Returned (a : A)
| Raised (e : exn)
| Blocked.                         (* awaiting forever *)
Arguments Returned {A} a.
Arguments Raised {A} e.
Arguments Blocked {A}.

(** Coroutines over a world [W]. *)
Definition M (W A : Type) : Type := W -> outcome A * W.

Definition ret {W A} (a : A) : M W A := fun w => (Returned a, w).
Definition raise {W A} (e : exn) : M W A := fun w => (Raised e, w).

Definition bind {W A B} (m : M W A) (k : A -> M W B) : M W B :=
  fun w =>
    match m w with
    | (Returned a, w') => k a w'
    | (Raised e, w') => (Raised e, w')
    | (Blocked, w') => (Blocked, w')
    end.

(** [try: m  except Exception as e: h e] *)
Definition try_except {W A} (m : M W A) (h : exn -> M W A) : M W A :=
  fun w =>
    match m w with
    | (Raised e, w') => h e w'
    | r => r
    end.

(** [try: m  finally: f] for a cleanup [f] that cannot fail; the cleanup
    is not reached when [m] never resumes. *)
Definition finally {W A} (m : M W A) (f : W -> W) : M W A :=
  fun w =>
    match m w with
    | (Returned a, w') => (Returned a, f w')
    | (Raised e, w') => (Raised e, f w')
    | (Blocked, w') => (Blocked, w')
    end.

(** A computation that does not touch the world. *)
Definition lift {W A} (o : outcome A) : M W A := fun w => (o, w).

Definition gets {W A} (f : W -> A) : M W A := fun w => (Returned (f w), w).
Definition modify {W} (f : W -> W) : M W unit := fun w => (Returned tt, f w).

Definition is_raised {A} (o : outcome A) : bool :=
  match o with Raised _ => true | _ => false end.

(** [len(s)] of a [str].  A string is held here as its UTF-8 encoding,
    and Python counts code points: the bytes that are not continuation
    bytes (binary 10xxxxxx). *)
Definition continuation (c : Ascii.ascii) : bool :=
  match c with
  | Ascii.Ascii _ _ _ _ _ _ b6 b7 => b7 && negb b6
  end.

Fixpoint str_len (s : string) : nat :=
  match s with
  | EmptyString => O
  | String c rest =>
      if continuation c then str_len rest else S (str_len rest)
  end.

End Py.

Import Py.

Notation "'let*' x ':=' m 'in' k" := (Py.bind m (fun x => k))
  (at level 10, x name, m at level 100, k at level 200, only parsing).
Notation "'let*' ' p ':=' m 'in' k" :=
  (Py.bind m (fun x => match x with p => k end))
  (at level 10, p pattern, m at level 100, k at level 200, only parsing).
Notation "m ;;; k" := (Py.bind m (fun _ => k))
  (at level 100, k at level 200, right associativity, only parsing).

(** ** Event store *)

Module EventStore.

(** EVENT_CONFIG (src/config/events.py), the options read by the store. *)
Record EventConfig : Type := {
  max_event_size_bytes : Z;
  event_batch_size : Z;
  event_compression_enabled : bool;
  event_validation_enabled : bool
}.

Definition EVENT_CONFIG : EventConfig := {|
  max_event_size_bytes := 64000;
  event_batch_size := 100;
  event_compression_enabled := true;
  event_validation_enabled := true
|}.

(** Modelled from the spec: the [events] table, whose schema
    (database/schema.sql) is not among the sources.  A row has the six
    columns that the INSERT of [_flush_buffer] lists and the [timestamp]
    column that the queries order by; the INSERT does not pass a
    timestamp, the database sets it when the row is inserted. *)
Record EventRow : Type := {
  row_event_type : string;
  row_user_id : Z;
  row_data : string;               (* jsonb, as text *)
  row_stream_id : string;
  row_version : Z;
  row_metadata : string;           (* jsonb, as text *)
  row_timestamp : Z
}.

#[global] Instance EventRow_eq_dec : EqDecision EventRow.
Proof. solve_decision. Defined.

(** What the store does to the outside, in order. *)
Inductive io : Type :=
| DbInsert (lock_held : bool) (rows : nat).

Section WithJson.

(** JSON documents and the [json] module. *)
Context {Data : Type}.
Variable json_dumps : Data -> string.
Variable json_loads : string -> Data.

(** BaseEvent (src/events/base_event.py). *)
Record BaseEvent : Type := {
  event_id : string;
  event_type : string;
  timestamp : Z;
  user_id : option Z;
  data : Data;
  stream_id : option string;
  version : Z;
  metadata : Data
}.

(** [sys.getsizeof(self.json())] *)
Variable json_size : BaseEvent -> Z.

(** BaseEvent.__init__: the stream id defaults to
    [stream_id_format.format(user_id=...)], i.e. ["user_{user_id}"]. *)
Definition BaseEvent_init (e : BaseEvent) : BaseEvent :=
  match stream_id e, user_id e with
  | None, Some uid =>
      {| event_id := event_id e; event_type := event_type e;
         timestamp := timestamp e; user_id := user_id e;
         data := data e; stream_id := Some ("user_" +:+ pretty uid);
         version := version e; metadata := metadata e |}
  | _, _ => e
  end.

(** BaseEvent.validate_event_size *)
Definition validate_event_size (cfg : EventConfig) (e : BaseEvent)
  : outcome unit :=
  if negb (event_validation_enabled cfg) then Returned tt
  else
    let max_size := max_event_size_bytes cfg in
    let event_size := json_size e in
    if max_size <? event_size then
      if event_compression_enabled cfg then Returned tt
      else Raised (ValueError "Event size exceeds limit")
    else Returned tt.

(** The three tests of [validate_event_size] that lead to its [raise]. *)
Definition rejects (cfg : EventConfig) (e : BaseEvent) : bool :=
  event_validation_enabled cfg &&
  (max_event_size_bytes cfg <? json_size e) &&
  negb (event_compression_enabled cfg).

(** The world of an [EventStore] instance: its two fields, the
    [events] table behind [self.db], and the trace of database
    calls. *)
Record World : Type := {
  _event_buffer : list BaseEvent;
  _buffer_lock : bool;            (* true: the asyncio.Lock is held *)
  events_table : list EventRow;
  trace : list io
}.

Definition set_buffer (b : list BaseEvent) (w : World) : World :=
  {| _event_buffer := b; _buffer_lock := _buffer_lock w;
     events_table := events_table w; trace := trace w |}.
Definition set_lock (l : bool) (w : World) : World :=
  {| _event_buffer := _event_buffer w; _buffer_lock := l;
     events_table := events_table w; trace := trace w |}.
Definition set_table (t : list EventRow) (w : World) : World :=
  {| _event_buffer := _event_buffer w; _buffer_lock := _buffer_lock w;
     events_table := t; trace := trace w |}.
Definition log (x : io) (w : World) : World :=
  {| _event_buffer := _event_buffer w; _buffer_lock := _buffer_lock w;
     events_table := events_table w; trace := trace w ++ [x] |}.

(** What the surroundings do during one call: whether the database
    accepts the batch or the query, the database clock, and the events
    that other coroutines append to the buffer while this one awaits
    the insert. *)
Record Env : Type := {
  insert_fault : option exn;
  fetch_fault : option exn;
  db_now : Z;
  arrivals : list BaseEvent
}.

(** [async with self._buffer_lock: body].  asyncio.Lock is not
    re-entrant: acquiring a held lock suspends the coroutine until
    somebody else releases it. *)
Definition acquire : M World unit :=
  fun w => if _buffer_lock w then (Blocked, w)
           else (Returned tt, set_lock true w).

Definition with_lock {A} (body : M World A) : M World A :=
  acquire ;;; finally body (set_lock false).

(** The tuple built for one event in [_flush_buffer], as the row it
    becomes. *)
Definition to_row (now : Z) (e : BaseEvent) : EventRow :=
  {| row_event_type := event_type e;
     row_user_id := default 0 (user_id e);             (* user_id or 0 *)
     row_data := json_dumps (data e);
     row_stream_id :=
       match stream_id e with                          (* stream_id or '' *)
       | Some s => s
       | None => EmptyString
       end;
     row_version := version e;
     row_metadata := json_dumps (metadata e);
     row_timestamp := now |}.

(** [await self.db.execute_many(...)]: a suspension point.  Other
    savers run meanwhile if the lock lets them in; the batch is
    inserted as a whole or not at all. *)
Definition execute_many (env : Env) (batch : list BaseEvent)
  : M World unit :=
  fun w =>
    let held := _buffer_lock w in
    let w1 := if held then w
              else set_buffer (_event_buffer w ++ arrivals env) w in
    let w2 := log (DbInsert held (length batch)) w1 in
    match insert_fault env with
    | Some e => (Raised e, w2)
    | None =>
        (Returned tt,
         set_table (events_table w2 ++ map (to_row (db_now env)) batch) w2)
    end.

(** EventStore._flush_buffer *)
Definition _flush_buffer (env : Env) : M World unit :=
  fun w =>
    match _event_buffer w with
    | [] => (Returned tt, w)
    | _ =>
        let events_to_save := _event_buffer w in
        let w := set_buffer [] w in
        try_except
          (execute_many env events_to_save)
          (fun _ =>
             with_lock
               (modify (fun w =>
                  set_buffer (events_to_save ++ _event_buffer w) w)))
          w
    end.

(** EventStore.save_event *)
Definition save_event (cfg : EventConfig) (env : Env) (event : BaseEvent)
  : M World bool :=
  try_except
    (lift (validate_event_size cfg event) ;;;
     with_lock
       (modify (fun w => set_buffer (_event_buffer w ++ [event]) w) ;;;
        let* len := gets (fun w => Z.of_nat (length (_event_buffer w))) in
        if event_batch_size cfg <=? len then _flush_buffer env
        else ret tt) ;;;
     ret true)
    (fun _ => ret false).

(** The test [len(self._event_buffer) >= self.batch_size] of
    [save_event], one event having been appended to the buffer of [w]. *)
Definition fills (cfg : EventConfig) (w : World) : bool :=
  event_batch_size cfg <=? Z.of_nat (length (_event_buffer w) + 1).

(** One round of EventStore._periodic_flush, after its sleep. *)
Definition _periodic_flush (env : Env) : M World unit :=
  with_lock
    (let* b := gets _event_buffer in
     match b with
     | [] => ret tt
     | _ => _flush_buffer env
     end).

(** EventStore.shutdown, the final flush. *)
Definition shutdown (env : Env) : M World unit :=
  with_lock (_flush_buffer env).

(** The dictionary built from a fetched row. *)
Record EventRecord : Type := {
  rec_event_type : string;
  rec_user_id : Z;
  rec_data : Data;
  rec_stream_id : string;
  rec_version : Z;
  rec_metadata : Data;
  rec_timestamp : Z
}.

Definition of_row (r : EventRow) : EventRecord :=
  {| rec_event_type := row_event_type r;
     rec_user_id := row_user_id r;
     rec_data := json_loads (row_data r);
     rec_stream_id := row_stream_id r;
     rec_version := row_version r;
     rec_metadata := json_loads (row_metadata r);
     rec_timestamp := row_timestamp r |}.

Definition by_timestamp : relation EventRow :=
  fun a b => row_timestamp a <= row_timestamp b.

#[global] Instance by_timestamp_dec : RelDecision by_timestamp.
Proof. intros a b. unfold by_timestamp. apply _. Defined.

(** The SELECT of [get_events_by_stream]:
    WHERE stream_id = $1 [AND timestamp > $2]
    ORDER BY timestamp ASC LIMIT $n.
    A negative LIMIT is rejected by the database. *)
Definition select_by_stream (table : list EventRow) (sid : string)
    (after_timestamp : option Z) (limit : Z) : outcome (list EventRow) :=
  if limit <? 0 then Raised (StorageError "LIMIT must not be negative")
  else
    let hits :=
      List.filter (fun r =>
                bool_decide (row_stream_id r = sid) &&
                match after_timestamp with
                | Some t => t <? row_timestamp r
                | None => true
                end) table in
    Returned (take (Z.to_nat limit) (merge_sort by_timestamp hits)).

(** EventStore.get_events_by_stream *)
Definition get_events_by_stream (env : Env) (w : World) (sid : string)
    (limit : Z) (after_timestamp : option Z) : list EventRecord :=
  match fetch_fault env with
  | Some _ => []
  | None =>
      match select_by_stream (events_table w) sid after_timestamp limit with
      | Returned rows => map of_row rows
      | _ => []
      end
  end.

Definition by_timestamp_desc : relation EventRow :=
  fun a b => row_timestamp b <= row_timestamp a.

#[global] Instance by_timestamp_desc_dec : RelDecision by_timestamp_desc.
Proof. intros a b. unfold by_timestamp_desc. apply _. Defined.

(** The optional IN-list of [get_user_events]: [if event_types:] is
    false for [None] and for the empty list, and then the query has no
    condition on the type. *)
Definition type_filter (event_types : option (list string)) (r : EventRow)
  : bool :=
  match event_types with
  | Some (t :: ts) => bool_decide (row_event_type r ∈ t :: ts)
  | _ => true
  end.

(** The SELECT of [get_user_events]:
    WHERE user_id = $1 [AND event_type IN (...)]
    ORDER BY timestamp DESC LIMIT $n. *)
Definition select_by_user (table : list EventRow) (uid : Z)
    (event_types : option (list string)) (limit : Z)
  : outcome (list EventRow) :=
  if limit <? 0 then Raised (StorageError "LIMIT must not be negative")
  else
    let hits :=
      List.filter (fun r =>
                bool_decide (row_user_id r = uid) &&
                type_filter event_types r) table in
    Returned (take (Z.to_nat limit) (merge_sort by_timestamp_desc hits)).

(** EventStore.get_user_events *)
Definition get_user_events (env : Env) (w : World) (uid : Z)
    (event_types : option (list string)) (limit : Z) : list EventRecord :=
  match fetch_fault env with
  | Some _ => []
  | None =>
      match select_by_user (events_table w) uid event_types limit with
      | Returned rows => map of_row rows
      | _ => []
      end
  end.

(** The rows that the DELETE of [cleanup_old_events] spares whatever
    their age. *)
Definition spared (r : EventRow) : bool :=
  bool_decide (row_event_type r ∈ ["system_event"; "actor_coordination"]).

(** EventStore.cleanup_old_events: DELETE FROM events
    WHERE timestamp < $1
    AND event_type NOT IN ('system_event', 'actor_coordination').
    [retention] is [timedelta(days=retention_days)] in the unit of the
    clock, [now] is [datetime.utcnow()] and [delete_fault] says whether
    the statement fails. *)
Definition cleanup_old_events (retention : Z) (delete_fault : option exn)
    (now : Z) : M World unit :=
  let cutoff_date := now - retention in
  try_except
    (fun w =>
       match delete_fault with
       | Some e => (Raised e, w)
       | None =>
           (Returned tt,
            set_table
              (List.filter
                 (fun r => negb ((row_timestamp r <? cutoff_date) &&
                                 negb (spared r)))
                 (events_table w)) w)
       end)
    (fun _ => ret tt).

End WithJson.

Arguments BaseEvent : clear implicits.
Arguments World : clear implicits.
Arguments Env : clear implicits.
Arguments EventRecord : clear implicits.

End EventStore.

(** ** Short-term memory actor *)

Module MemoryActor.

(** MEMORY_CONFIG (src/config/memory.py), the options read by the actor. *)
Record MemoryConfig : Type := {
  stm_limit : Z;
  cleanup_batch_size : Z;
  retry_attempts : Z;
  retry_delay_seconds : Z;
  context_max_length : Z;
  performance_log_enabled : bool
}.

Definition MEMORY_CONFIG : MemoryConfig := {|
  stm_limit := 25;
  cleanup_batch_size := 10;
  retry_attempts := 3;
  retry_delay_seconds := 1;
  context_max_length := 5000;
  performance_log_enabled := true
|}.

(** The Python values that travel in messages and results.  [PyIso t]
    is the string [t.isoformat()] of the instant [t]. *)
Inductive pyval : Type :=
| PyNone
| PyBool (b : bool)
| PyInt (z : Z)
| PyStr (s : string)
| PyIso (t : Z)
| PyList (l : list pyval)
| PyDict (d : gmap string pyval).

(** [d[k]] *)
Definition subscript (v : pyval) (k : string) : outcome pyval :=
  match v with
  | PyDict d =>
      match d !! k with
      | Some x => Returned x
      | None => Raised (KeyError k)
      end
  | _ => Raised (TypeError "object is not subscriptable")
  end.

(** [d.get(k, dflt)] *)
Definition get (v : pyval) (k : string) (dflt : pyval) : outcome pyval :=
  match v with
  | PyDict d => Returned (default dflt (d !! k))
  | _ => Raised (AttributeError "object has no attribute 'get'")
  end.

(** [f"{v}"] for the values that occur as a message type; containers
    are abbreviated. *)
Definition format (v : pyval) : string :=
  match v with
  | PyNone => "None"
  | PyBool true => "True"
  | PyBool false => "False"
  | PyInt z => pretty z
  | PyStr s => s
  | PyIso t => pretty t
  | PyList _ => "[...]"
  | PyDict _ => "{...}"
  end.

(** Modelled from the spec: the [stm_buffer] table, whose schema
    (database/schema.sql) is not among the sources.  A row has the
    columns that the statements of the actor name; [id] is a serial and
    [created_at] is set by the database when the row is inserted. *)
Record StmRow : Type := {
  id : Z;
  user_id : Z;
  role : string;
  content : string;
  emotion : option string;
  mode : option string;
  created_at : Z
}.

(** A message handed to [handle_message]: an [ActorMessage], or any
    other object (normally a dict). *)
Inductive message : Type :=
| ActorMessage (type : pyval) (data : pyval)
| Plain (v : pyval).

(** The world of a [MemoryActor]: the [stm_buffer] table behind
    [self.db], the actor's fields, the asyncio tasks it has created and
    that have not finished, and the sleeps it has taken. *)
Record World : Type := {
  stm_buffer : list StmRow;
  next_id : Z;                      (* the table's serial *)
  clock : Z;                        (* database clock *)
  db_calls : nat;                   (* database round trips so far *)
  _cleanup_tasks : gmap Z nat;      (* user_id -> task *)
  running : list (nat * Z);         (* unfinished tasks and their user *)
  next_task : nat;
  _message_count : Z;
  _error_count : Z;
  cleanup_operations : Z;
  store_latency : list Z;
  retrieve_latency : list Z;
  sleeps : list Z
}.

(** The surroundings: which database round trips fail, and the latency
    the clock shows for an operation. *)
Record Env : Type := {
  fault : nat -> option exn;
  latency : Z
}.

Definition healthy : Env := {| fault := fun _ => None; latency := 0 |}.

Section Setters.
Variable w : World.

Definition set_table (t : list StmRow) : World :=
  {| stm_buffer := t; next_id := next_id w; clock := clock w;
     db_calls := db_calls w; _cleanup_tasks := _cleanup_tasks w;
     running := running w; next_task := next_task w;
     _message_count := _message_count w; _error_count := _error_count w;
     cleanup_operations := cleanup_operations w;
     store_latency := store_latency w;
     retrieve_latency := retrieve_latency w; sleeps := sleeps w |}.

Definition tick : World :=
  {| stm_buffer := stm_buffer w; next_id := next_id w;
     clock := clock w + 1; db_calls := S (db_calls w);
     _cleanup_tasks := _cleanup_tasks w;
     running := running w; next_task := next_task w;
     _message_count := _message_count w; _error_count := _error_count w;
     cleanup_operations := cleanup_operations w;
     store_latency := store_latency w;
     retrieve_latency := retrieve_latency w; sleeps := sleeps w |}.

Definition set_next_id (n : Z) : World :=
  {| stm_buffer := stm_buffer w; next_id := n; clock := clock w;
     db_calls := db_calls w; _cleanup_tasks := _cleanup_tasks w;
     running := running w; next_task := next_task w;
     _message_count := _message_count w; _error_count := _error_count w;
     cleanup_operations := cleanup_operations w;
     store_latency := store_latency w;
     retrieve_latency := retrieve_latency w; sleeps := sleeps w |}.

Definition set_tasks (m : gmap Z nat) (r : list (nat * Z)) (n : nat)
  : World :=
  {| stm_buffer := stm_buffer w; next_id := next_id w; clock := clock w;
     db_calls := db_calls w; _cleanup_tasks := m;
     running := r; next_task := n;
     _message_count := _message_count w; _error_count := _error_count w;
     cleanup_operations := cleanup_operations w;
     store_latency := store_latency w;
     retrieve_latency := retrieve_latency w; sleeps := sleeps w |}.

Definition set_counters (mc ec co : Z) : World :=
  {| stm_buffer := stm_buffer w; next_id := next_id w; clock := clock w;
     db_calls := db_calls w; _cleanup_tasks := _cleanup_tasks w;
     running := running w; next_task := next_task w;
     _message_count := mc; _error_count := ec;
     cleanup_operations := co;
     store_latency := store_latency w;
     retrieve_latency := retrieve_latency w; sleeps := sleeps w |}.

Definition set_latencies (s r : list Z) : World :=
  {| stm_buffer := stm_buffer w; next_id := next_id w; clock := clock w;
     db_calls := db_calls w; _cleanup_tasks := _cleanup_tasks w;
     running := running w; next_task := next_task w;
     _message_count := _message_count w; _error_count := _error_count w;
     cleanup_operations := cleanup_operations w;
     store_latency := s; retrieve_latency := r; sleeps := sleeps w |}.

Definition set_sleeps (l : list Z) : World :=
  {| stm_buffer := stm_buffer w; next_id := next_id w; clock := clock w;
     db_calls := db_calls w; _cleanup_tasks := _cleanup_tasks w;
     running := running w; next_task := next_task w;
     _message_count := _message_count w; _error_count := _error_count w;
     cleanup_operations := cleanup_operations w;
     store_latency := store_latency w;
     retrieve_latency := retrieve_latency w; sleeps := l |}.
End Setters.

(** [await asyncio.sleep(d)] *)
Definition sleep (d : Z) : M World unit :=
  modify (fun w => set_sleeps w (sleeps w ++ [d])).

(** One database round trip ([async with self.db.acquire()] and a
    query on the connection): it fails as the surroundings say, before
    the query has run, or runs the query. *)
Definition db_call {A} (env : Env) (query : M World A) : M World A :=
  fun w =>
    match fault env (db_calls w) with
    | Some e => (Raised e, tick w)
    | None => query (tick w)
    end.

(** Query arguments are checked against the column types. *)
Definition as_int (v : pyval) : outcome Z :=
  match v with
  | PyInt z => Returned z
  | _ => Raised (StorageError "invalid input for query argument (integer)")
  end.

Definition as_text (v : pyval) : outcome string :=
  match v with
  | PyStr s => Returned s
  | _ => Raised (StorageError "invalid input for query argument (text)")
  end.

Definition as_opt_text (v : pyval) : outcome (option string) :=
  match v with
  | PyNone => Returned None
  | PyStr s => Returned (Some s)
  | _ => Raised (StorageError "invalid input for query argument (text)")
  end.

(** INSERT INTO stm_buffer (...) VALUES (...) RETURNING id *)
Definition insert_row (uid role content emotion mode : pyval)
  : M World Z :=
  let* u := lift (as_int uid) in
  let* r := lift (as_text role) in
  let* c := lift (as_text content) in
  let* e := lift (as_opt_text emotion) in
  let* m := lift (as_opt_text mode) in
  fun w =>
    let row := {| id := next_id w; user_id := u; role := r; content := c;
                  emotion := e; mode := m; created_at := clock w |} in
    (Returned (next_id w),
     set_next_id (set_table w (stm_buffer w ++ [row])) (next_id w + 1)).

Definition rows_of (u : Z) (t : list StmRow) : list StmRow :=
  List.filter (fun r => bool_decide (user_id r = u)) t.

(** SELECT COUNT( * ) FROM stm_buffer WHERE user_id = $1 *)
Definition count_rows (uid : pyval) : M World Z :=
  let* u := lift (as_int uid) in
  gets (fun w => Z.of_nat (length (rows_of u (stm_buffer w)))).

Definition oldest_first : relation StmRow :=
  fun a b => created_at a <= created_at b.
Definition newest_first : relation StmRow :=
  fun a b => created_at b <= created_at a.

#[global] Instance oldest_first_dec : RelDecision oldest_first.
Proof. intros a b. unfold oldest_first. apply _. Defined.
#[global] Instance newest_first_dec : RelDecision newest_first.
Proof. intros a b. unfold newest_first. apply _. Defined.

(** A LIMIT must be a non-negative integer. *)
Definition as_limit (v : pyval) : outcome nat :=
  match v with
  | PyInt z =>
      if z <? 0 then Raised (StorageError "LIMIT must not be negative")
      else Returned (Z.to_nat z)
  | _ => Raised (StorageError "invalid input for query argument (integer)")
  end.

(** SELECT ... FROM stm_buffer WHERE user_id = $1
    ORDER BY created_at DESC LIMIT $2 *)
Definition select_recent (t : list StmRow) (u : Z) (n : nat)
  : list StmRow :=
  take n (merge_sort newest_first (rows_of u t)).

Definition fetch_recent (uid limit : pyval) : M World (list StmRow) :=
  let* u := lift (as_int uid) in
  let* n := lift (as_limit limit) in
  gets (fun w => select_recent (stm_buffer w) u n).

(** SELECT id FROM stm_buffer WHERE user_id = $1
    ORDER BY created_at ASC LIMIT $2 *)
Definition select_oldest (t : list StmRow) (u : Z) (n : nat)
  : list StmRow :=
  take n (merge_sort oldest_first (rows_of u t)).

(** DELETE FROM stm_buffer WHERE id IN (the ids selected above) *)
Definition delete_ids (ids : list Z) (t : list StmRow) : list StmRow :=
  List.filter (fun r => negb (bool_decide (id r ∈ ids))) t.

Definition delete_oldest (uid limit : pyval) : M World unit :=
  let* u := lift (as_int uid) in
  let* n := lift (as_limit limit) in
  modify (fun w =>
    set_table w
      (delete_ids (map id (select_oldest (stm_buffer w) u n))
                  (stm_buffer w))).

(** [samples.append(x); if len(samples) > 100: samples.pop(0)] *)
Definition push_sample (x : Z) (samples : list Z) : list Z :=
  let s := samples ++ [x] in
  if 100 <? Z.of_nat (length s) then drop 1 s else s.

Definition dict_of (l : list (string * pyval)) : pyval :=
  PyDict (list_to_map l).

(** The result dictionaries. *)
Definition failure (e : exn) : pyval :=
  dict_of [("success", PyBool false); ("error", PyStr (str e))].

Definition stored (message_id now : Z) : pyval :=
  dict_of [("success", PyBool true); ("message_id", PyInt message_id);
           ("timestamp", PyIso now)].

(** MemoryActor._cleanup_old_messages *)
Definition _cleanup_old_messages (cfg : MemoryConfig) (env : Env)
    (data : pyval) : M World pyval :=
  let* uid := lift (subscript data "user_id") in
  try_except
    (let* count := db_call env (count_rows uid) in
     if stm_limit cfg <? count then
       let excess := count - stm_limit cfg in
       db_call env
         (delete_oldest uid (PyInt (excess + cleanup_batch_size cfg))) ;;;
       modify (fun w =>
         set_counters w (_message_count w) (_error_count w)
                      (cleanup_operations w + 1)) ;;;
       ret (dict_of [("success", PyBool true);
                     ("deleted_count", PyInt excess);
                     ("remaining_count", PyInt (stm_limit cfg))])
     else
       ret (dict_of [("success", PyBool true);
                     ("deleted_count", PyInt 0);
                     ("remaining_count", PyInt count)]))
    (fun e => ret (failure e)).

(** [asyncio.create_task(self._cleanup_old_messages({"user_id": u}))],
    the entry in [_cleanup_tasks] and the registration of the done
    callback. *)
Definition spawn_cleanup (u : Z) : M World unit :=
  modify (fun w =>
    let t := next_task w in
    set_tasks w (<[u := t]> (_cleanup_tasks w)) (running w ++ [(t, u)])
              (S t)).

(** MemoryActor._check_and_cleanup, first up to its [await] ... *)
Definition cleanup_registered (u : Z) (w : World) : bool :=
  bool_decide (is_Some (_cleanup_tasks w !! u)).

(** ... and then from the [await] on. *)
Definition check_resume (cfg : MemoryConfig) (env : Env) (u : Z)
  : M World unit :=
  try_except
    (let* count := db_call env (count_rows (PyInt u)) in
     if stm_limit cfg <? count then spawn_cleanup u else ret tt)
    (fun _ => ret tt).

Definition _check_and_cleanup (cfg : MemoryConfig) (env : Env) (u : Z)
  : M World unit :=
  let* present := gets (cleanup_registered u) in
  if present then ret tt else check_resume cfg env u.

(** One pass through the body of the retry loop of
    [_store_user_message], up to its [return]. *)
Definition store_attempt (cfg : MemoryConfig) (env : Env)
    (uid content emotion mode : pyval) : M World pyval :=
  let* message_id :=
    db_call env (insert_row uid (PyStr "user") content emotion mode) in
  let* u := lift (as_int uid) in
  _check_and_cleanup cfg env u ;;;
  (if performance_log_enabled cfg then
     modify (fun w =>
       set_latencies w (push_sample (latency env) (store_latency w))
                     (retrieve_latency w))
   else ret tt) ;;;
  let* now := gets clock in
  ret (stored message_id now).

(** [for attempt in range(retry_attempts): try: ... except ...].  A
    loop that runs out without returning falls off the end of the
    function, which then returns [None]. *)
Fixpoint store_loop (cfg : MemoryConfig) (body : M World pyval)
    (attempts : list Z) : M World pyval :=
  match attempts with
  | [] => ret PyNone
  | attempt :: rest =>
      try_except body
        (fun e =>
           if attempt <? retry_attempts cfg - 1 then
             sleep (retry_delay_seconds cfg) ;;;
             store_loop cfg body rest
           else raise e)
  end.

(** [range(n)] *)
Definition range (n : Z) : list Z := seqZ 0 n.

(** MemoryActor._store_user_message *)
Definition _store_user_message (cfg : MemoryConfig) (env : Env)
    (data : pyval) : M World pyval :=
  let* uid := lift (subscript data "user_id") in
  let* content := lift (subscript data "content") in
  let* emotion := lift (get data "emotion" PyNone) in
  let* mode := lift (get data "mode" PyNone) in
  try_except
    (store_loop cfg (store_attempt cfg env uid content emotion mode)
                (range (retry_attempts cfg)))
    (fun e => ret (failure e)).

(** MemoryActor._store_bot_response *)
Definition _store_bot_response (env : Env) (data : pyval)
  : M World pyval :=
  let* uid := lift (subscript data "user_id") in
  let* content := lift (subscript data "content") in
  let* mode := lift (get data "mode" PyNone) in
  try_except
    (let* message_id :=
       db_call env (insert_row uid (PyStr "assistant") content PyNone mode) in
     let* now := gets clock in
     ret (stored message_id now))
    (fun e => ret (failure e)).

Definition opt_text (o : option string) : pyval :=
  match o with
  | Some s => PyStr s
  | None => PyNone
  end.

(** The [message_dict] built for a fetched row. *)
Definition message_dict (msg : StmRow) : pyval :=
  dict_of [("id", PyInt (id msg)); ("role", PyStr (role msg));
           ("content", PyStr (content msg));
           ("emotion", opt_text (emotion msg));
           ("mode", opt_text (mode msg));
           ("timestamp", PyIso (created_at msg))].

(** [len(msg['content'])] *)
Definition message_length (msg : StmRow) : Z :=
  Z.of_nat (str_len (content msg)).

(** The loop over [reversed(messages)], with its [break]. *)
Fixpoint accumulate (cap : Z) (msgs : list StmRow)
    (context_messages : list StmRow) (total_length : Z)
  : list StmRow * Z :=
  match msgs with
  | [] => (context_messages, total_length)
  | msg :: rest =>
      if cap <? total_length + message_length msg
      then (context_messages, total_length)
      else accumulate cap rest (context_messages ++ [msg])
                      (total_length + message_length msg)
  end.

(** The characters of a list of turns. *)
Definition total_chars (msgs : list StmRow) : Z :=
  foldr (fun msg n => message_length msg + n) 0 msgs.

(** MemoryActor._get_conversation_context *)
Definition _get_conversation_context (cfg : MemoryConfig) (env : Env)
    (data : pyval) : M World pyval :=
  let* uid := lift (subscript data "user_id") in
  let* limit := lift (get data "limit" (PyInt (stm_limit cfg))) in
  try_except
    (let* messages := db_call env (fetch_recent uid limit) in
     let '(context_messages, total_length) :=
       accumulate (context_max_length cfg) (reverse messages) [] 0 in
     (if performance_log_enabled cfg then
        modify (fun w =>
          set_latencies w (store_latency w)
                        (push_sample (latency env) (retrieve_latency w)))
      else ret tt) ;;;
     ret (dict_of
            [("success", PyBool true);
             ("messages", PyList (map message_dict context_messages));
             ("count", PyInt (Z.of_nat (length context_messages)));
             ("total_length", PyInt total_length)]))
    (fun e =>
       ret (dict_of [("success", PyBool false); ("error", PyStr (str e));
                     ("messages", PyList [])])).

Definition opt_iso (l : list Z) (pick : Z -> Z -> Z) : pyval :=
  match l with
  | [] => PyNone
  | t :: ts => PyIso (foldr pick t ts)
  end.

(** MemoryActor._get_user_stats *)
Definition _get_user_stats (env : Env) (data : pyval) : M World pyval :=
  let* uid := lift (subscript data "user_id") in
  try_except
    (let* rows :=
       db_call env
         (let* u := lift (as_int uid) in
          gets (fun w => rows_of u (stm_buffer w))) in
     let count_role r :=
       Z.of_nat (length (List.filter
                           (fun x => bool_decide (role x = r)) rows)) in
     ret (dict_of
            [("success", PyBool true); ("user_id", uid);
             ("total_messages", PyInt (Z.of_nat (length rows)));
             ("user_messages", PyInt (count_role "user"));
             ("bot_messages", PyInt (count_role "assistant"));
             ("first_message", opt_iso (map created_at rows) Z.min);
             ("last_message", opt_iso (map created_at rows) Z.max)]))
    (fun e => ret (failure e)).

Definition increment_message_count : M World unit :=
  modify (fun w =>
    set_counters w (_message_count w + 1) (_error_count w)
                 (cleanup_operations w)).

Definition increment_error_count : M World unit :=
  modify (fun w =>
    set_counters w (_message_count w) (_error_count w + 1)
                 (cleanup_operations w)).

(** The type and data of a message, as [handle_message] extracts
    them. *)
Definition unpack (msg : message) : outcome (pyval * pyval) :=
  match msg with
  | ActorMessage type data => Returned (type, data)
  | Plain v =>
      match get v "type" PyNone, get v "data" (PyDict ∅) with
      | Returned type, Returned data => Returned (type, data)
      | Raised e, _ | _, Raised e => Raised e
      | _, _ => Blocked
      end
  end.

Definition unknown_type (message_type : pyval) : pyval :=
  dict_of [("error",
            PyStr ("Unknown message type: " +:+ format message_type))].

(** [message_type == s] *)
Definition type_is (message_type : pyval) (s : string) : bool :=
  match message_type with
  | PyStr x => String.eqb x s
  | _ => false
  end.

(** MemoryActor.handle_message *)
Definition handle_message (cfg : MemoryConfig) (env : Env) (msg : message)
  : M World pyval :=
  try_except
    (increment_message_count ;;;
     let* '(message_type, data) := lift (unpack msg) in
     if type_is message_type "store_user_message" then
       _store_user_message cfg env data
     else if type_is message_type "store_bot_response" then
       _store_bot_response env data
     else if type_is message_type "get_conversation_context" then
       _get_conversation_context cfg env data
     else if type_is message_type "cleanup_old_messages" then
       _cleanup_old_messages cfg env data
     else if type_is message_type "get_user_stats" then
       _get_user_stats env data
     else ret (unknown_type message_type))
    (fun e =>
       increment_error_count ;;;
       ret (dict_of [("error", PyStr (str e))])).

(** A result that is a dictionary and says so when something went
    wrong: it has an ['error'] key, or it has ['success': True] and some
    database round trip has gone through. *)
Definition reports (env : Env) (v : pyval) : Prop :=
  exists d, v = PyDict d /\
    ((d !! "success" = Some (PyBool true) /\ exists k, fault env k = None) \/
     is_Some (d !! "error")).

(** A run that ends, and if it returns, returns such a result. *)
Definition settles (env : Env) (r : outcome pyval * World) : Prop :=
  match fst r with
  | Returned v => reports env v
  | Raised _ => True
  | Blocked => False
  end.

(** *** The actor among concurrent callers

    asyncio runs one coroutine at a time and switches only at an
    [await].  [_check_and_cleanup] has one between its look at
    [_cleanup_tasks] and its entry into it.  The moves of the system
    are: a caller enters [_check_and_cleanup] and reaches the [await];
    a suspended caller is resumed; an unfinished cleanup task runs to
    its end, after which its done callback pops the user's entry. *)
Inductive move : Type :=
| Enter (u : Z)
| Resume (u : Z) (env : Env)
| Finish (t : nat) (env : Env).

Record System : Type := {
  world : World;
  suspended : list Z     (* callers of _check_and_cleanup at the await *)
}.

Fixpoint remove_first (u : Z) (l : list Z) : option (list Z) :=
  match l with
  | [] => None
  | x :: xs =>
      if bool_decide (x = u) then Some xs
      else cons x <$> remove_first u xs
  end.

Definition task_user (t : nat) (r : list (nat * Z)) : option Z :=
  snd <$> List.find (fun p => bool_decide (fst p = t)) r.

(** The done callback: [self._cleanup_tasks.pop(user_id, None)]. *)
Definition done_callback (t : nat) (u : Z) (w : World) : World :=
  set_tasks w (delete u (_cleanup_tasks w))
            (List.filter (fun p => negb (bool_decide (fst p = t)))
                         (running w))
            (next_task w).

(** A move that is not enabled leaves the system as it is. *)
Definition step (cfg : MemoryConfig) (m : move) (s : System) : System :=
  match m with
  | Enter u =>
      if cleanup_registered u (world s) then s
      else {| world := world s; suspended := suspended s ++ [u] |}
  | Resume u env =>
      match remove_first u (suspended s) with
      | Some rest =>
          {| world := snd (check_resume cfg env u (world s));
             suspended := rest |}
      | None => s
      end
  | Finish t env =>
      match task_user t (running (world s)) with
      | Some u =>
          let w :=
            snd (_cleanup_old_messages cfg env
                   (dict_of [("user_id", PyInt u)]) (world s)) in
          {| world := done_callback t u w; suspended := suspended s |}
      | None => s
      end
  end.

Definition run (cfg : MemoryConfig) (ms : list move) (s : System)
  : System :=
  foldl (fun s m => step cfg m s) s ms.

(** The unfinished cleanup tasks of a user. *)
Definition outstanding (u : Z) (w : World) : list nat :=
  map fst (List.filter (fun p => bool_decide (snd p = u)) (running w)).

(** The moves of a system whose callers do not overlap: a caller runs
    [_check_and_cleanup] from its test to its end, or a task ends. *)
Inductive serial_move : Type :=
| Trigger (u : Z) (env : Env)
| Ends (t : nat) (env : Env).

Definition serial_step (cfg : MemoryConfig) (m : serial_move) (w : World)
  : World :=
  match m with
  | Trigger u env => snd (_check_and_cleanup cfg env u w)
  | Ends t env =>
      world (step cfg (Finish t env) {| world := w; suspended := [] |})
  end.

(** [_cleanup_tasks] is exact: the unfinished tasks of a user are the
    one its entry names, or none when it has no entry. *)
Definition registry_exact (w : World) : Prop :=
  NoDup (map fst (running w)) /\
  (forall p, p ∈ running w -> (fst p < next_task w)%nat) /\
  forall u,
    outstanding u w =
      match _cleanup_tasks w !! u with
      | Some t => [t]
      | None => []
      end.

(** A computation that leaves a field [f] of the actor as it is. *)
Definition leaves {A B} (f : World -> B) (m : M World A) : Prop :=
  forall w, f (snd (m w)) = f w.

(** A result that one of the five operations has made: a dictionary
    with a ['success'] key. *)
Definition answers (v : pyval) : Prop :=
  exists d, v = PyDict d /\ is_Some (d !! "success").

End MemoryActor.

(** ** Session coordinator *)

Module UserSession.

Import MemoryActor.

(** COORDINATION_CONFIG (src/config/coordination.py), the options read
    by the coordinator; [retry_patterns] maps a target to its attempts
    and its delay in milliseconds. *)
Record CoordinationConfig : Type := {
  actor_timeout_seconds : Z;
  coordination_retry_attempts : Z;
  coordination_retry_delay_ms : Z;
  retry_patterns : gmap string (Z * Z)
}.

Definition COORDINATION_CONFIG : CoordinationConfig := {|
  actor_timeout_seconds := 30;
  coordination_retry_attempts := 3;
  coordination_retry_delay_ms := 500;
  retry_patterns := {[ "memory" := (3, 500); "generation" := (2, 1000) ]}
|}.

(** EVENT_CONFIG["event_types"][...]["max_text_length"] and
    DEFAULT_MODE (src/config/settings.py). *)
Definition user_message_max_text_length : Z := 4096.
Definition bot_response_max_text_length : Z := 8192.
Definition DEFAULT_MODE : string := "default".

(** The fallback answer of [handle_user_message]. *)
Definition FALLBACK : string :=
  "Что-то пошло не так. Давайте попробуем еще раз?".

(** The events of src/events/conversation_events.py, with the fields
    the coordinator sets. *)
Inductive event : Type :=
| UserMessageEvent (user_id : Z) (text : string)
| BotResponseEvent (user_id : Z) (response_text : string)
    (generation_time_ms : Z) (mode_used : string)
| ActorCoordinationEvent (target_actor coordination_type : string)
    (success : bool) (error_message : option string) (user_id : option Z)
| SystemEvent (event_subtype : string) (user_id : option Z)
    (data : pyval) (severity : string).

(** UserMessageEvent(...), with its validator [validate_text_length]. *)
Definition new_UserMessageEvent (user_id : Z) (text : string)
  : outcome event :=
  if user_message_max_text_length <? Z.of_nat (str_len text)
  then Raised (ValueError "Text length exceeds limit")
  else Returned (UserMessageEvent user_id text).

(** BotResponseEvent(...), with its validator
    [validate_response_length]. *)
Definition new_BotResponseEvent (user_id : Z) (response_text : string)
    (generation_time_ms : Z) : outcome event :=
  if bot_response_max_text_length <? Z.of_nat (str_len response_text)
  then Raised (ValueError "Response length exceeds limit")
  else Returned (BotResponseEvent user_id response_text generation_time_ms
                                  DEFAULT_MODE).

(** SystemEvent(...), with its validator [validate_severity]. *)
Definition new_SystemEvent (event_subtype : string) (user_id : option Z)
    (data : pyval) (severity : string) : outcome event :=
  if bool_decide (severity ∈ ["info"; "warning"; "error"; "critical"])
  then Returned (SystemEvent event_subtype user_id data severity)
  else Raised (ValueError "Invalid severity").

(** [to_memory_format] of the two conversation events. *)
Definition to_memory_format (e : event) : pyval :=
  match e with
  | UserMessageEvent u text =>
      dict_of [("user_id", PyInt u); ("content", PyStr text);
               ("emotion", PyNone); ("mode", PyNone)]
  | BotResponseEvent u text _ m =>
      dict_of [("user_id", PyInt u); ("content", PyStr text);
               ("mode", PyStr m)]
  | _ => PyNone
  end.

(** MEMORY_MESSAGE_TYPES (src/actors/message_types.py): the required
    fields of each message type. *)
Definition MEMORY_MESSAGE_TYPES : gmap string (list string) :=
  {[ "store_user_message" := ["user_id"; "content"];
     "store_bot_response" := ["user_id"; "content"];
     "get_conversation_context" := ["user_id"];
     "cleanup_old_messages" := ["user_id"];
     "get_user_stats" := ["user_id"] ]}.

Definition has_field (data : pyval) (field : string) : bool :=
  match data with
  | PyDict d => bool_decide (is_Some (d !! field))
  | _ => false
  end.

(** create_memory_message *)
Definition create_memory_message (message_type : string) (data : pyval)
  : outcome message :=
  match MEMORY_MESSAGE_TYPES !! message_type with
  | None => Raised (ValueError "unknown message type")
  | Some required_fields =>
      match List.filter (fun f => negb (has_field data f))
                        required_fields with
      | [] => Returned (ActorMessage (PyStr message_type) data)
      | _ => Raised (ValueError "missing required fields")
      end
  end.

(** How an awaited collaborator answers. *)
Inductive reply (A : Type) : Type :=
| Replies (a : A)
| Fails (e : exn)
| Hangs.
Arguments Replies {A} a.
Arguments Fails {A} e.
Arguments Hangs {A}.

(** The collaborators, call by call: [save_event n] is what the [n]-th
    call of [event_store.save_event] returns ([None]: it does not
    return), [memory n] is how the [n]-th call of
    [memory_actor.handle_message] answers and [ask_deepseek n] how
    the [n]-th call of the generation service does; the two readings
    of the clock. *)
Record Env : Type := {
  save_event : nat -> option bool;
  memory : nat -> reply pyval;
  ask_deepseek : nat -> reply string;
  response_time : Z;
  generation_time : Z
}.

(** The world of a [UserSessionActor]: [_coordination_metrics], and
    what has gone out to the collaborators. *)
Record World : Type := {
  total_messages : Z;
  successful_flows : Z;
  failed_flows : Z;
  actor_timeouts : Z;
  avg_response_time : list Z;
  saved : list event;               (* arguments of save_event *)
  sent : list message;              (* arguments of handle_message *)
  asked : list string;              (* arguments of ask_deepseek *)
  slept_ms : list Z
}.

Definition set_metrics (tm sf ff ato : Z) (art : list Z) (w : World)
  : World :=
  {| total_messages := tm; successful_flows := sf; failed_flows := ff;
     actor_timeouts := ato; avg_response_time := art;
     saved := saved w; sent := sent w; asked := asked w;
     slept_ms := slept_ms w |}.

Definition set_out (sv : list event) (sn : list message)
    (ak : list string) (sl : list Z) (w : World) : World :=
  {| total_messages := total_messages w;
     successful_flows := successful_flows w;
     failed_flows := failed_flows w;
     actor_timeouts := actor_timeouts w;
     avg_response_time := avg_response_time w;
     saved := sv; sent := sn; asked := ak; slept_ms := sl |}.

(** [await self.event_store.save_event(e)] *)
Definition save (env : Env) (e : event) : M World bool :=
  fun w =>
    let w' := set_out (saved w ++ [e]) (sent w) (asked w) (slept_ms w) w in
    match save_event env (length (saved w)) with
    | Some b => (Returned b, w')
    | None => (Blocked, w')
    end.

(** [await asyncio.wait_for(call, timeout)] *)
Definition wait_for {A} (r : reply A) : outcome A :=
  match r with
  | Replies a => Returned a
  | Fails e => Raised e
  | Hangs => Raised TimeoutError
  end.

Definition call_memory (env : Env) (msg : message) : M World pyval :=
  fun w =>
    (wait_for (memory env (length (sent w))),
     set_out (saved w) (sent w ++ [msg]) (asked w) (slept_ms w) w).

Definition call_generation (env : Env) (text : string) : M World string :=
  fun w =>
    (wait_for (ask_deepseek env (length (asked w))),
     set_out (saved w) (sent w) (asked w ++ [text]) (slept_ms w) w).

Definition sleep_ms (d : Z) : M World unit :=
  modify (fun w => set_out (saved w) (sent w) (asked w)
                           (slept_ms w ++ [d]) w).

(** [getattr(message, 'data', {}).get('user_id')] for the messages
    built by [create_memory_message] from a dictionary. *)
Definition message_user_id (msg : message) : option Z :=
  match msg with
  | ActorMessage _ (PyDict d) =>
      match d !! "user_id" with
      | Some (PyInt u) => Some u
      | _ => None
      end
  | _ => None
  end.

Definition count_timeout : M World unit :=
  modify (fun w =>
    set_metrics (total_messages w) (successful_flows w) (failed_flows w)
                (actor_timeouts w + 1) (avg_response_time w) w).

(** The loop of [_coordinate_actor_call]; a loop that runs out falls
    off the end of the function, which then returns [None]. *)
Fixpoint coordinate_loop (env : Env) (actor_name : string)
    (msg : message) (timeout attempts delay_ms : Z) (todo : list Z)
  : M World pyval :=
  match todo with
  | [] => ret PyNone
  | attempt :: rest =>
      let uid := message_user_id msg in
      let again (e : exn) : M World pyval :=
        if attempt <? attempts - 1 then
          sleep_ms delay_ms ;;;
          coordinate_loop env actor_name msg timeout attempts delay_ms rest
        else raise e in
      try_except
        (let* result := call_memory env msg in
         save env (ActorCoordinationEvent actor_name "response" true
                                          None uid) ;;;
         ret result)
        (fun e =>
           match e with
           | TimeoutError =>
               count_timeout ;;;
               save env (ActorCoordinationEvent actor_name "timeout" false
                           (Some ("Timeout after " +:+ pretty timeout +:+ "s"))
                           uid) ;;;
               again e
           | _ =>
               save env (ActorCoordinationEvent actor_name "error" false
                           (Some (str e)) uid) ;;;
               again e
           end)
  end.

(** UserSessionActor._coordinate_actor_call *)
Definition _coordinate_actor_call (cfg : CoordinationConfig) (env : Env)
    (actor_name : string) (msg : message) : M World pyval :=
  let '(attempts, delay_ms) :=
    default (coordination_retry_attempts cfg,
             coordination_retry_delay_ms cfg)
            (retry_patterns cfg !! actor_name) in
  coordinate_loop env actor_name msg (actor_timeout_seconds cfg)
                  attempts delay_ms (range attempts).

(** UserSessionActor._coordinate_service_call: both handlers re-raise. *)
Definition _coordinate_service_call (env : Env) (text : string)
  : M World string :=
  try_except (call_generation env text) (fun e => raise e).

(** UserSessionActor._format_context_for_generation; its argument must
    be iterable and hold dictionaries. *)
Fixpoint context_parts (msgs : list pyval) : outcome (list string) :=
  match msgs with
  | [] => Returned []
  | msg :: rest =>
      match get msg "role" (PyStr "user"), get msg "content" (PyStr EmptyString) with
      | Returned role, Returned content =>
          match context_parts rest with
          | Returned parts =>
              Returned ((format role +:+ ": " +:+ format content) :: parts)
          | r => r
          end
      | Raised e, _ | _, Raised e => Raised e
      | _, _ => Blocked
      end
  end.

(** ["\n".join(parts)] *)
Fixpoint join_lines (parts : list string) : string :=
  match parts with
  | [] => EmptyString
  | [p] => p
  | p :: rest => p +:+ String (Ascii.ascii_of_nat 10) (join_lines rest)
  end.

Definition _format_context_for_generation (messages : pyval)
  : outcome string :=
  match messages with
  | PyList l =>
      match context_parts l with
      | Returned parts => Returned (join_lines parts)
      | Raised e => Raised e
      | Blocked => Blocked
      end
  | PyStr s =>
      if String.eqb s EmptyString then Returned EmptyString
      else Raised (AttributeError "'str' object has no attribute 'get'")
  | PyDict d =>
      if bool_decide (d = ∅) then Returned EmptyString
      else Raised (AttributeError "'str' object has no attribute 'get'")
  | PyIso _ =>
      Raised (AttributeError "'str' object has no attribute 'get'")
  | _ => Raised (TypeError "object is not iterable")
  end.

(** [len(messages)] *)
Definition len (v : pyval) : outcome Z :=
  match v with
  | PyList l => Returned (Z.of_nat (length l))
  | PyStr s => Returned (Z.of_nat (str_len s))
  | PyDict d => Returned (Z.of_nat (size d))
  | _ => Raised (TypeError "object has no len()")
  end.

(** UserSessionActor._log_coordination_event *)
Definition _log_coordination_event (env : Env) (event_subtype : string)
    (user_id : Z) (data : pyval) (severity : string) : M World unit :=
  let* system_event :=
    lift (new_SystemEvent event_subtype (Some user_id) data severity) in
  save env system_event ;;;
  ret tt.

(** The body of the [try] of [handle_user_message]: steps 1 to 8 of
    its docstring, the success metrics and the success record. *)
Definition pipeline (cfg : CoordinationConfig) (env : Env)
    (user_message : string) (user_id : Z) : M World string :=
  (* 1, 2 *)
  let* user_event := lift (new_UserMessageEvent user_id user_message) in
  save env user_event ;;;
  (* 3 *)
  let* store_message :=
    lift (create_memory_message "store_user_message"
            (to_memory_format user_event)) in
  _coordinate_actor_call cfg env "memory" store_message ;;;
  (* 4 *)
  let* context_message :=
    lift (create_memory_message "get_conversation_context"
            (dict_of [("user_id", PyInt user_id); ("limit", PyInt 10)])) in
  let* context_response :=
    _coordinate_actor_call cfg env "memory" context_message in
  (* 5 *)
  let* messages := lift (get context_response "messages" (PyList [])) in
  let* context_text := lift (_format_context_for_generation messages) in
  let* response_text := _coordinate_service_call env user_message in
  (* 6, 7 *)
  let* bot_event :=
    lift (new_BotResponseEvent user_id response_text
                               (generation_time env)) in
  save env bot_event ;;;
  (* 8 *)
  let* response_message :=
    lift (create_memory_message "store_bot_response"
            (to_memory_format bot_event)) in
  _coordinate_actor_call cfg env "memory" response_message ;;;
  modify (fun w =>
    set_metrics (total_messages w) (successful_flows w + 1)
                (failed_flows w) (actor_timeouts w)
                (push_sample (response_time env) (avg_response_time w))
                w) ;;;
  let* context_messages := lift (len messages) in
  _log_coordination_event env "user_flow_complete" user_id
    (dict_of [("response_time_seconds", PyInt (response_time env));
              ("generation_time_ms", PyInt (generation_time env));
              ("context_messages", PyInt context_messages)])
    "info" ;;;
  ret response_text.

(** UserSessionActor.handle_user_message *)
Definition handle_user_message (cfg : CoordinationConfig) (env : Env)
    (user_message : string) (user_id : Z) : M World string :=
  modify (fun w =>
    set_metrics (total_messages w + 1) (successful_flows w)
                (failed_flows w) (actor_timeouts w)
                (avg_response_time w) w) ;;;
  try_except
    (pipeline cfg env user_message user_id)
    (fun e =>
       modify (fun w =>
         set_metrics (total_messages w) (successful_flows w)
                     (failed_flows w + 1) (actor_timeouts w)
                     (avg_response_time w) w) ;;;
       _log_coordination_event env "user_flow_error" user_id
         (dict_of [("error", PyStr (str e))]) "error" ;;;
       ret FALLBACK).

(** A computation that leaves a metric [f] as it is and that, when it
    does not end, waits for the event store. *)
Definition keeps {A} (env : Env) (f : World -> Z) (m : M World A) : Prop :=
  forall w,
    f (snd (m w)) = f w /\
    (fst (m w) = Blocked -> exists n, save_event env n = None).

(** The coordination event that the two handlers of
    [_coordinate_actor_call] hand to the event store for an attempt
    that raised [e]. *)
Definition failure_event (actor_name : string) (timeout : Z)
    (uid : option Z) (e : exn) : event :=
  match e with
  | TimeoutError =>
      ActorCoordinationEvent actor_name "timeout" false
        (Some ("Timeout after " +:+ pretty timeout +:+ "s")) uid
  | _ => ActorCoordinationEvent actor_name "error" false (Some (str e)) uid
  end.

(** The world after an attempt of [_coordinate_actor_call] that raised
    [e], before the sleep: the message has gone out, the event has been
    handed over, and a timeout has been counted. *)
Definition after_failure (actor_name : string) (msg : message)
    (timeout : Z) (e : exn) (w : World) : World :=
  {| total_messages := total_messages w;
     successful_flows := successful_flows w;
     failed_flows := failed_flows w;
     actor_timeouts :=
       if bool_decide (e = TimeoutError) then actor_timeouts w + 1
       else actor_timeouts w;
     avg_response_time := avg_response_time w;
     saved := saved w ++
              [failure_event actor_name timeout (message_user_id msg) e];
     sent := sent w ++ [msg];
     asked := asked w;
     slept_ms := slept_ms w |}.

End UserSession.

(** ** Actor base class *)

Module BaseActor.

(** The fields that [BaseActor.__init__] sets
    (src/actors/base_actor.py). *)
Record Actor : Type := {
  name : string;
  is_initialized : bool;
  is_running : bool;
  _start_time : option Z;
  _message_count : Z;
  _error_count : Z
}.

(** BaseActor.__init__ *)
Definition new (name : string) : Actor := {|
  name := name;
  is_initialized := false;
  is_running := false;
  _start_time := None;
  _message_count := 0;
  _error_count := 0
|}.

(** BaseActor.initialize; [now] is [datetime.utcnow()]. *)
Definition initialize (now : Z) : M Actor unit :=
  fun a =>
    if is_initialized a then (Returned tt, a)
    else
      (Returned tt,
       {| name := name a;
          is_initialized := true;
          is_running := true;
          _start_time := Some now;
          _message_count := _message_count a;
          _error_count := _error_count a |}).

(** BaseActor.shutdown; [graceful] is how [self._graceful_shutdown()]
    answers within the timeout.  Of the exceptions of the wait only
    [asyncio.TimeoutError] is caught. *)
Definition shutdown (graceful : UserSession.reply unit) : M Actor unit :=
  fun a =>
    if negb (is_running a) then (Returned tt, a)
    else
      (try_except (lift (UserSession.wait_for graceful))
         (fun e =>
            match e with
            | TimeoutError => ret tt
            | _ => raise e
            end) ;;;
       modify (fun a =>
         {| name := name a;
            is_initialized := false;
            is_running := false;
            _start_time := _start_time a;
            _message_count := _message_count a;
            _error_count := _error_count a |})) a.

(** BaseActor.health_check; the uptime in whole seconds. *)
Definition health_check (now : Z) (a : Actor) : MemoryActor.pyval :=
  let uptime :=
    match _start_time a with
    | Some t => MemoryActor.PyInt (now - t)
    | None => MemoryActor.PyNone
    end in
  MemoryActor.dict_of
    [("actor", MemoryActor.PyStr (name a));
     ("status",
      MemoryActor.PyStr (if is_running a then "healthy" else "stopped"));
     ("initialized", MemoryActor.PyBool (is_initialized a));
     ("uptime_seconds", uptime);
     ("message_count", MemoryActor.PyInt (_message_count a));
     ("error_count", MemoryActor.PyInt (_error_count a));
     ("timestamp", MemoryActor.PyIso now)].

(** The calls that start and stop an actor. *)
Inductive call : Type :=
| Initialize (now : Z)
| Shutdown (graceful : UserSession.reply unit).

Definition perform (a : Actor) (c : call) : Actor :=
  match c with
  | Initialize now => snd (initialize now a)
  | Shutdown graceful => snd (shutdown graceful a)
  end.

End BaseActor.

(** ** Concrete inputs *)

Module Scenarios.

(** The fragment of JSON made of the two literals [true] and [false],
    and the size CPython reports for an ASCII [str]. *)
Definition flag_dumps (b : bool) : string := if b then "true" else "false".
Definition flag_loads (s : string) : bool := bool_decide (s = "true").
Definition flag_size (e : EventStore.BaseEvent bool) : Z :=
  49 + Z.of_nat (String.length (EventStore.event_type e))
     + Z.of_nat (String.length (flag_dumps (EventStore.data e))).

Definition user_event (n : Z) (t : Z) : EventStore.BaseEvent bool :=
  EventStore.BaseEvent_init
    {| EventStore.event_id := "e" +:+ pretty n;
       EventStore.event_type := "user_message";
       EventStore.timestamp := t;
       EventStore.user_id := Some 42;
       EventStore.data := true;
       EventStore.stream_id := None;
       EventStore.version := 1;
       EventStore.metadata := false |}.

Definition empty_store : EventStore.World bool := {|
  EventStore._event_buffer := [];
  EventStore._buffer_lock := false;
  EventStore.events_table := [];
  EventStore.trace := []
|}.

(** A store whose buffer holds one event. *)
Definition one_buffered : EventStore.World bool :=
  EventStore.set_buffer [user_event 1 1000] empty_store.

(** A batch size of two, otherwise EVENT_CONFIG. *)
Definition small_batches : EventStore.EventConfig := {|
  EventStore.max_event_size_bytes := 64000;
  EventStore.event_batch_size := 2;
  EventStore.event_compression_enabled := true;
  EventStore.event_validation_enabled := true
|}.

(** Neither validation nor compression, and a ceiling of 10 bytes. *)
Definition unvalidated : EventStore.EventConfig := {|
  EventStore.max_event_size_bytes := 10;
  EventStore.event_batch_size := 100;
  EventStore.event_compression_enabled := false;
  EventStore.event_validation_enabled := false
|}.

(** A stream that already holds a hundred bot responses. *)
Definition old_row (t : Z) : EventStore.EventRow := {|
  EventStore.row_event_type := "bot_response";
  EventStore.row_user_id := 42;
  EventStore.row_data := "false";
  EventStore.row_stream_id := "user_42";
  EventStore.row_version := 1;
  EventStore.row_metadata := "false";
  EventStore.row_timestamp := t
|}.

Definition long_stream : EventStore.World bool :=
  EventStore.set_table (map old_row (seqZ 1 100)) empty_store.

Definition db_up (now : Z) : EventStore.Env bool := {|
  EventStore.insert_fault := None;
  EventStore.fetch_fault := None;
  EventStore.db_now := now;
  EventStore.arrivals := []
|}.

Definition db_down (now : Z) : EventStore.Env bool := {|
  EventStore.insert_fault := Some (StorageError "connection lost");
  EventStore.fetch_fault := None;
  EventStore.db_now := now;
  EventStore.arrivals := []
|}.

(** A failing insert during which a second event arrives. *)
Definition db_down_meanwhile (now : Z) : EventStore.Env bool := {|
  EventStore.insert_fault := Some (StorageError "connection lost");
  EventStore.fetch_fault := None;
  EventStore.db_now := now;
  EventStore.arrivals := [user_event 2 1001]
|}.

(** The fields of a system event as its constructor receives them,
    without a stream id. *)
Definition raw_event (uid : option Z) : EventStore.BaseEvent bool := {|
  EventStore.event_id := "e0";
  EventStore.event_type := "system_event";
  EventStore.timestamp := 1000;
  EventStore.user_id := uid;
  EventStore.data := true;
  EventStore.stream_id := None;
  EventStore.version := 1;
  EventStore.metadata := false
|}.

(** Turns of user 7, one per tick, the oldest first. *)
Definition turn (n : Z) : MemoryActor.StmRow := {|
  MemoryActor.id := n;
  MemoryActor.user_id := 7;
  MemoryActor.role := "user";
  MemoryActor.content := "hello";
  MemoryActor.emotion := None;
  MemoryActor.mode := None;
  MemoryActor.created_at := n
|}.

Definition memory_with (rows : list MemoryActor.StmRow) : MemoryActor.World := {|
  MemoryActor.stm_buffer := rows;
  MemoryActor.next_id := 1 + Z.of_nat (length rows);
  MemoryActor.clock := 1 + Z.of_nat (length rows);
  MemoryActor.db_calls := 0;
  MemoryActor._cleanup_tasks := ∅;
  MemoryActor.running := [];
  MemoryActor.next_task := 0;
  MemoryActor._message_count := 0;
  MemoryActor._error_count := 0;
  MemoryActor.cleanup_operations := 0;
  MemoryActor.store_latency := [];
  MemoryActor.retrieve_latency := [];
  MemoryActor.sleeps := []
|}.

(** Three turns of user 7 with the same Russian greeting, six
    characters that take twelve bytes, the oldest first. *)
Definition said (n : Z) : MemoryActor.StmRow := {|
  MemoryActor.id := n;
  MemoryActor.user_id := 7;
  MemoryActor.role := "user";
  MemoryActor.content := "привет";
  MemoryActor.emotion := None;
  MemoryActor.mode := None;
  MemoryActor.created_at := n
|}.

Definition greeted : MemoryActor.World := memory_with (map said (seqZ 1 3)).

(** A context of at most twelve characters, otherwise MEMORY_CONFIG. *)
Definition tight : MemoryActor.MemoryConfig := {|
  MemoryActor.stm_limit := 25;
  MemoryActor.cleanup_batch_size := 10;
  MemoryActor.retry_attempts := 3;
  MemoryActor.retry_delay_seconds := 1;
  MemoryActor.context_max_length := 12;
  MemoryActor.performance_log_enabled := true
|}.

(** Twenty-six turns of user 7: one more than the limit. *)
Definition crowded : MemoryActor.World := memory_with (map turn (seqZ 1 26)).

(** A database that fails every round trip. *)
Definition unreachable : MemoryActor.Env := {|
  MemoryActor.fault := fun _ => Some (StorageError "connection lost");
  MemoryActor.latency := 0
|}.

Definition hello : MemoryActor.pyval :=
  MemoryActor.dict_of [("user_id", MemoryActor.PyInt 7);
                       ("content", MemoryActor.PyStr "hello")].

(** A database that fails the first round trip and no other. *)
Definition flaky_once : MemoryActor.Env := {|
  MemoryActor.fault := fun n =>
    match n with
    | O => Some (StorageError "connection lost")
    | S _ => None
    end;
  MemoryActor.latency := 0
|}.

(** A request for the statistics of user 42, and an answer to it. *)
Definition stats_request : MemoryActor.message :=
  MemoryActor.ActorMessage (MemoryActor.PyStr "get_user_stats")
    (MemoryActor.dict_of [("user_id", MemoryActor.PyInt 42)]).

Definition stats_answer : MemoryActor.pyval :=
  MemoryActor.dict_of [("success", MemoryActor.PyBool true);
                       ("total_messages", MemoryActor.PyInt 0)].

(** A text of 3000 Cyrillic characters, which take 6000 bytes. *)
Definition cyrillic_text : string :=
  foldr (fun _ s => "п" +:+ s) EmptyString (seq 0 3000).

(** A text of 4097 characters. *)
Definition long_text : string :=
  foldr (fun _ s => String (Ascii.ascii_of_nat 97) s) EmptyString
        (seq 0 4097).

(** Collaborators that answer at once: the store saves, the memory
    actor returns an empty context, the generation service echoes. *)
Definition all_well : UserSession.Env := {|
  UserSession.save_event := fun _ => Some true;
  UserSession.memory := fun _ =>
    UserSession.Replies
      (MemoryActor.dict_of [("success", MemoryActor.PyBool true);
                            ("messages", MemoryActor.PyList [])]);
  UserSession.ask_deepseek := fun _ => UserSession.Replies "Echo: hi";
  UserSession.response_time := 2;
  UserSession.generation_time := 1500
|}.

(** A memory actor that never answers. *)
Definition memory_silent : UserSession.Env := {|
  UserSession.save_event := fun _ => Some true;
  UserSession.memory := fun _ => UserSession.Hangs;
  UserSession.ask_deepseek := fun _ => UserSession.Replies "Echo: hi";
  UserSession.response_time := 2;
  UserSession.generation_time := 1500
|}.

(** A memory actor that does not answer the first call and answers the
    later ones. *)
Definition memory_slow_once : UserSession.Env := {|
  UserSession.save_event := fun _ => Some true;
  UserSession.memory := fun n =>
    match n with
    | O => UserSession.Hangs
    | S _ => UserSession.Replies stats_answer
    end;
  UserSession.ask_deepseek := fun _ => UserSession.Replies "Echo: hi";
  UserSession.response_time := 2;
  UserSession.generation_time := 1500
|}.

(** A generation service that fails every call. *)
Definition generation_down : UserSession.Env := {|
  UserSession.save_event := fun _ => Some true;
  UserSession.memory := fun _ =>
    UserSession.Replies
      (MemoryActor.dict_of [("success", MemoryActor.PyBool true);
                            ("messages", MemoryActor.PyList [])]);
  UserSession.ask_deepseek := fun _ =>
    UserSession.Fails (ValueError "service unavailable");
  UserSession.response_time := 2;
  UserSession.generation_time := 1500
|}.

Definition fresh_session : UserSession.World := {|
  UserSession.total_messages := 0;
  UserSession.successful_flows := 0;
  UserSession.failed_flows := 0;
  UserSession.actor_timeouts := 0;
  UserSession.avg_response_time := [];
  UserSession.saved := [];
  UserSession.sent := [];
  UserSession.asked := [];
  UserSession.slept_ms := []
|}.

End Scenarios.

(** * Properties *)

(** ** Event store *)

Module EventStoreFacts.

Import EventStore Scenarios.

Section WithJson.

Context {Data : Type}.
Variable json_dumps : Data -> string.
Variable json_loads : string -> Data.
Variable json_size : BaseEvent Data -> Z.

Abbreviation flush := (_flush_buffer json_dumps).
Abbreviation save := (save_event json_dumps json_size).
Abbreviation row := (to_row json_dumps).
Abbreviation rejects := (EventStore.rejects json_size).

Implicit Types (w : World Data) (env : Env Data) (e : BaseEvent Data).

(** *** [_flush_buffer], case by case *)

Lemma flush_empty env w :
  _event_buffer w = [] -> flush env w = (Returned tt, w).
Proof. intros Hb. unfold _flush_buffer. by rewrite Hb. Qed.

Lemma flush_success env w :
  _event_buffer w <> [] ->
  insert_fault env = None ->
  flush env w =
    (Returned tt,
     {| _event_buffer := if _buffer_lock w then [] else arrivals env;
        _buffer_lock := _buffer_lock w;
        events_table :=
          events_table w ++ map (row (db_now env)) (_event_buffer w);
        trace :=
          trace w ++ [DbInsert (_buffer_lock w)
                               (length (_event_buffer w))] |}).
Proof.
  destruct w as [[|e b] lk tbl tr]; cbn; intros Hb Hok; [done|].
  unfold _flush_buffer, try_except, execute_many. cbn. rewrite Hok.
  by destruct lk.
Qed.

(** A failed insert with the lock free: the batch goes back in front
    of what arrived meanwhile. *)
Lemma flush_failure_unlocked env w x :
  _event_buffer w <> [] ->
  _buffer_lock w = false ->
  insert_fault env = Some x ->
  flush env w =
    (Returned tt,
     {| _event_buffer := _event_buffer w ++ arrivals env;
        _buffer_lock := false;
        events_table := events_table w;
        trace := trace w ++ [DbInsert false (length (_event_buffer w))] |}).
Proof.
  destruct w as [[|e b] lk tbl tr]; cbn; intros Hb -> Hx; [done|].
  unfold _flush_buffer, try_except, execute_many. cbn. by rewrite Hx.
Qed.

(** A failed insert with the lock held by the caller: the handler
    waits for the lock, the batch is in neither buffer nor table. *)
Lemma flush_failure_locked env w x :
  _event_buffer w <> [] ->
  _buffer_lock w = true ->
  insert_fault env = Some x ->
  flush env w =
    (Blocked,
     {| _event_buffer := [];
        _buffer_lock := true;
        events_table := events_table w;
        trace := trace w ++ [DbInsert true (length (_event_buffer w))] |}).
Proof.
  destruct w as [[|e b] lk tbl tr]; cbn; intros Hb -> Hx; [done|].
  unfold _flush_buffer, try_except, execute_many. cbn. by rewrite Hx.
Qed.

(** X3: Called with the lock free, a failed flush followed by a
    successful one stores the failed batch first and then what
    arrived meanwhile, each in arrival order. *)
Lemma failed_then_successful_flush env1 env2 w x :
  _event_buffer w <> [] ->
  _buffer_lock w = false ->
  insert_fault env1 = Some x ->
  insert_fault env2 = None ->
  let w1 := snd (_flush_buffer json_dumps env1 w) in
  let w2 := snd (_flush_buffer json_dumps env2 w1) in
  _event_buffer w1 = _event_buffer w ++ arrivals env1 /\
  events_table w2 =
    events_table w ++
    map (to_row json_dumps (db_now env2)) (_event_buffer w ++ arrivals env1).
Proof.
  intros Hb Hl Hx Hok. cbn zeta.
  rewrite (flush_failure_unlocked env1 w x) by done. cbn.
  split; [done|].
  rewrite flush_success; [done| |done]. cbn.
  destruct (_event_buffer w); [done|]. by cbn.
Qed.

(** *** [save_event] *)

Lemma validate_event_size_spec cfg e :
  validate_event_size json_size cfg e =
    if rejects cfg e then Raised (ValueError "Event size exceeds limit")
    else Returned tt.
Proof.
  unfold validate_event_size, EventStore.rejects.
  destruct (event_validation_enabled cfg); cbn; [|done].
  destruct (max_event_size_bytes cfg <? json_size e); cbn; [|done].
  by destruct (event_compression_enabled cfg).
Qed.

Lemma save_rejected cfg env e w :
  rejects cfg e = true -> save cfg env e w = (Returned false, w).
Proof.
  intros Hr. unfold save_event, try_except, bind, lift.
  by rewrite validate_event_size_spec, Hr.
Qed.

Lemma save_accepted cfg env e w :
  rejects cfg e = false ->
  _buffer_lock w = false ->
  save cfg env e w =
    let w1 := set_lock true (set_buffer (_event_buffer w ++ [e]) w) in
    if fills cfg w then
      match flush env w1 with
      | (Returned _, w2) => (Returned true, set_lock false w2)
      | (Raised _, w2) => (Returned false, set_lock false w2)
      | (Blocked, w2) => (Blocked, w2)
      end
    else (Returned true, set_lock false w1).
Proof.
  destruct w as [buf lk tbl tr]; cbn; intros Hr ->.
  unfold save_event, try_except, bind, lift.
  rewrite validate_event_size_spec, Hr.
  unfold with_lock, acquire, bind, finally, modify, gets, fills. cbn.
  rewrite length_app. cbn [length].
  destruct (event_batch_size cfg <=? Z.of_nat (length buf + 1)); [|done].
  by destruct (flush env _) as [[[]|x|] w2].
Qed.

Lemma save_buffered cfg env e w :
  rejects cfg e = false ->
  _buffer_lock w = false ->
  fills cfg w = false ->
  save cfg env e w = (Returned true, set_buffer (_event_buffer w ++ [e]) w).
Proof.
  intros Hr Hl Hf. rewrite save_accepted by done. cbn zeta. rewrite Hf.
  destruct w; cbn in *. by subst.
Qed.

Lemma save_flushed cfg env e w :
  rejects cfg e = false ->
  _buffer_lock w = false ->
  fills cfg w = true ->
  insert_fault env = None ->
  save cfg env e w =
    (Returned true,
     {| _event_buffer := [];
        _buffer_lock := false;
        events_table :=
          events_table w ++ map (row (db_now env)) (_event_buffer w ++ [e]);
        trace :=
          trace w ++ [DbInsert true (length (_event_buffer w ++ [e]))] |}).
Proof.
  intros Hr Hl Hf Hok. rewrite save_accepted by done. cbn zeta. rewrite Hf.
  rewrite flush_success; [done| |done].
  destruct w as [[] ? ? ?]; by cbn.
Qed.

(** The flush triggered by [save_event] runs under the lock that
    [save_event] holds; when the insert fails, [save_event] does not
    return and the batch is gone from the buffer. *)
Lemma save_blocked cfg env e w x :
  rejects cfg e = false ->
  _buffer_lock w = false ->
  fills cfg w = true ->
  insert_fault env = Some x ->
  save cfg env e w =
    (Blocked,
     {| _event_buffer := [];
        _buffer_lock := true;
        events_table := events_table w;
        trace :=
          trace w ++ [DbInsert true (length (_event_buffer w ++ [e]))] |}).
Proof.
  intros Hr Hl Hf Hx. rewrite save_accepted by done. cbn zeta. rewrite Hf.
  rewrite (flush_failure_locked _ _ x); [done| |done|done].
  destruct w as [[] ? ? ?]; by cbn.
Qed.

Lemma save_never_raises cfg env e w x :
  fst (save cfg env e w) <> Raised x.
Proof.
  unfold save_event, try_except.
  match goal with |- context [match ?m w with _ => _ end] =>
    destruct (m w) as [[b|y|] w'] end; by cbn.
Qed.

Lemma save_trace cfg env e w :
  _buffer_lock w = false ->
  let w' := snd (save cfg env e w) in
  trace w' = trace w \/
  trace w' = trace w ++ [DbInsert true (length (_event_buffer w ++ [e]))].
Proof.
  intros Hl. cbn zeta.
  destruct (rejects cfg e) eqn:Hr; [rewrite save_rejected by done; by left|].
  destruct (fills cfg w) eqn:Hf; [|rewrite save_buffered by done; by left].
  destruct (insert_fault env) as [x|] eqn:Hx.
  - rewrite (save_blocked _ _ _ _ x) by done. by right.
  - rewrite save_flushed by done. by right.
Qed.

(** What a flush of the buffer of [w] writes into the trace. *)
Lemma flush_trace env w :
  trace (snd (flush env w)) =
    trace w ++
    match _event_buffer w with
    | [] => []
    | _ => [DbInsert (_buffer_lock w) (length (_event_buffer w))]
    end.
Proof.
  destruct w as [[|e b] lk tbl tr]; cbn; [by rewrite app_nil_r|].
  unfold _flush_buffer, try_except, execute_many, with_lock, acquire, bind,
    finally, modify. cbn.
  by destruct (insert_fault env), lk.
Qed.

(** C8, as the code has it: [save_event], [_periodic_flush] and
    [shutdown] touch the buffer only once they have [_buffer_lock], and
    keep the lock across the flush they trigger.  Started with the lock
    free, every insert they perform is awaited with the lock held.
    Started while another coroutine holds the lock, they wait for it and
    leave buffer, table and trace as they are ([save_event] having
    returned false before for an event it rejects).  [_flush_buffer]
    itself takes no lock before it copies and clears the buffer: called
    by itself it awaits its insert without the lock, and called while
    another coroutine holds the lock it empties the buffer and awaits
    the insert all the same. *)
Theorem flushes_hold_the_lock cfg env e w :
  (_buffer_lock w = false ->
   (trace (snd (save cfg env e w)) = trace w \/
    trace (snd (save cfg env e w))
      = trace w ++ [DbInsert true (length (_event_buffer w ++ [e]))]) /\
   trace (snd (_periodic_flush json_dumps env w))
     = trace w ++
       match _event_buffer w with
       | [] => []
       | _ => [DbInsert true (length (_event_buffer w))]
       end /\
   trace (snd (shutdown json_dumps env w))
     = trace w ++
       match _event_buffer w with
       | [] => []
       | _ => [DbInsert true (length (_event_buffer w))]
       end /\
   trace (snd (_flush_buffer json_dumps env w))
     = trace w ++
       match _event_buffer w with
       | [] => []
       | _ => [DbInsert false (length (_event_buffer w))]
       end) /\
  (_buffer_lock w = true ->
   save_event json_dumps json_size cfg env e w
     = (if EventStore.rejects json_size cfg e then Returned false
        else Blocked, w) /\
   _periodic_flush json_dumps env w = (Blocked, w) /\
   shutdown json_dumps env w = (Blocked, w) /\
   (_event_buffer w <> [] ->
    _event_buffer (snd (_flush_buffer json_dumps env w)) = [] /\
    trace (snd (_flush_buffer json_dumps env w))
      = trace w ++ [DbInsert true (length (_event_buffer w))])).
Proof.
  split.
  - intros Hl. split; [by apply save_trace|].
    split; [|split; [|by rewrite flush_trace, Hl]].
    + destruct w as [[|e' b] lk tbl tr]; cbn in *; subst;
        [by rewrite app_nil_r|].
      unfold _periodic_flush, with_lock, acquire, bind, finally, gets,
        _flush_buffer, try_except, execute_many. cbn.
      by destruct (insert_fault env).
    + destruct w as [[|e' b] lk tbl tr]; cbn in *; subst;
        [by rewrite app_nil_r|].
      unfold shutdown, with_lock, acquire, bind, finally,
        _flush_buffer, try_except, execute_many. cbn.
      by destruct (insert_fault env).
  - intros Hl. split; [|split; [|split]].
    + unfold save_event, try_except, bind at 1, lift.
      rewrite validate_event_size_spec.
      destruct (rejects cfg e); [done|].
      unfold with_lock, acquire, bind. by rewrite Hl.
    + unfold _periodic_flush, with_lock, acquire, bind. by rewrite Hl.
    + unfold shutdown, with_lock, acquire, bind. by rewrite Hl.
    + intros Hb. rewrite flush_trace, Hl.
      destruct w as [[|e' b] lk tbl tr]; cbn in *; subst; [done|].
      split; [|done].
      unfold _flush_buffer, try_except, execute_many, with_lock, acquire,
        bind. cbn. by destruct (insert_fault env).
Qed.

(** C9, as the code has it: [save_event] never raises.  Started with the
    lock free, it returns false and leaves the store alone when
    validation is enabled, the event is larger than the ceiling and
    compression is disabled; otherwise it appends the event under the
    lock and, where the buffer has not reached the batch size or the
    insert of the triggered flush succeeds, returns true, the buffer
    having been flushed in the latter case. *)
Theorem save_event_returns cfg env e w :
  (forall x, fst (save cfg env e w) <> Raised x) /\
  (_buffer_lock w = false ->
   (fills cfg w = true -> insert_fault env = None) ->
   save cfg env e w =
     if rejects cfg e then (Returned false, w)
     else if fills cfg w then
       (Returned true,
        {| _event_buffer := [];
           _buffer_lock := false;
           events_table :=
             events_table w ++
             map (row (db_now env)) (_event_buffer w ++ [e]);
           trace :=
             trace w ++ [DbInsert true (length (_event_buffer w ++ [e]))] |})
     else (Returned true, set_buffer (_event_buffer w ++ [e]) w)).
Proof.
  split; [intros x; apply save_never_raises|].
  intros Hl Hok.
  destruct (rejects cfg e) eqn:Hr; [by apply save_rejected|].
  destruct (fills cfg w) eqn:Hf.
  - apply save_flushed; auto.
  - by apply save_buffered.
Qed.

(** *** Round trip through the table *)

Lemma saved_true_cases cfg env e w :
  fst (save cfg env e w) = Returned true ->
  let w1 := snd (save cfg env e w) in
  (_event_buffer w1 = [] /\ row (db_now env) e ∈ events_table w1) \/
  (e ∈ _event_buffer w1 /\ _buffer_lock w1 = false).
Proof.
  cbn zeta.
  destruct (rejects cfg e) eqn:Hr; [by rewrite save_rejected|].
  destruct (_buffer_lock w) eqn:Hl.
  { unfold save_event, try_except, bind, lift.
    rewrite validate_event_size_spec, Hr.
    unfold with_lock, acquire, bind. by rewrite Hl. }
  destruct (fills cfg w) eqn:Hf.
  - destruct (insert_fault env) as [x|] eqn:Hx.
    + by rewrite (save_blocked _ _ _ _ x).
    + rewrite save_flushed by done. cbn. intros _. left. split; [done|].
      rewrite map_app. cbn. set_solver.
  - rewrite save_buffered by done. cbn. intros _. right. split; [|done].
    set_solver.
Qed.

Lemma row_stored cfg env env' e w :
  fst (save cfg env e w) = Returned true ->
  insert_fault env' = None ->
  let w1 := snd (save cfg env e w) in
  let w2 := snd (flush env' w1) in
  exists now, row now e ∈ events_table w2.
Proof.
  intros Hs Hok. cbn zeta.
  destruct (saved_true_cases _ _ _ _ Hs) as [[Hb Hin]|[Hin Hl]].
  - rewrite flush_empty by done. eauto.
  - rewrite flush_success; [|by intros E; rewrite E in Hin; set_solver|done].
    cbn. exists (db_now env').
    apply elem_of_app. right. by apply list_elem_of_fmap_2.
Qed.

Lemma fetch_finds env w sid limit (r : EventRow) :
  fetch_fault env = None ->
  r ∈ events_table w ->
  row_stream_id r = sid ->
  Z.of_nat (length (List.filter
                      (fun r => bool_decide (row_stream_id r = sid))
                      (events_table w))) <= limit ->
  of_row json_loads r ∈ get_events_by_stream json_loads env w sid limit None.
Proof.
  intros Hf Hin Hsid Hlim.
  unfold get_events_by_stream, select_by_stream. rewrite Hf.
  destruct (limit <? 0) eqn:Hneg; [lia|].
  apply list_elem_of_fmap_2.
  erewrite (filter_ext (fun r => _ && true)); [|intros; apply andb_true_r].
  rewrite take_ge.
  - rewrite merge_sort_Permutation. apply list_elem_of_In, filter_In.
    split; [by apply list_elem_of_In|]. by apply bool_decide_eq_true.
  - rewrite merge_sort_Permutation. lia.
Qed.

(** C4, as the code has it: when [save_event] returned true for an
    event [e] with a user id and a stream id, the flush that follows
    gets its insert through, and the stream holds no more rows than the
    limit of the query, [get_events_by_stream] returns a record equal
    to [e] in event type, user id, data and stream id.  (The INSERT
    statement does not pass the timestamp of the event.) *)
Theorem roundtrip_by_stream cfg env env' e w uid sid limit :
  (forall d, json_loads (json_dumps d) = d) ->
  user_id e = Some uid ->
  stream_id e = Some sid ->
  fst (save cfg env e w) = Returned true ->
  insert_fault env' = None ->
  fetch_fault env' = None ->
  let w1 := snd (save cfg env e w) in
  let w2 := snd (flush env' w1) in
  Z.of_nat (length (List.filter
                      (fun r => bool_decide (row_stream_id r = sid))
                      (events_table w2))) <= limit ->
  exists r,
    r ∈ get_events_by_stream json_loads env' w2 sid limit None /\
    rec_event_type r = event_type e /\
    rec_user_id r = uid /\
    rec_data r = data e /\
    rec_stream_id r = sid.
Proof.
  intros Hjson Hu Hs Hsave Hok Hfetch w1 w2 Hlim.
  destruct (row_stored cfg env env' e w Hsave Hok) as [now Hin].
  exists (of_row json_loads (row now e)). split.
  - apply fetch_finds; [done|done| |done]. cbn. by rewrite Hs.
  - cbn. rewrite Hu, Hs, Hjson. by cbn.
Qed.

End WithJson.

(** *** At concrete inputs *)

Lemma save_event_returns_witness :
  _buffer_lock one_buffered = false /\
  insert_fault (db_up 2000) = None /\
  fst (save_event flag_dumps flag_size small_batches (db_up 2000)
                  (user_event 2 1001) one_buffered) = Returned true.
Proof.
  split; [reflexivity|]. split; [reflexivity|].
  rewrite (proj2 (save_event_returns flag_dumps flag_size small_batches
                    (db_up 2000) (user_event 2 1001) one_buffered)
                 eq_refl (fun _ => eq_refl)).
  reflexivity.
Defined.

(** C9 as written fails where validation is switched off: the event is
    larger than the ceiling, compression is disabled, and [save_event]
    buffers the event and returns true. *)
Lemma save_event_oversized_unvalidated :
  max_event_size_bytes unvalidated < flag_size (user_event 1 1000) /\
  event_compression_enabled unvalidated = false /\
  save_event flag_dumps flag_size unvalidated (db_up 2000)
             (user_event 1 1000) empty_store
  = (Returned true, one_buffered).
Proof. vm_compute. repeat split; reflexivity. Qed.

(** C3 on the code: with one event buffered and a batch size of two,
    [save_event] of a second event triggers the flush; the insert
    fails; [_flush_buffer] then waits for the lock its caller holds.
    [save_event] never returns, both events are in neither the buffer
    nor the table, a later periodic flush waits for the same lock, and a
    later direct flush has nothing to store. *)
Theorem failed_flush_under_lock_loses_batch :
  let r := save_event flag_dumps flag_size small_batches (db_down 2000)
                      (user_event 2 1001) one_buffered in
  fst r = Blocked /\
  _event_buffer (snd r) = [] /\
  events_table (snd r) = [] /\
  _buffer_lock (snd r) = true /\
  fst (_periodic_flush flag_dumps (db_up 2005) (snd r)) = Blocked /\
  events_table (snd (_flush_buffer flag_dumps (db_up 2005) (snd r))) = [].
Proof. vm_compute. repeat split; reflexivity. Qed.

(** C8 as written fails: the flush that [save_event] triggers awaits
    the insert of the two buffered events while [_buffer_lock] is
    held. *)
Lemma save_event_inserts_under_lock :
  let r := save_event flag_dumps flag_size small_batches (db_up 2000)
                      (user_event 2 1001) one_buffered in
  fst r = Returned true /\
  trace (snd r) = [DbInsert true 2].
Proof. vm_compute. split; reflexivity. Qed.

Lemma flushes_hold_the_lock_witness :
  let held := set_lock true one_buffered in
  _buffer_lock one_buffered = false /\
  trace (snd (_periodic_flush flag_dumps (db_up 2000) one_buffered))
    = [DbInsert true 1] /\
  trace (snd (shutdown flag_dumps (db_up 2000) one_buffered))
    = [DbInsert true 1] /\
  trace (snd (_flush_buffer flag_dumps (db_up 2000) one_buffered))
    = [DbInsert false 1] /\
  _buffer_lock held = true /\
  save_event flag_dumps flag_size small_batches (db_up 2000)
             (user_event 2 1001) held = (Blocked, held) /\
  _periodic_flush flag_dumps (db_up 2000) held = (Blocked, held) /\
  shutdown flag_dumps (db_up 2000) held = (Blocked, held) /\
  _event_buffer (snd (_flush_buffer flag_dumps (db_up 2000) held)) = [] /\
  trace (snd (_flush_buffer flag_dumps (db_up 2000) held))
    = [DbInsert true 1].
Proof.
  cbn zeta. split; [reflexivity|].
  destruct (proj1 (flushes_hold_the_lock flag_dumps flag_size small_batches
                     (db_up 2000) (user_event 2 1001) one_buffered) eq_refl)
    as (_ & H2 & H3 & H4).
  split; [exact H2|]. split; [exact H3|]. split; [exact H4|].
  split; [reflexivity|].
  destruct (proj2 (flushes_hold_the_lock flag_dumps flag_size small_batches
                     (db_up 2000) (user_event 2 1001)
                     (set_lock true one_buffered)) eq_refl)
    as (H5 & H6 & H7 & H8).
  split; [exact H5|]. split; [exact H6|]. split; [exact H7|].
  exact (H8 ltac:(discriminate)).
Defined.

Lemma roundtrip_by_stream_witness :
  user_id (user_event 1 1000) = Some 42 /\
  stream_id (user_event 1 1000) = Some "user_42" /\
  exists r,
    r ∈ get_events_by_stream flag_loads (db_up 2000)
          (snd (_flush_buffer flag_dumps (db_up 2000)
             (snd (save_event flag_dumps flag_size EVENT_CONFIG (db_up 2000)
                              (user_event 1 1000) empty_store))))
          "user_42" 100 None /\
    rec_event_type r = "user_message" /\
    rec_user_id r = 42 /\
    rec_data r = true /\
    rec_stream_id r = "user_42".
Proof.
  split; [reflexivity|]. split; [vm_compute; reflexivity|].
  apply (roundtrip_by_stream flag_dumps flag_loads flag_size EVENT_CONFIG
           (db_up 2000) (db_up 2000) (user_event 1 1000) empty_store
           42 "user_42" 100).
  - intros []; reflexivity.
  - reflexivity.
  - vm_compute; reflexivity.
  - reflexivity.
  - reflexivity.
  - reflexivity.
  - vm_compute. discriminate.
Defined.

(** C4 as written fails on a stream that already holds as many rows as
    the limit: the event is saved and stored, and the query, which
    returns the oldest [limit] rows of the stream, returns no record of
    its type. *)
Lemma roundtrip_misses_event_past_limit :
  let e := user_event 1 1000 in
  let w1 := snd (save_event flag_dumps flag_size EVENT_CONFIG (db_up 2000)
                            e long_stream) in
  let w2 := snd (_flush_buffer flag_dumps (db_up 2000) w1) in
  user_id e = Some 42 /\
  stream_id e = Some "user_42" /\
  fst (save_event flag_dumps flag_size EVENT_CONFIG (db_up 2000)
                  e long_stream) = Returned true /\
  to_row flag_dumps 2000 e ∈ events_table w2 /\
  Forall (fun r => rec_event_type r <> event_type e)
         (get_events_by_stream flag_loads (db_up 2000) w2 "user_42" 100 None).
Proof.
  cbn zeta. split; [reflexivity|]. split; [vm_compute; reflexivity|].
  split; [vm_compute; reflexivity|]. split.
  - compute_done.
  - compute_done.
Qed.

(** The record that comes back carries the time of the insert, not the
    timestamp of the event. *)
Lemma roundtrip_timestamp_is_insert_time :
  let e := user_event 1 1000 in
  let w1 := snd (save_event flag_dumps flag_size EVENT_CONFIG (db_up 2000)
                            e empty_store) in
  let w2 := snd (_flush_buffer flag_dumps (db_up 2000) w1) in
  timestamp e = 1000 /\
  map rec_timestamp
      (get_events_by_stream flag_loads (db_up 2000) w2 "user_42" 100 None)
  = [2000].
Proof. vm_compute. split; reflexivity. Qed.

End EventStoreFacts.

(** ** Short-term memory actor *)

Module MemoryActorFacts.

Import MemoryActor Scenarios.

Implicit Types (w : World) (env : Env) (cfg : MemoryConfig).

(** *** The queries *)

Lemma newest_first_total : Total newest_first.
Proof. intros a b. unfold newest_first. lia. Qed.
Lemma newest_first_trans : Transitive newest_first.
Proof. intros a b c. unfold newest_first. lia. Qed.
Lemma oldest_first_total : Total oldest_first.
Proof. intros a b. unfold oldest_first. lia. Qed.
Lemma oldest_first_trans : Transitive oldest_first.
Proof. intros a b c. unfold oldest_first. lia. Qed.

#[local] Existing Instances newest_first_total newest_first_trans
  oldest_first_total oldest_first_trans.

Lemma elem_of_rows_of u t (r : StmRow) :
  r ∈ rows_of u t <-> r ∈ t /\ user_id r = u.
Proof.
  unfold rows_of. rewrite !list_elem_of_In, filter_In.
  by rewrite bool_decide_eq_true.
Qed.

(** The first [n] elements of a sorted list come before all the
    others. *)
Lemma take_sorted_before {A} (R : relation A) (l : list A) n x y :
  StronglySorted R l -> x ∈ take n l -> y ∈ drop n l -> R x y.
Proof.
  intros Hs Hx Hy. rewrite <- (take_drop n l) in Hs.
  by eapply StronglySorted_app_1_elem_of.
Qed.

(** What the SELECT of [_get_conversation_context] returns: turns of
    the user, newest first, and no turn left out is newer than one
    returned. *)
Lemma select_recent_spec t u n :
  let sel := select_recent t u n in
  StronglySorted newest_first sel /\
  (length sel = n `min` length (rows_of u t))%nat /\
  (forall r, r ∈ sel -> r ∈ t /\ user_id r = u) /\
  exists others,
    sel ++ others ≡ₚ rows_of u t /\
    forall r r', r ∈ sel -> r' ∈ others -> created_at r' <= created_at r.
Proof.
  unfold select_recent. cbn zeta.
  pose proof (StronglySorted_merge_sort newest_first (rows_of u t)) as Hs.
  pose proof (merge_sort_Permutation newest_first (rows_of u t)) as Hp.
  set (sorted := merge_sort newest_first (rows_of u t)) in *.
  split; [|split; [|split]].
  - rewrite <- (take_drop n sorted) in Hs.
    by apply StronglySorted_app_1_l in Hs.
  - by rewrite length_take, Hp.
  - intros r Hr. apply elem_of_rows_of. rewrite <- Hp.
    by apply (subseteq_take n).
  - exists (drop n sorted). split; [by rewrite take_drop|].
    intros r r' Hr Hr'. by apply (take_sorted_before newest_first sorted n).
Qed.

(** What the inner SELECT of [_cleanup_old_messages] returns: turns of
    the user, oldest first, and no turn left out is older than one
    returned. *)
Lemma select_oldest_spec t u n :
  let sel := select_oldest t u n in
  StronglySorted oldest_first sel /\
  (length sel = n `min` length (rows_of u t))%nat /\
  (forall r, r ∈ sel -> r ∈ t /\ user_id r = u) /\
  exists others,
    sel ++ others ≡ₚ rows_of u t /\
    forall r r', r ∈ sel -> r' ∈ others -> created_at r <= created_at r'.
Proof.
  unfold select_oldest. cbn zeta.
  pose proof (StronglySorted_merge_sort oldest_first (rows_of u t)) as Hs.
  pose proof (merge_sort_Permutation oldest_first (rows_of u t)) as Hp.
  set (sorted := merge_sort oldest_first (rows_of u t)) in *.
  split; [|split; [|split]].
  - rewrite <- (take_drop n sorted) in Hs.
    by apply StronglySorted_app_1_l in Hs.
  - by rewrite length_take, Hp.
  - intros r Hr. apply elem_of_rows_of. rewrite <- Hp.
    by apply (subseteq_take n).
  - exists (drop n sorted). split; [by rewrite take_drop|].
    intros r r' Hr Hr'. by apply (take_sorted_before oldest_first sorted n).
Qed.

(** *** The context loop *)

Lemma message_length_nonneg msg : 0 <= message_length msg.
Proof. unfold message_length. lia. Qed.

Lemma accumulate_spec cap msgs acc tot :
  exists kept rest,
    msgs = kept ++ rest /\
    accumulate cap msgs acc tot = (acc ++ kept, tot + total_chars kept) /\
    (kept = [] \/ tot + total_chars kept <= cap) /\
    match rest with
    | [] => True
    | msg :: _ => cap < tot + total_chars kept + message_length msg
    end.
Proof.
  revert acc tot. induction msgs as [|msg msgs IH]; intros acc tot.
  - exists [], []. cbn. rewrite app_nil_r, Z.add_0_r. auto.
  - cbn [accumulate].
    destruct (cap <? tot + message_length msg) eqn:Hcap.
    + exists [], (msg :: msgs). cbn. rewrite app_nil_r, !Z.add_0_r.
      repeat split; auto. lia.
    + destruct (IH (acc ++ [msg]) (tot + message_length msg))
        as (kept & rest & -> & Hacc & Hfit & Hnext).
      exists (msg :: kept), rest. cbn [total_chars foldr].
      fold (total_chars kept).
      rewrite Hacc, <- app_assoc, Z.add_assoc. cbn [app].
      split; [done|]. split; [done|]. split.
      * right. destruct Hfit as [->|Hfit]; cbn; lia.
      * destruct rest; [done|]. lia.
Qed.

(** C5: [_get_conversation_context] fetches the most recent [limit]
    turns of the user newest first, reverses them, and keeps the longest
    opening run of turns whose characters fit into
    [context_max_length]; the first turn that would not fit and all
    after it are left out; the result carries the turns kept (possibly
    none), their number and their characters. *)
Theorem conversation_context_greedy cfg env w data u n :
  subscript data "user_id" = Returned (PyInt u) ->
  get data "limit" (PyInt (stm_limit cfg)) = Returned (PyInt n) ->
  0 <= n ->
  fault env (db_calls w) = None ->
  let fetched := select_recent (stm_buffer w) u (Z.to_nat n) in
  (StronglySorted newest_first fetched /\
   (length fetched = Z.to_nat n `min` length (rows_of u (stm_buffer w)))%nat /\
   (forall r, r ∈ fetched -> r ∈ stm_buffer w /\ user_id r = u) /\
   exists others,
     fetched ++ others ≡ₚ rows_of u (stm_buffer w) /\
     forall r r', r ∈ fetched -> r' ∈ others ->
                  created_at r' <= created_at r) /\
  exists kept rest,
    reverse fetched = kept ++ rest /\
    (kept = [] \/ total_chars kept <= context_max_length cfg) /\
    match rest with
    | [] => True
    | msg :: _ => context_max_length cfg < total_chars kept + message_length msg
    end /\
    fst (_get_conversation_context cfg env data w) =
      Returned (dict_of
        [("success", PyBool true);
         ("messages", PyList (map message_dict kept));
         ("count", PyInt (Z.of_nat (length kept)));
         ("total_length", PyInt (total_chars kept))]).
Proof.
  intros Hu Hl Hn Hf fetched. split; [apply select_recent_spec|].
  destruct (accumulate_spec (context_max_length cfg) (reverse fetched) [] 0)
    as (kept & rest & Hsplit & Hacc & Hfit & Hnext).
  rewrite !Z.add_0_l in *. cbn [app] in Hacc.
  exists kept, rest. split; [done|]. split; [done|]. split; [done|].
  unfold _get_conversation_context, bind, lift, try_except, db_call.
  rewrite Hu, Hl, Hf. unfold fetch_recent, bind, lift, gets. cbn.
  destruct (n <? 0) eqn:Hneg; [lia|]. cbn.
  fold fetched. rewrite Hacc.
  by destruct (performance_log_enabled cfg).
Qed.

Lemma conversation_context_greedy_witness :
  subscript hello "user_id" = Returned (PyInt 7) /\
  get hello "limit" (PyInt (stm_limit tight)) = Returned (PyInt 25) /\
  String.length (content (said 1)) = 12%nat /\
  message_length (said 1) = 6 /\
  context_max_length tight = 12 /\
  fst (_get_conversation_context tight healthy hello greeted) =
    Returned (dict_of
      [("success", PyBool true);
       ("messages", PyList (map message_dict [said 1; said 2]));
       ("count", PyInt 2);
       ("total_length", PyInt 12)]).
Proof.
  split; [reflexivity|]. split; [reflexivity|]. split; [reflexivity|].
  split; [reflexivity|]. split; [reflexivity|].
  destruct (proj2 (conversation_context_greedy tight healthy greeted
                     hello 7 25 eq_refl eq_refl ltac:(lia) eq_refl))
    as (kept & rest & Hsplit & Hfit & Hnext & Hres).
  assert (Hrev : reverse (select_recent (stm_buffer greeted) 7 (Z.to_nat 25))
                 = [said 1; said 2; said 3]) by (vm_compute; reflexivity).
  rewrite Hrev in Hsplit.
  assert (Hkept : kept = [said 1; said 2]).
  { destruct kept as [|a [|b [|c kept]]]; cbn in Hsplit.
    - subst rest. vm_compute in Hnext. by destruct Hnext.
    - injection Hsplit as <- <-. vm_compute in Hnext. by destruct Hnext.
    - by injection Hsplit as <- <- _.
    - injection Hsplit as <- <- <- _.
      destruct Hfit as [Hfit|Hfit]; [done|].
      assert (Hpos : 0 <= total_chars kept).
      { clear. induction kept as [|x l IH]; [done|].
        pose proof (message_length_nonneg x).
        change (0 <= message_length x + total_chars l). lia. }
      change (total_chars (said 1 :: said 2 :: said 3 :: kept))
        with (message_length (said 1) +
              (message_length (said 2) +
               (message_length (said 3) + total_chars kept))) in Hfit.
      change (message_length (said 1)) with 6 in Hfit.
      change (message_length (said 2)) with 6 in Hfit.
      change (message_length (said 3)) with 6 in Hfit.
      change (context_max_length tight) with 12 in Hfit. lia. }
  rewrite Hkept in Hres. exact Hres.
Defined.

(** *** Cleanup *)

Lemma id_determines_row t (r v : StmRow) :
  NoDup (map id t) -> r ∈ t -> v ∈ t -> id r = id v -> r = v.
Proof.
  induction t as [|x t IH]; [by intros _ ?%elem_of_nil|].
  cbn. rewrite NoDup_cons. intros [Hx Hnd].
  rewrite !elem_of_cons. intros [->|Hr] [->|Hv] Heq; auto.
  - exfalso. apply Hx. rewrite Heq. by apply list_elem_of_fmap_2.
  - exfalso. apply Hx. rewrite <- Heq. by apply list_elem_of_fmap_2.
Qed.

Lemma delete_ids_spec t victims :
  NoDup (map id t) ->
  victims ⊆ t ->
  forall x, x ∈ delete_ids (map id victims) t <-> x ∈ t /\ x ∉ victims.
Proof.
  intros Hnd Hsub x. unfold delete_ids.
  rewrite list_elem_of_In, filter_In, <- list_elem_of_In.
  rewrite negb_true_iff, bool_decide_eq_false.
  split; intros [Hx Hno]; (split; [done|]).
  - intros Hv. apply Hno. by apply list_elem_of_fmap_2.
  - intros (v & Heq & Hv)%list_elem_of_fmap. apply Hno.
    by rewrite (id_determines_row t x v Hnd Hx (Hsub _ Hv) Heq).
Qed.

(** C6: when the user has more turns than [stm_limit],
    [_cleanup_old_messages] deletes the
    [(count - stm_limit) + cleanup_batch_size] oldest turns of the user
    in order of creation (that many exist where the batch size does not
    exceed the limit) and nothing else; otherwise it deletes nothing
    and reports a [deleted_count] of 0. *)
Theorem cleanup_deletes_oldest cfg env w data u :
  subscript data "user_id" = Returned (PyInt u) ->
  NoDup (map id (stm_buffer w)) ->
  0 <= cleanup_batch_size cfg ->
  fault env (db_calls w) = None ->
  fault env (S (db_calls w)) = None ->
  let count := Z.of_nat (length (rows_of u (stm_buffer w))) in
  let r := _cleanup_old_messages cfg env data w in
  if stm_limit cfg <? count then
    let n := Z.to_nat (count - stm_limit cfg + cleanup_batch_size cfg) in
    let victims := select_oldest (stm_buffer w) u n in
    (forall x, x ∈ stm_buffer (snd r) <-> x ∈ stm_buffer w /\ x ∉ victims) /\
    StronglySorted oldest_first victims /\
    (forall x, x ∈ victims -> x ∈ stm_buffer w /\ user_id x = u) /\
    (exists others,
       victims ++ others ≡ₚ rows_of u (stm_buffer w) /\
       forall x x', x ∈ victims -> x' ∈ others ->
                    created_at x <= created_at x') /\
    (cleanup_batch_size cfg <= stm_limit cfg -> length victims = n) /\
    fst r = Returned (dict_of
              [("success", PyBool true);
               ("deleted_count", PyInt (count - stm_limit cfg));
               ("remaining_count", PyInt (stm_limit cfg))])
  else
    stm_buffer (snd r) = stm_buffer w /\
    fst r = Returned (dict_of
              [("success", PyBool true);
               ("deleted_count", PyInt 0);
               ("remaining_count", PyInt count)]).
Proof.
  intros Hu Hnd Hbatch Hf1 Hf2 count r.
  assert (Hr : r =
    if stm_limit cfg <? count then
      (Returned (dict_of
         [("success", PyBool true);
          ("deleted_count", PyInt (count - stm_limit cfg));
          ("remaining_count", PyInt (stm_limit cfg))]),
       set_counters
         (set_table (tick (tick w))
            (delete_ids
               (map id (select_oldest (stm_buffer w) u
                  (Z.to_nat (count - stm_limit cfg + cleanup_batch_size cfg))))
               (stm_buffer w)))
         (_message_count w) (_error_count w) (cleanup_operations w + 1))
    else
      (Returned (dict_of
         [("success", PyBool true);
          ("deleted_count", PyInt 0);
          ("remaining_count", PyInt count)]), tick w)).
  { subst r. unfold _cleanup_old_messages, bind, lift, try_except, db_call.
    rewrite Hu, Hf1. cbn -[rows_of select_oldest delete_ids]. fold count.
    destruct (stm_limit cfg <? count) eqn:Hex; [|done].
    change (db_calls (tick w)) with (S (db_calls w)). rewrite Hf2.
    destruct (count - stm_limit cfg + cleanup_batch_size cfg <? 0) eqn:Hneg;
      [lia|done]. }
  rewrite Hr. destruct (stm_limit cfg <? count) eqn:Hex; [|done].
  cbn zeta.
  destruct (select_oldest_spec (stm_buffer w) u
    (Z.to_nat (count - stm_limit cfg + cleanup_batch_size cfg)))
    as (Hsorted & Hlen & Hin & Hothers).
  split; [|split; [done|split; [done|split; [done|split; [|done]]]]].
  - cbn. apply delete_ids_spec; [done|]. intros x Hx. by apply Hin.
  - intros Hle. rewrite Hlen. subst count. lia.
Qed.

Lemma cleanup_deletes_oldest_witness :
  let r := _cleanup_old_messages MEMORY_CONFIG healthy hello crowded in
  let victims := select_oldest (stm_buffer crowded) 7 11 in
  subscript hello "user_id" = Returned (PyInt 7) /\
  (forall x, x ∈ stm_buffer (snd r) <-> x ∈ stm_buffer crowded /\ x ∉ victims) /\
  length victims = 11%nat.
Proof.
  pose proof (cleanup_deletes_oldest MEMORY_CONFIG healthy crowded hello 7
                eq_refl ltac:(compute_done) ltac:(done) eq_refl eq_refl) as H.
  cbn zeta in H.
  change (stm_limit MEMORY_CONFIG <?
          Z.of_nat (length (rows_of 7 (stm_buffer crowded)))) with true in H.
  destruct H as (H1 & _ & _ & _ & H5 & _).
  split; [reflexivity|]. split; [exact H1|]. exact (H5 ltac:(done)).
Defined.

(** *** The retry loop *)

Lemma db_call_fault {A} env (query : M World A) w e :
  fault env (db_calls w) = Some e ->
  db_call env query w = (Raised e, tick w).
Proof. intros H. unfold db_call. by rewrite H. Qed.

Lemma store_attempt_fault cfg env uid content emotion mode w e :
  fault env (db_calls w) = Some e ->
  store_attempt cfg env uid content emotion mode w = (Raised e, tick w).
Proof.
  intros H. unfold store_attempt, bind. by rewrite (db_call_fault _ _ _ e).
Qed.

(** Every pass fails: the loop sleeps between the passes and raises the
    error of the last one. *)
Lemma store_loop_all_fail cfg env body :
  (forall w e, fault env (db_calls w) = Some e -> body w = (Raised e, tick w)) ->
  forall (m : nat) (errs : nat -> exn) i w,
    i + Z.of_nat (S m) = retry_attempts cfg ->
    (forall j, (j <= m)%nat ->
               fault env (db_calls w + j)%nat = Some (errs j)) ->
    exists w',
      store_loop cfg body (seqZ i (Z.of_nat (S m))) w = (Raised (errs m), w') /\
      stm_buffer w' = stm_buffer w /\
      db_calls w' = (db_calls w + S m)%nat /\
      sleeps w' = sleeps w ++ replicate m (retry_delay_seconds cfg) /\
      _cleanup_tasks w' = _cleanup_tasks w /\
      running w' = running w.
Proof.
  intros Hbody. induction m as [|m IH]; intros errs i w Hi Hf.
  - exists (tick w). cbn [store_loop seqZ]. rewrite seqZ_cons by lia.
    rewrite seqZ_nil by lia. cbn [store_loop]. unfold try_except.
    rewrite (Hbody w (errs 0%nat)) by (rewrite <- (Hf 0%nat); [f_equal|]; lia).
    replace (i <? retry_attempts cfg - 1) with false by lia.
    cbn. rewrite app_nil_r. repeat split; auto. lia.
  - rewrite seqZ_cons by lia. cbn [store_loop]. unfold try_except at 1.
    rewrite (Hbody w (errs 0%nat)) by (rewrite <- (Hf 0%nat); [f_equal|]; lia).
    replace (i <? retry_attempts cfg - 1) with true by lia.
    unfold bind at 1, sleep, modify.
    replace (Z.pred (Z.of_nat (S (S m)))) with (Z.of_nat (S m)) by lia.
    destruct (IH (fun j => errs (S j)) (Z.succ i)
                 (set_sleeps (tick w)
                    (sleeps (tick w) ++ [retry_delay_seconds cfg])))
      as (w' & Hrun & Ht & Hc & Hs & Hm & Hr).
    + lia.
    + intros j Hj. cbn. rewrite <- (Hf (S j)) by lia. f_equal. lia.
    + exists w'. rewrite Hrun. cbn in *.
      rewrite Ht, Hc, Hs, Hm, Hr, <- app_assoc. cbn.
      repeat split; auto; lia.
Qed.

Lemma subscript_dict data k v :
  subscript data k = Returned v -> exists d, data = PyDict d.
Proof. destruct data; cbn; try done. eauto. Qed.

Lemma store_all_fail cfg env w data uid content (errs : nat -> exn) :
  subscript data "user_id" = Returned uid ->
  subscript data "content" = Returned content ->
  0 < retry_attempts cfg ->
  let n := Z.to_nat (retry_attempts cfg) in
  (forall j, (j < n)%nat -> fault env (db_calls w + j)%nat = Some (errs j)) ->
  exists w',
    _store_user_message cfg env data w
      = (Returned (failure (errs (n - 1)%nat)), w') /\
    stm_buffer w' = stm_buffer w /\
    db_calls w' = (db_calls w + n)%nat /\
    sleeps w' = sleeps w ++ replicate (n - 1) (retry_delay_seconds cfg).
Proof.
  intros Hu Hc Hn n Hf.
  destruct (subscript_dict _ _ _ Hu) as [d ->].
  unfold _store_user_message, bind, lift. rewrite Hu, Hc. cbn [get].
  unfold range.
  replace (seqZ 0 (retry_attempts cfg))
    with (seqZ 0 (Z.of_nat (S (n - 1)))) by (f_equal; lia).
  set (body := store_attempt _ _ _ _ _ _).
  destruct (store_loop_all_fail cfg env body
              (fun w e => store_attempt_fault _ _ _ _ _ _ w e)
              (n - 1)%nat errs 0 w) as (w' & Hrun & Ht & Hd & Hs & _).
  - lia.
  - intros j Hj. apply Hf. lia.
  - exists w'. unfold try_except. rewrite Hrun. cbn.
    repeat split; auto. rewrite Hd. lia.
Qed.

(** C1, as the code has it: when the insert fails on every one of the
    [retry_attempts] (at least one) attempts, [_store_user_message]
    sleeps [retry_delay_seconds] between the attempts, stores nothing,
    and returns to its caller the dictionary with ['success': False] and
    ['error': str(e)] for the error [e] of the last attempt; it does not
    raise. *)
Theorem store_user_message_exhausted cfg env w data uid content
    (errs : nat -> exn) :
  subscript data "user_id" = Returned uid ->
  subscript data "content" = Returned content ->
  0 < retry_attempts cfg ->
  let n := Z.to_nat (retry_attempts cfg) in
  (forall j, (j < n)%nat -> fault env (db_calls w + j)%nat = Some (errs j)) ->
  exists w',
    _store_user_message cfg env data w
      = (Returned (failure (errs (n - 1)%nat)), w') /\
    stm_buffer w' = stm_buffer w /\
    db_calls w' = (db_calls w + n)%nat /\
    sleeps w' = sleeps w ++ replicate (n - 1) (retry_delay_seconds cfg).
Proof. apply store_all_fail. Qed.

Lemma store_user_message_exhausted_witness :
  subscript hello "user_id" = Returned (PyInt 7) /\
  subscript hello "content" = Returned (PyStr "hello") /\
  0 < retry_attempts MEMORY_CONFIG /\
  exists w',
    _store_user_message MEMORY_CONFIG unreachable hello (memory_with [])
      = (Returned (failure (StorageError "connection lost")), w') /\
    stm_buffer w' = [] /\
    db_calls w' = 3%nat /\
    sleeps w' = [1; 1].
Proof.
  split; [reflexivity|]. split; [reflexivity|]. split; [done|].
  exact (store_user_message_exhausted MEMORY_CONFIG unreachable
           (memory_with []) hello (PyInt 7) (PyStr "hello")
           (fun _ => StorageError "connection lost")
           eq_refl eq_refl ltac:(done) (fun _ _ => eq_refl)).
Defined.

(** C1 as written fails: every one of the three attempts fails, the
    actor sleeps twice, and [_store_user_message] returns a dictionary;
    nothing is raised to the caller. *)
Lemma store_user_message_exhausted_returns :
  let r := _store_user_message MEMORY_CONFIG unreachable hello
                               (memory_with []) in
  retry_attempts MEMORY_CONFIG = 3 /\
  db_calls (snd r) = 3%nat /\
  sleeps (snd r) = [1; 1] /\
  fst r = Returned (failure (StorageError "connection lost")) /\
  is_raised (fst r) = false.
Proof. vm_compute. repeat split; reflexivity. Qed.

(** *** Every message gets a dictionary *)

Lemma reports_error_first env v l : reports env (dict_of (("error", v) :: l)).
Proof.
  eexists. split; [reflexivity|]. right. cbn. rewrite lookup_insert_eq. eauto.
Qed.

Lemma reports_error_second env k x v l :
  k <> "error" -> reports env (dict_of ((k, x) :: ("error", v) :: l)).
Proof.
  intros Hk. eexists. split; [reflexivity|]. right. cbn.
  rewrite lookup_insert_ne, lookup_insert_eq by done. eauto.
Qed.

Lemma reports_success env l k :
  fault env k = None -> reports env (dict_of (("success", PyBool true) :: l)).
Proof.
  intros Hk. eexists. split; [reflexivity|]. left. cbn.
  rewrite lookup_insert_eq. eauto.
Qed.

Lemma reports_failure env e : reports env (failure e).
Proof. by apply reports_error_second. Qed.

Lemma subscript_ends data k : subscript data k <> Blocked.
Proof. destruct data; cbn; try done. by destruct (_ !! _). Qed.

Lemma get_ends data k dflt : get data k dflt <> Blocked.
Proof. by destruct data. Qed.

Lemma unpack_ends msg : unpack msg <> Blocked.
Proof.
  destruct msg as [ty data|v]; [done|]. cbn.
  pose proof (get_ends v "type" PyNone).
  pose proof (get_ends v "data" (PyDict ∅)).
  by repeat case_match.
Qed.

Lemma insert_row_cases uid role content emotion mode w :
  (exists e, insert_row uid (PyStr role) content emotion mode w = (Raised e, w)) \/
  (exists u w',
     uid = PyInt u /\
     insert_row uid (PyStr role) content emotion mode w
       = (Returned (next_id w), w')).
Proof.
  unfold insert_row, bind, lift.
  destruct uid; cbn; try (left; eexists; reflexivity).
  destruct content; cbn; try (left; eexists; reflexivity).
  destruct emotion; cbn; try (left; eexists; reflexivity);
    destruct mode; cbn; try (left; eexists; reflexivity);
    right; eauto.
Qed.

Lemma check_and_cleanup_returns cfg env u w :
  exists w', _check_and_cleanup cfg env u w = (Returned tt, w').
Proof.
  unfold _check_and_cleanup, bind, gets.
  destruct (cleanup_registered u w); [by eexists|].
  unfold check_resume, try_except, bind, db_call.
  destruct (fault env (db_calls w)); cbn; [by eexists|].
  destruct (stm_limit cfg <? _); by eexists.
Qed.

Lemma store_attempt_settles cfg env uid content emotion mode w :
  settles env (store_attempt cfg env uid content emotion mode w).
Proof.
  unfold settles, store_attempt, bind at 1, db_call.
  destruct (fault env (db_calls w)) eqn:Hf; [done|].
  destruct (insert_row_cases uid "user" content emotion mode (tick w))
    as [[e ->]|(u & w1 & -> & ->)]; [done|].
  unfold bind, lift. cbn [as_int].
  destruct (check_and_cleanup_returns cfg env u w1) as [w2 ->].
  destruct (performance_log_enabled cfg); cbn;
    by eapply reports_success.
Qed.

Lemma store_loop_settles cfg env body :
  (forall w, settles env (body w)) ->
  forall (m : nat) i w,
    i + Z.of_nat (S m) = retry_attempts cfg ->
    settles env (store_loop cfg body (seqZ i (Z.of_nat (S m))) w).
Proof.
  intros Hbody. induction m as [|m IH]; intros i w Hi.
  - rewrite seqZ_cons by lia. rewrite seqZ_nil by lia. cbn [store_loop].
    unfold try_except. specialize (Hbody w). unfold settles in *.
    destruct (body w) as [[v|e|] w']; cbn in *; [done| |done].
    by replace (i <? retry_attempts cfg - 1) with false by lia.
  - rewrite seqZ_cons by lia. cbn [store_loop].
    unfold try_except. pose proof (Hbody w) as Hw. unfold settles in Hw.
    destruct (body w) as [[v|e|] w']; cbn in Hw; [done| |done].
    replace (i <? retry_attempts cfg - 1) with true by lia.
    unfold bind at 1, sleep, modify.
    replace (Z.pred (Z.of_nat (S (S m)))) with (Z.of_nat (S m)) by lia.
    apply IH. lia.
Qed.

Lemma store_user_message_settles cfg env data w :
  0 < retry_attempts cfg ->
  settles env (_store_user_message cfg env data w).
Proof.
  intros Hn. unfold _store_user_message, bind, lift.
  pose proof (subscript_ends data "user_id").
  pose proof (subscript_ends data "content").
  pose proof (get_ends data "emotion" PyNone).
  pose proof (get_ends data "mode" PyNone).
  destruct (subscript data "user_id") as [uid| |]; [|done..].
  destruct (subscript data "content") as [content| |]; [|done..].
  destruct (get data "emotion" PyNone) as [emotion| |]; [|done..].
  destruct (get data "mode" PyNone) as [mode| |]; [|done..].
  unfold range.
  replace (seqZ 0 (retry_attempts cfg))
    with (seqZ 0 (Z.of_nat (S (Z.to_nat (retry_attempts cfg) - 1))))
    by (f_equal; lia).
  pose proof (store_loop_settles cfg env
                (store_attempt cfg env uid content emotion mode)
                (store_attempt_settles cfg env uid content emotion mode)
                (Z.to_nat (retry_attempts cfg) - 1) 0 w ltac:(lia)) as Hl.
  unfold settles, try_except in *.
  destruct (store_loop _ _ _ _) as [[v|e|] w']; cbn in *; [done| |done].
  apply reports_failure.
Qed.

Lemma store_bot_response_settles env data w :
  settles env (_store_bot_response env data w).
Proof.
  unfold _store_bot_response, bind, lift.
  pose proof (subscript_ends data "user_id").
  pose proof (subscript_ends data "content").
  pose proof (get_ends data "mode" PyNone).
  destruct (subscript data "user_id") as [uid| |]; [|done..].
  destruct (subscript data "content") as [content| |]; [|done..].
  destruct (get data "mode" PyNone) as [mode| |]; [|done..].
  unfold settles, try_except, bind, db_call.
  destruct (fault env (db_calls w)) eqn:Hf; [apply reports_failure|].
  destruct (insert_row_cases uid "assistant" content PyNone mode (tick w))
    as [[e ->]|(u & w1 & -> & ->)]; [apply reports_failure|].
  cbn. by eapply reports_success.
Qed.

Lemma get_conversation_context_settles cfg env data w :
  settles env (_get_conversation_context cfg env data w).
Proof.
  unfold _get_conversation_context, bind, lift.
  pose proof (subscript_ends data "user_id").
  pose proof (get_ends data "limit" (PyInt (stm_limit cfg))).
  destruct (subscript data "user_id") as [uid| |]; [|done..].
  destruct (get data "limit" _) as [limit| |]; [|done..].
  unfold settles, try_except, bind, db_call.
  destruct (fault env (db_calls w)) eqn:Hf;
    [by apply reports_error_second|].
  unfold fetch_recent, bind, lift, gets.
  destruct (as_int uid) as [u|e|] eqn:Hu;
    [|by apply reports_error_second|by destruct uid].
  destruct (as_limit limit) as [n|e|] eqn:Hl;
    [|by apply reports_error_second|
     by destruct limit as [| | z| | | |]; try done; cbn in Hl;
        destruct (z <? 0)].
  destruct (accumulate _ _ _ _) as [kept total].
  destruct (performance_log_enabled cfg); cbn; by eapply reports_success.
Qed.

Lemma cleanup_old_messages_settles cfg env data w :
  settles env (_cleanup_old_messages cfg env data w).
Proof.
  unfold _cleanup_old_messages, bind at 1, lift.
  pose proof (subscript_ends data "user_id").
  destruct (subscript data "user_id") as [uid| |]; [|done..].
  unfold settles, try_except, bind at 1, db_call at 1.
  destruct (fault env (db_calls w)) eqn:Hf; [apply reports_failure|].
  unfold count_rows, bind at 1, lift, gets.
  destruct uid as [| |u| | | |];
    [apply reports_failure|apply reports_failure| |apply reports_failure
    |apply reports_failure|apply reports_failure|apply reports_failure].
  cbn [as_int]. cbn beta iota.
  destruct (stm_limit cfg <? _); [|cbn; by eapply reports_success].
  unfold bind at 1, db_call.
  destruct (fault env (db_calls (tick w))); [apply reports_failure|].
  unfold delete_oldest, bind, lift. cbn [as_int as_limit].
  destruct (_ <? 0); cbn; [apply reports_failure|by eapply reports_success].
Qed.

Lemma get_user_stats_settles env data w :
  settles env (_get_user_stats env data w).
Proof.
  unfold _get_user_stats, bind at 1, lift.
  pose proof (subscript_ends data "user_id").
  destruct (subscript data "user_id") as [uid| |]; [|done..].
  unfold settles, try_except, bind, db_call.
  destruct (fault env (db_calls w)) eqn:Hf; [apply reports_failure|].
  unfold lift, gets.
  destruct uid as [| |u| | | |];
    [apply reports_failure|apply reports_failure| |apply reports_failure
    |apply reports_failure|apply reports_failure|apply reports_failure].
  cbn. by eapply reports_success.
Qed.

Lemma dispatch_settles cfg env msg w :
  0 < retry_attempts cfg ->
  exists v w', handle_message cfg env msg w = (Returned v, w') /\ reports env v.
Proof.
  intros Hn. unfold handle_message, try_except.
  match goal with |- context [match ?body w with _ => _ end] =>
    assert (Hb : settles env (body w)); [|destruct (body w) as [[v|e|] w']]
  end.
  - unfold bind at 1, increment_message_count, modify.
    unfold bind, lift. pose proof (unpack_ends msg).
    destruct (unpack msg) as [[message_type data]| |]; [|done..].
    repeat case_match.
    + by apply store_user_message_settles.
    + apply store_bot_response_settles.
    + apply get_conversation_context_settles.
    + apply cleanup_old_messages_settles.
    + apply get_user_stats_settles.
    + apply reports_error_first.
  - by exists v, w'.
  - eexists _, _. split; [reflexivity|]. apply reports_error_first.
  - done.
Qed.

(** C10: with at least one attempt configured, [handle_message] returns
    a dictionary for every message and whatever the database does, and
    never raises: the dictionary has an ['error'] key unless it says
    ['success': True] and a database round trip went through.  A message
    of a type that is none of the five known ones gets the dictionary
    with the ['error'] key alone, and a [store_user_message] whose every
    attempt fails gets the dictionary with ['success': False] and the
    last error. *)
Theorem handle_message_total cfg env w :
  0 < retry_attempts cfg ->
  (forall msg, exists v w',
     handle_message cfg env msg w = (Returned v, w') /\ reports env v) /\
  (forall msg, (forall k, fault env k <> None) ->
     exists d w',
       handle_message cfg env msg w = (Returned (PyDict d), w') /\
       is_Some (d !! "error")) /\
  (forall message_type data,
     Forall (fun s => type_is message_type s = false)
            ["store_user_message"; "store_bot_response";
             "get_conversation_context"; "cleanup_old_messages";
             "get_user_stats"] ->
     exists w',
       handle_message cfg env (ActorMessage message_type data) w
         = (Returned (unknown_type message_type), w')) /\
  (forall data uid content (errs : nat -> exn),
     subscript data "user_id" = Returned uid ->
     subscript data "content" = Returned content ->
     (forall j, (j < Z.to_nat (retry_attempts cfg))%nat ->
                fault env (db_calls w + j)%nat = Some (errs j)) ->
     exists w',
       handle_message cfg env
         (ActorMessage (PyStr "store_user_message") data) w
         = (Returned (failure (errs (Z.to_nat (retry_attempts cfg) - 1)%nat)),
            w')).
Proof.
  intros Hn. split; [|split; [|split]].
  - intros msg. by apply dispatch_settles.
  - intros msg Hdown.
    destruct (dispatch_settles cfg env msg w Hn)
      as (v & w' & Hrun & d & -> & [[_ [k Hk]]|Herr]).
    + by destruct (Hdown k).
    + by exists d, w'.
  - intros message_type data Htypes.
    repeat (apply Forall_cons in Htypes as [? Htypes]).
    unfold handle_message, try_except, bind, lift. cbn.
    repeat match goal with H : type_is _ _ = false |- _ => rewrite H; clear H
           end.
    by eexists.
  - intros data uid content errs Hu Hc Hf.
    unfold handle_message, try_except, bind at 1, increment_message_count,
      modify.
    unfold bind, lift. cbn [unpack].
    change (type_is (PyStr "store_user_message") "store_user_message")
      with true. cbn iota.
    match goal with
    | |- context [_store_user_message cfg env data ?w1] =>
        destruct (store_all_fail cfg env w1 data uid content errs Hu Hc Hn Hf)
          as (w' & -> & _)
    end.
    by eexists.
Qed.

Lemma handle_message_total_witness :
  0 < retry_attempts MEMORY_CONFIG /\
  exists v w',
    handle_message MEMORY_CONFIG unreachable (Plain PyNone) (memory_with [])
      = (Returned v, w') /\
    reports unreachable v.
Proof.
  split; [done|].
  exact (proj1 (handle_message_total MEMORY_CONFIG unreachable
                  (memory_with []) ltac:(done)) (Plain PyNone)).
Defined.

(** *** Cleanup tasks *)

(** While the user has an entry in [_cleanup_tasks], a trigger does
    nothing. *)
Lemma registered_trigger_is_noop cfg env u w :
  cleanup_registered u w = true ->
  _check_and_cleanup cfg env u w = (Returned tt, w) /\
  forall s, world s = w -> step cfg (Enter u) s = s.
Proof.
  intros Hr. split.
  - unfold _check_and_cleanup, bind, gets. by rewrite Hr.
  - intros s <-. cbn. by rewrite Hr.
Qed.

(** When a task ends, however its cleanup went, the entry of its user
    is gone and the task is no longer among the unfinished ones. *)
Lemma finish_pops_entry cfg env t s :
  let s' := step cfg (Finish t env) s in
  forall u, task_user t (running (world s)) = Some u ->
    _cleanup_tasks (world s') !! u = None /\
    forall p, p ∈ running (world s') -> fst p <> t.
Proof.
  intros s' u Hu. subst s'. cbn. rewrite Hu. cbn. split.
  - apply lookup_delete_eq.
  - intros p. rewrite list_elem_of_In, filter_In.
    rewrite negb_true_iff, bool_decide_eq_false. tauto.
Qed.

(** A trigger that runs from its test to its end without another
    trigger in between either changes neither map nor tasks, or finds
    no entry of the user, makes one and starts one task. *)
Lemma check_and_cleanup_cases cfg env u w :
  let w' := snd (_check_and_cleanup cfg env u w) in
  (_cleanup_tasks w' = _cleanup_tasks w /\ running w' = running w) \/
  (cleanup_registered u w = false /\
   cleanup_registered u w' = true /\
   running w' = running w ++ [(next_task w, u)]).
Proof.
  cbn zeta. unfold _check_and_cleanup, bind, gets.
  destruct (cleanup_registered u w) eqn:Hr; [by left|].
  unfold check_resume, try_except, bind, db_call.
  destruct (fault env (db_calls w)); cbn; [by left|].
  destruct (stm_limit cfg <? _); cbn; [|by left].
  right. split; [done|]. split; [|done].
  unfold cleanup_registered. cbn. apply bool_decide_eq_true.
  rewrite lookup_insert_eq. eauto.
Qed.

Lemma outstanding_app u w (r : list (nat * Z)) l :
  running w = r ++ l ->
  outstanding u w =
    map fst (List.filter (fun p => bool_decide (snd p = u)) r) ++
    map fst (List.filter (fun p => bool_decide (snd p = u)) l).
Proof. intros H. unfold outstanding. by rewrite H, List.filter_app, map_app. Qed.

(** Two triggers one after the other start at most one task. *)
Lemma serial_triggers_one_task cfg env env' u w :
  let w1 := snd (_check_and_cleanup cfg env u w) in
  let w2 := snd (_check_and_cleanup cfg env' u w1) in
  (length (outstanding u w2) <= S (length (outstanding u w)))%nat.
Proof.
  cbn zeta.
  destruct (check_and_cleanup_cases cfg env u w) as [[_ H1]|(_ & Hreg & H1)].
  - destruct (check_and_cleanup_cases cfg env' u
                (snd (_check_and_cleanup cfg env u w))) as [[_ H2]|(_ & _ & H2)].
    + unfold outstanding. rewrite H2, H1. lia.
    + rewrite (outstanding_app _ _ _ _ H2). rewrite H1. cbn.
      rewrite bool_decide_eq_true_2 by done. cbn.
      rewrite length_app. unfold outstanding. cbn. lia.
  - rewrite (proj1 (registered_trigger_is_noop cfg env' u _ Hreg)). cbn.
    rewrite (outstanding_app _ _ _ _ H1). cbn.
    rewrite bool_decide_eq_true_2 by done. cbn.
    rewrite length_app. unfold outstanding. cbn. lia.
Qed.

(** A trigger, in full: what it does to map and tasks. *)
Lemma check_and_cleanup_registry cfg env u w :
  let w' := snd (_check_and_cleanup cfg env u w) in
  (_cleanup_tasks w' = _cleanup_tasks w /\ running w' = running w /\
   next_task w' = next_task w) \/
  (_cleanup_tasks w !! u = None /\
   _cleanup_tasks w' = <[u := next_task w]> (_cleanup_tasks w) /\
   running w' = running w ++ [(next_task w, u)] /\
   next_task w' = S (next_task w)).
Proof.
  cbn zeta. unfold _check_and_cleanup, bind, gets.
  destruct (cleanup_registered u w) eqn:Hr; [by left|].
  unfold check_resume, try_except, bind, db_call.
  destruct (fault env (db_calls w)); cbn; [by left|].
  destruct (stm_limit cfg <? _); cbn; [|by left].
  right. split; [|done].
  unfold cleanup_registered in Hr. apply bool_decide_eq_false in Hr.
  by apply eq_None_not_Some.
Qed.

(** The cleanup itself touches neither map nor tasks. *)
Lemma cleanup_leaves_registry cfg env data w :
  let w' := snd (_cleanup_old_messages cfg env data w) in
  _cleanup_tasks w' = _cleanup_tasks w /\
  running w' = running w /\
  next_task w' = next_task w.
Proof.
  cbn zeta.
  unfold _cleanup_old_messages, try_except, db_call, count_rows,
    delete_oldest, bind, lift, gets, modify, ret.
  repeat case_match; by simplify_eq/=.
Qed.

Lemma outstanding_other u u' t (r : list (nat * Z)) :
  u' <> u ->
  map fst (List.filter (fun p => bool_decide (snd p = u')) (r ++ [(t, u)]))
  = map fst (List.filter (fun p => bool_decide (snd p = u')) r).
Proof.
  intros Hne. rewrite List.filter_app, map_app. cbn.
  rewrite bool_decide_eq_false_2 by done. cbn. apply app_nil_r.
Qed.

(** Removing the task [t] from the tasks of [u], the ids being
    distinct. *)
Lemma filter_out_task (r : list (nat * Z)) t u' :
  map fst (List.filter (fun p => bool_decide (snd p = u'))
             (List.filter (fun p => negb (bool_decide (fst p = t))) r))
  = List.filter (fun x => negb (bool_decide (x = t)))
      (map fst (List.filter (fun p => bool_decide (snd p = u')) r)).
Proof.
  induction r as [|[t0 u0] r IH]; [done|]. cbn.
  destruct (bool_decide (t0 = t)) eqn:Ht, (bool_decide (u0 = u')) eqn:Hu;
    cbn; rewrite ?Ht, ?Hu; cbn; rewrite ?Ht; cbn; by rewrite IH.
Qed.

Lemma task_user_elem t u (r : list (nat * Z)) :
  task_user t r = Some u -> (t, u) ∈ r.
Proof.
  unfold task_user. destruct (List.find _ r) as [[t0 u0]|] eqn:Hfind; [|done].
  cbn. intros [= <-]. apply find_some in Hfind as [Hin Ht].
  apply bool_decide_eq_true in Ht. cbn in Ht. subst.
  by apply list_elem_of_In.
Qed.

Lemma outstanding_elem u w t :
  t ∈ outstanding u w <-> (t, u) ∈ running w.
Proof.
  unfold outstanding. rewrite list_elem_of_fmap. split.
  - intros ([t0 u0] & -> & Hin). apply list_elem_of_In, filter_In in Hin.
    destruct Hin as [Hin Hu]. apply bool_decide_eq_true in Hu. cbn in *.
    subst. by apply list_elem_of_In.
  - intros Hin. exists (t, u). split; [done|].
    apply list_elem_of_In, filter_In. split; [by apply list_elem_of_In|].
    by apply bool_decide_eq_true.
Qed.

Lemma task_owner_unique (r : list (nat * Z)) t u u' :
  NoDup (map fst r) -> (t, u') ∈ r -> (t, u) ∈ r -> u' = u.
Proof.
  induction r as [|[t0 u0] r IH]; [by intros _ ?%elem_of_nil|].
  cbn. rewrite NoDup_cons. intros [Hno Hnd].
  rewrite !elem_of_cons. intros [H1|H1] [H2|H2].
  - congruence.
  - exfalso. apply Hno. apply list_elem_of_fmap. exists (t, u).
    split; [cbn; congruence|done].
  - exfalso. apply Hno. apply list_elem_of_fmap. exists (t, u').
    split; [cbn; congruence|done].
  - by apply IH.
Qed.

(** Triggers that do not overlap keep [_cleanup_tasks] exact. *)
Lemma serial_step_exact cfg m w :
  registry_exact w -> registry_exact (serial_step cfg m w).
Proof.
  intros (Hnd & Hfresh & Hex). destruct m as [u env|t env]; cbn [serial_step].
  - destruct (check_and_cleanup_registry cfg env u w)
      as [(Hm & Hr & Hn)|(Hnone & Hm & Hr & Hn)]; cbn zeta in *.
    + unfold registry_exact, outstanding. by rewrite Hm, Hr, Hn.
    + unfold registry_exact, outstanding. rewrite Hm, Hr, Hn.
      split; [|split].
      * rewrite map_app. cbn. apply NoDup_app. split; [done|].
        split; [|apply NoDup_singleton].
        intros x (p & -> & Hp)%list_elem_of_fmap Hx%list_elem_of_singleton.
        specialize (Hfresh p Hp). lia.
      * intros p [Hp| ->%list_elem_of_singleton]%elem_of_app; cbn; [|lia].
        specialize (Hfresh p Hp). lia.
      * intros u'. destruct (decide (u' = u)) as [->|Hne].
        -- rewrite lookup_insert_eq, List.filter_app, map_app. cbn.
           rewrite bool_decide_eq_true_2 by done. cbn.
           specialize (Hex u). unfold outstanding in Hex.
           by rewrite Hex, Hnone.
        -- rewrite lookup_insert_ne by done.
           rewrite outstanding_other by done. apply Hex.
  - cbn [step world].
    destruct (task_user t (running w)) as [u|] eqn:Htask; [|done].
    cbn [world].
    destruct (cleanup_leaves_registry cfg env
                (dict_of [("user_id", PyInt u)]) w) as (Hm & Hr & Hn).
    cbn zeta in Hm, Hr, Hn.
    set (w1 := snd (_cleanup_old_messages cfg env
                      (dict_of [("user_id", PyInt u)]) w)) in *.
    apply task_user_elem in Htask.
    assert (Hentry : _cleanup_tasks w !! u = Some t).
    { specialize (Hex u). apply outstanding_elem in Htask.
      rewrite Hex in Htask. destruct (_cleanup_tasks w !! u);
        [by apply list_elem_of_singleton in Htask as ->
        |by apply elem_of_nil in Htask]. }
    unfold registry_exact, done_callback, outstanding.
    cbn [running _cleanup_tasks next_task set_tasks].
    rewrite Hm, Hr, Hn. split; [|split].
    + clear -Hnd. induction (running w) as [|[t0 u0] r IH]; [done|].
      cbn in *. apply NoDup_cons in Hnd as [Hno Hnd].
      destruct (bool_decide (t0 = t)); cbn; [by apply IH|].
      apply NoDup_cons. split; [|by apply IH].
      intros (p & Heq & Hp)%list_elem_of_fmap. apply Hno.
      apply list_elem_of_fmap. exists p. split; [done|].
      apply list_elem_of_In, filter_In in Hp as [Hp _].
      by apply list_elem_of_In.
    + intros p Hp. apply Hfresh.
      apply list_elem_of_In, filter_In in Hp as [Hp _].
      by apply list_elem_of_In.
    + intros u'. rewrite filter_out_task.
      specialize (Hex u'). unfold outstanding in Hex. rewrite Hex.
      destruct (decide (u' = u)) as [->|Hne].
      * rewrite lookup_delete_eq, Hentry. cbn.
        by rewrite bool_decide_eq_true_2.
      * rewrite lookup_delete_ne by done.
        destruct (_cleanup_tasks w !! u') as [t'|] eqn:Ht'; [|done].
        cbn. rewrite bool_decide_eq_false_2; [done|].
        intros ->. apply Hne.
        assert (Hin : (t, u') ∈ running w).
        { apply outstanding_elem. unfold outstanding. rewrite Hex.
          apply list_elem_of_singleton. done. }
        by apply (task_owner_unique (running w) t).
Qed.

(** X15: With callers that do not overlap, starting with no task at all, a
    user never has more than one unfinished cleanup task. *)
Lemma serial_runs_one_task cfg (ms : list serial_move) w u :
  running w = [] ->
  _cleanup_tasks w = ∅ ->
  (length (outstanding u (foldl (fun w m => serial_step cfg m w) w ms)) <= 1)%nat.
Proof.
  intros Hr Hm.
  assert (Hex : registry_exact w).
  { unfold registry_exact, outstanding. rewrite Hr, Hm. cbn.
    split; [apply NoDup_nil_2|]. split; [by intros p ?%elem_of_nil|].
    intros u'. by rewrite lookup_empty. }
  clear Hr Hm. revert w Hex.
  induction ms as [|m ms IH]; intros w Hex; cbn.
  - destruct Hex as (_ & _ & Hex). rewrite Hex. by case_match; cbn; lia.
  - apply IH. by apply serial_step_exact.
Qed.

(** C7 on the code: user 7 has twenty-six turns and no cleanup task.
    Two callers enter [_check_and_cleanup] for user 7; each finds no
    entry and awaits the count; each is resumed and creates a task.
    Two cleanup tasks of user 7 are unfinished at once, the second has
    overwritten the entry of the first; and when the first ends, its
    callback removes the entry while the second is still unfinished. *)
Theorem concurrent_triggers_start_two_tasks :
  let s0 := {| world := crowded; suspended := [] |} in
  let s := run MEMORY_CONFIG
               [Enter 7; Enter 7; Resume 7 healthy; Resume 7 healthy] s0 in
  let s' := step MEMORY_CONFIG (Finish 0 healthy) s in
  outstanding 7 (world s0) = [] /\
  outstanding 7 (world s) = [0%nat; 1%nat] /\
  _cleanup_tasks (world s) !! 7 = Some 1%nat /\
  outstanding 7 (world s') = [1%nat] /\
  _cleanup_tasks (world s') !! 7 = None.
Proof. vm_compute. repeat split; reflexivity. Qed.

End MemoryActorFacts.

(** ** Session coordinator *)

Module UserSessionFacts.

Import MemoryActor UserSession Scenarios.

Implicit Types (w : UserSession.World) (env : UserSession.Env)
  (cfg : CoordinationConfig).

(** *** What the steps leave alone *)

Section Keeps.

Variable env : UserSession.Env.
Variable f : UserSession.World -> Z.

Hypothesis f_out : forall sv sn ak sl w, f (set_out sv sn ak sl w) = f w.
Hypothesis f_timeouts :
  forall ato w,
    f (set_metrics (total_messages w) (successful_flows w) (failed_flows w)
                   ato (avg_response_time w) w) = f w.

Lemma keeps_ret {A} (a : A) : keeps env f (ret a).
Proof. by intros w. Qed.

Lemma keeps_raise {A} e : keeps env f (@raise _ A e).
Proof. by intros w. Qed.

Lemma keeps_lift {A} (o : outcome A) : o <> Blocked -> keeps env f (lift o).
Proof. by intros Ho w. Qed.

Lemma keeps_bind {A B} (m : M UserSession.World A) (k : A -> M UserSession.World B) :
  keeps env f m -> (forall a, keeps env f (k a)) -> keeps env f (bind m k).
Proof.
  intros Hm Hk w. unfold bind. destruct (Hm w) as [H1 H2].
  destruct (m w) as [[a|e|] w1]; cbn in *; [|done|auto].
  destruct (Hk a w1) as [H3 H4]. split; [congruence|done].
Qed.

Lemma keeps_try_except {A} (m : M UserSession.World A) h :
  keeps env f m -> (forall e, keeps env f (h e)) -> keeps env f (try_except m h).
Proof.
  intros Hm Hh w. unfold try_except. destruct (Hm w) as [H1 H2].
  destruct (m w) as [[a|e|] w1]; cbn in *; [done| |auto].
  destruct (Hh e w1) as [H3 H4]. split; [congruence|done].
Qed.

Lemma keeps_save e : keeps env f (save env e).
Proof.
  intros w. unfold save. destruct (save_event env _) eqn:Hs; cbn.
  - by rewrite f_out.
  - rewrite f_out. eauto.
Qed.

Lemma keeps_call_memory msg : keeps env f (call_memory env msg).
Proof.
  intros w. unfold call_memory. cbn. rewrite f_out. split; [done|].
  by destruct (memory env _).
Qed.

Lemma keeps_call_generation text : keeps env f (call_generation env text).
Proof.
  intros w. unfold call_generation. cbn. rewrite f_out. split; [done|].
  by destruct (ask_deepseek env _).
Qed.

Lemma keeps_sleep d : keeps env f (sleep_ms d).
Proof. intros w. cbn. by rewrite f_out. Qed.

Lemma keeps_log subtype uid data severity :
  keeps env f (_log_coordination_event env subtype uid data severity).
Proof.
  unfold _log_coordination_event. apply keeps_bind.
  - apply keeps_lift. unfold new_SystemEvent. by case_match.
  - intros ev. apply keeps_bind; [apply keeps_save|]. intros _. apply keeps_ret.
Qed.

Lemma keeps_service_call text : keeps env f (_coordinate_service_call env text).
Proof.
  apply keeps_try_except; [apply keeps_call_generation|].
  intros e. apply keeps_raise.
Qed.

Lemma keeps_coordinate_loop actor_name msg timeout attempts delay_ms todo :
  keeps env f
    (coordinate_loop env actor_name msg timeout attempts delay_ms todo).
Proof.
  induction todo as [|attempt rest IH]; [apply keeps_ret|].
  cbn [coordinate_loop]. apply keeps_try_except.
  - apply keeps_bind; [apply keeps_call_memory|]. intros result.
    apply keeps_bind; [apply keeps_save|]. intros _. apply keeps_ret.
  - assert (Hagain : forall e,
      keeps env f
        (if attempt <? attempts - 1
         then bind (sleep_ms delay_ms)
                (fun _ => coordinate_loop env actor_name msg timeout attempts
                            delay_ms rest)
         else raise e)).
    { intros e. case_match; [|apply keeps_raise].
      apply keeps_bind; [apply keeps_sleep|]. by intros _. }
    intros e. destruct e;
      try (apply keeps_bind; [apply keeps_save|]; intros _; apply Hagain).
    apply keeps_bind.
    + intros w. unfold count_timeout, modify. cbn. by rewrite f_timeouts.
    + intros _. apply keeps_bind; [apply keeps_save|]. intros _. apply Hagain.
Qed.

Lemma keeps_actor_call cfg actor_name msg :
  keeps env f (_coordinate_actor_call cfg env actor_name msg).
Proof.
  unfold _coordinate_actor_call. case_match. apply keeps_coordinate_loop.
Qed.

End Keeps.

Lemma context_parts_ends msgs : context_parts msgs <> Blocked.
Proof.
  induction msgs as [|msg rest IH]; [done|]. cbn.
  pose proof (MemoryActorFacts.get_ends msg "role" (PyStr "user")).
  pose proof (MemoryActorFacts.get_ends msg "content" (PyStr EmptyString)).
  by repeat case_match.
Qed.

Lemma format_context_ends messages :
  _format_context_for_generation messages <> Blocked.
Proof.
  destruct messages as [| | | | |l|]; cbn; try done.
  - by case_match.
  - pose proof (context_parts_ends l). by case_match.
  - by case_match.
Qed.

Lemma create_memory_message_ends message_type data :
  create_memory_message message_type data <> Blocked.
Proof. unfold create_memory_message. by repeat case_match. Qed.

(** The pipeline leaves the count of failed flows alone. *)
Lemma pipeline_keeps_failed_flows cfg env text uid :
  keeps env failed_flows (pipeline cfg env text uid).
Proof.
  unfold pipeline.
  repeat first
    [ apply keeps_ret
    | apply keeps_save; done
    | apply keeps_actor_call; done
    | apply keeps_service_call; done
    | apply keeps_log; done
    | apply keeps_lift;
      first [ apply create_memory_message_ends | apply MemoryActorFacts.get_ends
            | apply format_context_ends
            | by unfold new_UserMessageEvent; case_match
            | by unfold new_BotResponseEvent; case_match
            | by unfold len; case_match ]
    | by intros w
    | apply keeps_bind; [|intros ?] ].
Qed.


(** *** The success path *)

Lemma bind_returned {W A B} (m : M W A) (k : A -> M W B) (x x' : W) b :
  bind m k x = (Returned b, x') ->
  exists a x1, m x = (Returned a, x1) /\ k a x1 = (Returned b, x').
Proof.
  unfold bind. destruct (m x) as [[a|e|] x1]; [eauto|done|done].
Qed.

Lemma lift_returned {W A} (o : outcome A) (x x' : W) a :
  lift o x = (Returned a, x') -> o = Returned a /\ x' = x.
Proof. unfold lift. by intros [= -> ->]. Qed.

Ltac unchanged H lem :=
  match type of H with
  | ?m ?a = (_, ?b) =>
      let K := fresh "K" in
      pose proof (proj1 (lem a)) as K; rewrite H in K; cbn [snd] in K
  end.

Lemma pipeline_returned cfg env text uid w s w' :
  pipeline cfg env text uid w = (Returned s, w') ->
  successful_flows w' = successful_flows w + 1 /\
  exists k, ask_deepseek env k = Replies s.
Proof.
  unfold pipeline. intros H.
  apply bind_returned in H as (user_event & w1 & E1 & H).
  apply bind_returned in H as (? & w2 & E2 & H).
  apply bind_returned in H as (store_message & w3 & E3 & H).
  apply bind_returned in H as (? & w4 & E4 & H).
  apply bind_returned in H as (context_message & w5 & E5 & H).
  apply bind_returned in H as (context_response & w6 & E6 & H).
  apply bind_returned in H as (messages & w7 & E7 & H).
  apply bind_returned in H as (context_text & w8 & E8 & H).
  apply bind_returned in H as (response_text & w9 & E9 & H).
  apply bind_returned in H as (bot_event & w10 & E10 & H).
  apply bind_returned in H as (? & w11 & E11 & H).
  apply bind_returned in H as (response_message & w12 & E12 & H).
  apply bind_returned in H as (? & w13 & E13 & H).
  apply bind_returned in H as (? & w14 & E14 & H).
  apply bind_returned in H as (context_messages & w15 & E15 & H).
  apply bind_returned in H as (? & w16 & E16 & H).
  injection H as <- <-.
  apply lift_returned in E1 as [_ ->]. apply lift_returned in E3 as [_ ->].
  apply lift_returned in E5 as [_ ->]. apply lift_returned in E7 as [_ ->].
  apply lift_returned in E8 as [_ ->]. apply lift_returned in E10 as [_ ->].
  apply lift_returned in E12 as [_ ->]. apply lift_returned in E15 as [_ ->].
  injection E14 as _ <-.
  set (out := fun sv sn ak sl x => eq_refl
         : successful_flows (set_out sv sn ak sl x) = successful_flows x).
  set (tmo := fun ato x => eq_refl
         : successful_flows
             (set_metrics (total_messages x) (successful_flows x)
                (failed_flows x) ato (avg_response_time x) x)
           = successful_flows x).
  unchanged E2 (keeps_save env successful_flows out user_event).
  unchanged E4 (keeps_actor_call env successful_flows out tmo cfg
                  "memory" store_message).
  unchanged E6 (keeps_actor_call env successful_flows out tmo cfg
                  "memory" context_message).
  unchanged E9 (keeps_service_call env successful_flows out text).
  unchanged E11 (keeps_save env successful_flows out bot_event).
  unchanged E13 (keeps_actor_call env successful_flows out tmo cfg
                   "memory" response_message).
  unchanged E16 (keeps_log env successful_flows out "user_flow_complete" uid
                   (dict_of
                      [("response_time_seconds", PyInt (response_time env));
                       ("generation_time_ms", PyInt (generation_time env));
                       ("context_messages", PyInt context_messages)])
                   "info").
  split.
  - rewrite K5. cbn. lia.
  - unfold _coordinate_service_call, try_except, call_generation in E9.
    destruct (ask_deepseek env (length (asked w6))) as [a|e|] eqn:Hk;
      cbn in E9; [|done..].
    injection E9 as -> _. eauto.
Qed.



(** *** The whole call *)

Lemma handler_run env uid e w1 :
  let h :=
    bind (modify (fun w =>
            set_metrics (total_messages w) (successful_flows w)
                        (failed_flows w + 1) (actor_timeouts w)
                        (avg_response_time w) w))
      (fun _ =>
         bind (_log_coordination_event env "user_flow_error" uid
                 (dict_of [("error", PyStr (str e))]) "error")
           (fun _ => ret FALLBACK)) in
  fst (h w1) =
    match save_event env (length (saved w1)) with
    | Some _ => Returned FALLBACK
    | None => Blocked
    end /\
  failed_flows (snd (h w1)) = failed_flows w1 + 1 /\
  saved (snd (h w1)) =
    saved w1 ++ [SystemEvent "user_flow_error" (Some uid)
                   (dict_of [("error", PyStr (str e))]) "error"].
Proof.
  cbn zeta. unfold bind, modify, _log_coordination_event, bind, lift, save.
  cbn. by destruct (save_event env (length (saved w1))).
Qed.

(** C2: [handle_user_message] never raises.  When its pipeline runs
    through, it returns the text the generation service answered and
    counts one more successful flow.  When a step of the pipeline
    raises, it counts one more failed flow, hands a [user_flow_error]
    system event of severity [error] to the event store and returns the
    fallback text.  The only way for it not to return is a call of
    [save_event] that does not return. *)
Theorem handle_user_message_never_raises cfg env text uid w :
  let w0 := set_metrics (total_messages w + 1) (successful_flows w)
                        (failed_flows w) (actor_timeouts w)
                        (avg_response_time w) w in
  let p := pipeline cfg env text uid w0 in
  let r := handle_user_message cfg env text uid w in
  (forall e, fst r <> Raised e) /\
  (fst r = Blocked -> exists n, save_event env n = None) /\
  (forall s, fst p = Returned s ->
     r = (Returned s, snd p) /\
     successful_flows (snd r) = successful_flows w + 1 /\
     failed_flows (snd r) = failed_flows w /\
     exists k, ask_deepseek env k = Replies s) /\
  (forall e, fst p = Raised e ->
     fst r = match save_event env (length (saved (snd p))) with
             | Some _ => Returned FALLBACK
             | None => Blocked
             end /\
     failed_flows (snd r) = failed_flows w + 1 /\
     saved (snd r) =
       saved (snd p) ++ [SystemEvent "user_flow_error" (Some uid)
                           (dict_of [("error", PyStr (str e))]) "error"]).
Proof.
  cbn zeta.
  set (w0 := set_metrics _ _ _ _ _ w).
  destruct (pipeline_keeps_failed_flows cfg env text uid w0) as [Hff Hblk].
  change (failed_flows w0) with (failed_flows w) in Hff.
  assert (Hr : handle_user_message cfg env text uid w
               = try_except (pipeline cfg env text uid) _ w0) by reflexivity.
  unfold try_except in Hr. rewrite Hr. clear Hr.
  destruct (pipeline cfg env text uid w0) as [[s|e|] w1] eqn:Hp;
    cbn [fst snd] in *.
  - split; [done|]. split; [done|]. split; [|done].
    intros s' [= <-].
    destruct (pipeline_returned cfg env text uid w0 s w1 Hp) as [Hs Hk].
    by repeat split.
  - destruct (handler_run env uid e w1) as (H1 & H2 & H3). cbn zeta in *.
    split; [|split; [|split; [done|]]].
    + intros e'. rewrite H1. by case_match.
    + rewrite H1. case_match; [done|eauto].
    + intros e' [= <-]. split; [done|]. split; [|done]. by rewrite H2, Hff.
  - split; [done|]. split; [auto|]. by split.
Qed.

Lemma handle_user_message_never_raises_witness :
  let r := handle_user_message COORDINATION_CONFIG memory_silent "hi" 42
                               fresh_session in
  fst r = Returned FALLBACK /\
  failed_flows (snd r) = 1.
Proof.
  destruct (handle_user_message_never_raises COORDINATION_CONFIG
              memory_silent "hi" 42 fresh_session) as (_ & _ & _ & H).
  destruct (H TimeoutError ltac:(vm_compute; reflexivity)) as (H1 & H2 & _).
  split; [exact H1|exact H2].
Defined.

(** With collaborators that answer, ["hi"] from user 42 gets the echo,
    one successful flow is counted, and the memory actor is sent the
    user turn, the context request and the assistant turn. *)
Example coordinator_success_scenario :
  let r := handle_user_message COORDINATION_CONFIG all_well "hi" 42
                               fresh_session in
  fst r = Returned "Echo: hi" /\
  successful_flows (snd r) = 1 /\
  failed_flows (snd r) = 0 /\
  map (fun m => match m with
                | ActorMessage (PyStr t) _ => t
                | _ => EmptyString
                end) (sent (snd r))
  = ["store_user_message"; "get_conversation_context"; "store_bot_response"].
Proof. vm_compute. repeat split; reflexivity. Qed.

(** With a memory actor that never answers, the three attempts of the
    first coordinated call time out, with two sleeps of 500 ms between
    them, and the caller gets the fallback text. *)
Example coordinator_timeout_scenario :
  let r := handle_user_message COORDINATION_CONFIG memory_silent "hi" 42
                               fresh_session in
  fst r = Returned FALLBACK /\
  failed_flows (snd r) = 1 /\
  successful_flows (snd r) = 0 /\
  actor_timeouts (snd r) = 3 /\
  slept_ms (snd r) = [500; 500].
Proof. vm_compute. repeat split; reflexivity. Qed.

End UserSessionFacts.

(** ** Filters *)

Module ListLaws.

Lemma elem_of_list_filter {A} (f : A -> bool) (l : list A) x :
  x ∈ List.filter f l <-> x ∈ l /\ f x = true.
Proof. by rewrite !list_elem_of_In, filter_In. Qed.

Lemma filter_swap {A} (f g : A -> bool) (l : list A) :
  List.filter f (List.filter g l) = List.filter g (List.filter f l).
Proof.
  induction l as [|x l IH]; [done|]. cbn.
  destruct (f x) eqn:Hf, (g x) eqn:Hg; cbn; by rewrite ?Hf, ?Hg, IH.
Qed.

Lemma filter_absorbs {A} (f g : A -> bool) (l : list A) :
  (forall x, x ∈ l -> f x = true -> g x = true) ->
  List.filter f (List.filter g l) = List.filter f l.
Proof.
  induction l as [|x l IH]; intros H; [done|]. cbn.
  assert (Hl : forall y, y ∈ l -> f y = true -> g y = true).
  { intros y Hy. apply H. by right. }
  destruct (f x) eqn:Hf.
  - rewrite (H x) by (done || by left). cbn. by rewrite Hf, IH.
  - destruct (g x); cbn; by rewrite ?Hf, IH.
Qed.

End ListLaws.

(** ** Event store: order, bounds and queries *)

Module EventStoreLaws.

Import EventStore Scenarios ListLaws.

Section WithJson.

Context {Data : Type}.
Variable json_dumps : Data -> string.
Variable json_loads : string -> Data.
Variable json_size : BaseEvent Data -> Z.

Abbreviation flush := (_flush_buffer json_dumps).
Abbreviation save := (save_event json_dumps json_size).
Abbreviation row := (to_row json_dumps).
Abbreviation rejects := (EventStore.rejects json_size).

Implicit Types (w : World Data) (env : Env Data) (e : BaseEvent Data).

Lemma by_timestamp_total : Total by_timestamp.
Proof. intros a b. unfold by_timestamp. lia. Qed.
Lemma by_timestamp_trans : Transitive by_timestamp.
Proof. intros a b c. unfold by_timestamp. lia. Qed.
Lemma by_timestamp_desc_total : Total by_timestamp_desc.
Proof. intros a b. unfold by_timestamp_desc. lia. Qed.
Lemma by_timestamp_desc_trans : Transitive by_timestamp_desc.
Proof. intros a b c. unfold by_timestamp_desc. lia. Qed.

#[local] Existing Instances by_timestamp_total by_timestamp_trans
  by_timestamp_desc_total by_timestamp_desc_trans.

(** [shutdown] with the lock free and a database that takes the
    batch. *)
Lemma shutdown_success env w :
  _buffer_lock w = false ->
  insert_fault env = None ->
  shutdown json_dumps env w =
    (Returned tt,
     {| _event_buffer := [];
        _buffer_lock := false;
        events_table :=
          events_table w ++ map (row (db_now env)) (_event_buffer w);
        trace :=
          trace w ++
          match _event_buffer w with
          | [] => []
          | _ => [DbInsert true (length (_event_buffer w))]
          end |}).
Proof.
  destruct w as [[|e b] lk tbl tr]; cbn; intros -> Hok.
  - unfold shutdown, with_lock, acquire, bind, finally, _flush_buffer. cbn.
    by rewrite !app_nil_r.
  - unfold shutdown, with_lock, acquire, bind, finally, _flush_buffer,
      try_except, execute_many. cbn. by rewrite Hok.
Qed.

Lemma saves_keep_order cfg env es : forall w,
  _buffer_lock w = false ->
  insert_fault env = None ->
  let w' := foldl (fun w e => snd (save cfg env e w)) w es in
  _buffer_lock w' = false /\
  events_table w' ++ map (row (db_now env)) (_event_buffer w') =
    events_table w ++
    map (row (db_now env))
        (_event_buffer w ++ List.filter (fun e => negb (rejects cfg e)) es).
Proof.
  induction es as [|e es IH]; intros w Hl Hok; cbn zeta.
  - cbn. by rewrite app_nil_r.
  - cbn [foldl List.filter].
    destruct (rejects cfg e) eqn:Hr; cbn [negb].
    { rewrite EventStoreFacts.save_rejected by done. cbn [snd].
      by apply IH. }
    destruct (fills cfg w) eqn:Hf.
    + rewrite EventStoreFacts.save_flushed by done. cbn [snd].
      match goal with |- context [foldl _ ?w1 es] =>
        destruct (IH w1 eq_refl Hok) as [IH1 IH2] end.
      cbn zeta in IH1, IH2. split; [done|]. rewrite IH2. cbn.
      rewrite <- !app_assoc, !map_app, <- !app_assoc. by cbn.
    + rewrite EventStoreFacts.save_buffered by done. cbn [snd].
      destruct (IH (set_buffer (_event_buffer w ++ [e]) w)) as [IH1 IH2];
        [by destruct w|done|].
      cbn zeta in IH1, IH2. split; [done|]. rewrite IH2.
      destruct w; cbn. by rewrite <- !app_assoc.
Qed.

(** X1: Events saved one after the other while the database takes every
    batch, and a final [shutdown]: the table holds, after what it held,
    the rows of the events that were buffered and of the events that
    passed validation, in the order in which they were saved, each
    once; the buffer is empty and the lock free. *)
Theorem saved_events_reach_the_table_in_order cfg env es w :
  _buffer_lock w = false ->
  insert_fault env = None ->
  let w1 :=
    foldl (fun w e => snd (save_event json_dumps json_size cfg env e w))
          w es in
  let r := shutdown json_dumps env w1 in
  fst r = Returned tt /\
  _event_buffer (snd r) = [] /\
  _buffer_lock (snd r) = false /\
  events_table (snd r) =
    events_table w ++
    map (to_row json_dumps (db_now env))
        (_event_buffer w ++
         List.filter (fun e => negb (EventStore.rejects json_size cfg e)) es).
Proof.
  intros Hl Hok w1 r.
  destruct (saves_keep_order cfg env es w Hl Hok) as [Hl1 Ht1].
  fold w1 in Hl1, Ht1. subst r.
  rewrite shutdown_success by done. by cbn.
Qed.

(** X2: Between two calls the buffer stays below the batch size: a
    [save_event] that starts with the lock free and fewer than
    [event_batch_size] buffered events leaves fewer than
    [event_batch_size] behind, whether the insert it may trigger
    succeeds or not. *)
Theorem buffer_stays_below_batch_size cfg env e w :
  _buffer_lock w = false ->
  Z.of_nat (length (_event_buffer w)) < event_batch_size cfg ->
  Z.of_nat (length (_event_buffer
                      (snd (save_event json_dumps json_size cfg env e w))))
    < event_batch_size cfg.
Proof.
  intros Hl Hlen.
  destruct (rejects cfg e) eqn:Hr;
    [by rewrite EventStoreFacts.save_rejected|].
  destruct (fills cfg w) eqn:Hf.
  - destruct (insert_fault env) as [x|] eqn:Hx.
    + rewrite (EventStoreFacts.save_blocked _ _ _ _ _ _ x) by done. cbn. lia.
    + rewrite EventStoreFacts.save_flushed by done. cbn. lia.
  - rewrite EventStoreFacts.save_buffered by done.
    unfold fills in Hf. apply Z.leb_gt in Hf.
    destruct w as [buf lk tbl tr]. cbn [snd set_buffer _event_buffer] in *.
    rewrite length_app. cbn [length]. lia.
Qed.

(** *** Queries *)

(** X4: [get_events_by_stream] returns at most [limit] records, oldest
    first, each made from a row of the table that is in the stream and,
    where [after_timestamp] is given, is later than it; when the query
    fails it returns the empty list. *)
Theorem events_by_stream_sound env w sid limit after :
  let res := get_events_by_stream json_loads env w sid limit after in
  Z.of_nat (length res) <= Z.max 0 limit /\
  StronglySorted (fun a b => rec_timestamp a <= rec_timestamp b) res /\
  (forall r, r ∈ res ->
     rec_stream_id r = sid /\
     (forall t, after = Some t -> t < rec_timestamp r) /\
     exists x, x ∈ events_table w /\ r = of_row json_loads x) /\
  (is_Some (fetch_fault env) \/ limit < 0 -> res = []).
Proof.
  cbn zeta. unfold get_events_by_stream, select_by_stream.
  destruct (fetch_fault env) as [x|] eqn:Hf.
  { cbn. split; [lia|]. split; [constructor|]. split; [|done].
    by intros r ?%elem_of_nil. }
  destruct (limit <? 0) eqn:Hneg.
  { cbn. split; [lia|]. split; [constructor|]. split; [|done].
    by intros r ?%elem_of_nil. }
  set (hits := List.filter _ (events_table w)).
  pose proof (StronglySorted_merge_sort by_timestamp hits) as Hs.
  pose proof (merge_sort_Permutation by_timestamp hits) as Hp.
  set (sorted := merge_sort by_timestamp hits) in *.
  split; [|split; [|split]].
  - rewrite length_map, length_take. lia.
  - apply (StronglySorted_fmap _ by_timestamp); [by intros a b|].
    rewrite <- (take_drop (Z.to_nat limit) sorted) in Hs.
    by apply StronglySorted_app_1_l in Hs.
  - intros r (x & -> & Hx)%list_elem_of_fmap.
    apply (subseteq_take (Z.to_nat limit)) in Hx. rewrite Hp in Hx.
    apply elem_of_list_filter in Hx as [Hin Hx].
    apply andb_true_iff in Hx as [Hsid Hafter].
    apply bool_decide_eq_true in Hsid. cbn.
    split; [done|]. split; [|by exists x].
    intros t ->. lia.
  - intros [[? [=]]|Hlim]. lia.
Qed.

(** X5: [get_user_events] returns at most [limit] records, newest first,
    each made from a row of the table that belongs to the user and,
    where a non-empty list of types is given, has one of these types;
    the empty list of types selects like no list at all; when the query
    fails the result is the empty list. *)
Theorem user_events_sound env w uid event_types limit :
  let res := get_user_events json_loads env w uid event_types limit in
  Z.of_nat (length res) <= Z.max 0 limit /\
  StronglySorted (fun a b => rec_timestamp b <= rec_timestamp a) res /\
  (forall r, r ∈ res ->
     rec_user_id r = uid /\
     (forall t ts, event_types = Some (t :: ts) ->
                   rec_event_type r ∈ t :: ts) /\
     exists x, x ∈ events_table w /\ r = of_row json_loads x) /\
  get_user_events json_loads env w uid (Some []) limit =
    get_user_events json_loads env w uid None limit /\
  (is_Some (fetch_fault env) \/ limit < 0 -> res = []).
Proof.
  cbn zeta. unfold get_user_events, select_by_user.
  destruct (fetch_fault env) as [x|] eqn:Hf.
  { cbn. split; [lia|]. split; [constructor|]. split; [|done].
    by intros r ?%elem_of_nil. }
  destruct (limit <? 0) eqn:Hneg.
  { cbn. split; [lia|]. split; [constructor|]. split; [|done].
    by intros r ?%elem_of_nil. }
  set (hits := List.filter _ (events_table w)).
  pose proof (StronglySorted_merge_sort by_timestamp_desc hits) as Hs.
  pose proof (merge_sort_Permutation by_timestamp_desc hits) as Hp.
  set (sorted := merge_sort by_timestamp_desc hits) in *.
  split; [|split; [|split; [|split]]].
  - rewrite length_map, length_take. lia.
  - apply (StronglySorted_fmap _ by_timestamp_desc); [by intros a b|].
    rewrite <- (take_drop (Z.to_nat limit) sorted) in Hs.
    by apply StronglySorted_app_1_l in Hs.
  - intros r (x & -> & Hx)%list_elem_of_fmap.
    apply (subseteq_take (Z.to_nat limit)) in Hx. rewrite Hp in Hx.
    apply elem_of_list_filter in Hx as [Hin Hx].
    apply andb_true_iff in Hx as [Hu Hty].
    apply bool_decide_eq_true in Hu. cbn.
    split; [done|]. split; [|by exists x].
    intros t ts ->. cbn in Hty. by apply bool_decide_eq_true in Hty.
  - done.
  - intros [[? [=]]|Hlim]. lia.
Qed.

Lemma fetch_finds_user env w uid limit (r : EventRow) :
  fetch_fault env = None ->
  r ∈ events_table w ->
  row_user_id r = uid ->
  Z.of_nat (length (List.filter
                      (fun r => bool_decide (row_user_id r = uid))
                      (events_table w))) <= limit ->
  of_row json_loads r ∈ get_user_events json_loads env w uid None limit.
Proof.
  intros Hf Hin Hu Hlim.
  unfold get_user_events, select_by_user. rewrite Hf.
  destruct (limit <? 0) eqn:Hneg; [lia|].
  apply list_elem_of_fmap_2. cbn [type_filter].
  erewrite (filter_ext (fun r => _ && true)); [|intros; apply andb_true_r].
  rewrite take_ge.
  - rewrite merge_sort_Permutation. apply elem_of_list_filter.
    split; [done|]. by apply bool_decide_eq_true.
  - rewrite merge_sort_Permutation. lia.
Qed.

(** X6: An event for which [save_event] returned true is found again by
    [get_user_events] once the buffer has been flushed, under the user
    id of the event, or under user id 0 when it has none; the record
    has the type, the data, the metadata and the version of the event.
    The database takes the batch, and the user has no more rows than
    the limit of the query. *)
Theorem roundtrip_by_user cfg env env' e w limit :
  (forall d, json_loads (json_dumps d) = d) ->
  fst (save_event json_dumps json_size cfg env e w) = Returned true ->
  insert_fault env' = None ->
  fetch_fault env' = None ->
  let w1 := snd (save_event json_dumps json_size cfg env e w) in
  let w2 := snd (_flush_buffer json_dumps env' w1) in
  let uid := default 0 (user_id e) in
  Z.of_nat (length (List.filter
                      (fun r => bool_decide (row_user_id r = uid))
                      (events_table w2))) <= limit ->
  exists r,
    r ∈ get_user_events json_loads env' w2 uid None limit /\
    rec_event_type r = event_type e /\
    rec_user_id r = uid /\
    rec_data r = data e /\
    rec_metadata r = metadata e /\
    rec_version r = version e.
Proof.
  intros Hjson Hsave Hok Hfetch w1 w2 uid Hlim.
  destruct (EventStoreFacts.row_stored _ _ cfg env env' e w Hsave Hok)
    as [now Hin].
  exists (of_row json_loads (row now e)). split.
  - by apply fetch_finds_user.
  - cbn. by rewrite !Hjson.
Qed.

(** *** Retention *)

(** X7: [cleanup_old_events] never raises and leaves the buffer alone.  It
    keeps the order of the rows and keeps every row that is a system
    event or a coordination event, or not older than the cutoff
    [now - retention]; when the DELETE goes through these are the only
    rows left, and a second cleanup at the same instant deletes nothing
    more; when the DELETE fails the table is as before. *)
Theorem retention_spares_system_events retention delete_fault now w :
  let r := cleanup_old_events retention delete_fault now w in
  let kept x := spared x = true \/ now - retention <= row_timestamp x in
  fst r = Returned tt /\
  _event_buffer (snd r) = _event_buffer w /\
  events_table (snd r) `sublist_of` events_table w /\
  (forall x, x ∈ events_table w -> kept x -> x ∈ events_table (snd r)) /\
  (delete_fault = None ->
   (forall x, x ∈ events_table (snd r) -> kept x) /\
   snd (cleanup_old_events retention None now (snd r)) = snd r) /\
  (is_Some delete_fault -> snd r = w).
Proof.
  cbn zeta. unfold cleanup_old_events, try_except, ret.
  destruct delete_fault as [x|]; cbn.
  - split; [done|]. split; [done|]. split; [done|]. split; [done|].
    split; [done|done].
  - set (keep := fun r : EventRow => negb _).
    assert (Hkeep : forall x, keep x = true <->
              spared x = true \/ now - retention <= row_timestamp x).
    { intros x. unfold keep. rewrite negb_true_iff, andb_false_iff.
      rewrite negb_false_iff. split; intros [H|H]; auto; [right|left]; lia. }
    split; [done|]. split; [done|]. split; [|split; [|split]].
    + clear. induction (events_table w) as [|x t IH]; [done|]. cbn.
      destruct (keep x); [by apply sublist_skip|by apply sublist_cons].
    + intros x Hx Hk. apply elem_of_list_filter. split; [done|].
      by apply Hkeep.
    + split.
      * intros x [_ Hx]%elem_of_list_filter. by apply Hkeep.
      * unfold set_table. cbn. f_equal.
        induction (events_table w) as [|x t IH]; [done|]. cbn.
        destruct (keep x) eqn:Hx; [|done]. cbn. by rewrite Hx, IH.
    + by intros [? [=]].
Qed.

(** *** Streams *)

(** X8: [BaseEvent.__init__] files an event that comes with a user id and
    without a stream id under a stream of that user: two such events
    are in the same stream exactly when they have the same user. *)
Theorem default_streams_separate_users e1 e2 u1 u2 :
  stream_id e1 = None -> user_id e1 = Some u1 ->
  stream_id e2 = None -> user_id e2 = Some u2 ->
  stream_id (BaseEvent_init e1) = stream_id (BaseEvent_init e2) <-> u1 = u2.
Proof.
  intros Hs1 Hu1 Hs2 Hu2. unfold BaseEvent_init.
  rewrite Hs1, Hu1, Hs2, Hu2. cbn. split; [|by intros ->].
  intros [= H]. by apply (inj pretty).
Qed.

End WithJson.

(** *** At concrete inputs *)

Lemma failed_then_successful_flush_witness :
  _event_buffer one_buffered <> [] /\
  _buffer_lock one_buffered = false /\
  let w1 := snd (_flush_buffer flag_dumps (db_down_meanwhile 2000)
                               one_buffered) in
  let w2 := snd (_flush_buffer flag_dumps (db_up 2005) w1) in
  _event_buffer w1 = [user_event 1 1000; user_event 2 1001] /\
  events_table w2 =
    map (to_row flag_dumps 2005) [user_event 1 1000; user_event 2 1001].
Proof.
  split; [discriminate|]. split; [reflexivity|].
  exact (EventStoreFacts.failed_then_successful_flush flag_dumps
           (db_down_meanwhile 2000) (db_up 2005) one_buffered
           (StorageError "connection lost")
           ltac:(discriminate) eq_refl eq_refl eq_refl).
Defined.

Lemma saved_events_reach_the_table_in_order_witness :
  _buffer_lock one_buffered = false /\
  insert_fault (db_up 2000) = None /\
  events_table
    (snd (shutdown flag_dumps (db_up 2000)
            (foldl (fun w e =>
                      snd (save_event flag_dumps flag_size small_batches
                                      (db_up 2000) e w))
                   one_buffered [user_event 2 1001; user_event 3 1002])))
  = map (to_row flag_dumps 2000)
        [user_event 1 1000; user_event 2 1001; user_event 3 1002].
Proof.
  split; [reflexivity|]. split; [reflexivity|].
  exact (proj2 (proj2 (proj2
    (saved_events_reach_the_table_in_order flag_dumps flag_size
       small_batches (db_up 2000) [user_event 2 1001; user_event 3 1002]
       one_buffered eq_refl eq_refl)))).
Defined.

Lemma buffer_stays_below_batch_size_witness :
  _buffer_lock one_buffered = false /\
  Z.of_nat (length (_event_buffer one_buffered))
    < event_batch_size small_batches /\
  Z.of_nat (length (_event_buffer
    (snd (save_event flag_dumps flag_size small_batches (db_up 2000)
                     (user_event 2 1001) one_buffered))))
    < event_batch_size small_batches.
Proof.
  split; [reflexivity|]. split; [reflexivity|].
  exact (buffer_stays_below_batch_size flag_dumps flag_size small_batches
           (db_up 2000) (user_event 2 1001) one_buffered eq_refl eq_refl).
Defined.

Lemma roundtrip_by_user_witness :
  let e := BaseEvent_init (raw_event None) in
  user_id e = None /\
  exists r,
    r ∈ get_user_events flag_loads (db_up 2000)
          (snd (_flush_buffer flag_dumps (db_up 2000)
             (snd (save_event flag_dumps flag_size EVENT_CONFIG (db_up 2000)
                              e empty_store))))
          0 None 50 /\
    rec_event_type r = "system_event" /\
    rec_user_id r = 0 /\
    rec_data r = true /\
    rec_metadata r = false /\
    rec_version r = 1.
Proof.
  cbn zeta. split; [reflexivity|].
  apply (roundtrip_by_user flag_dumps flag_loads flag_size EVENT_CONFIG
           (db_up 2000) (db_up 2000) (BaseEvent_init (raw_event None))
           empty_store 50).
  - intros []; reflexivity.
  - reflexivity.
  - reflexivity.
  - reflexivity.
  - vm_compute. discriminate.
Defined.

Lemma default_streams_separate_users_witness :
  stream_id (BaseEvent_init (raw_event (Some 1)))
    = stream_id (BaseEvent_init (raw_event (Some 2))) <-> 1 = 2.
Proof.
  exact (default_streams_separate_users (raw_event (Some 1))
           (raw_event (Some 2)) 1 2 eq_refl eq_refl eq_refl eq_refl).
Defined.

End EventStoreLaws.

(** ** Short-term memory actor: writes, cleanup and counters *)

Module MemoryActorLaws.

Import MemoryActor Scenarios ListLaws.

Implicit Types (w : World) (env : Env) (cfg : MemoryConfig).

(** *** The latency windows *)

(** X16: The windows of latency samples hold at most a hundred samples: the
    new sample goes to the end, and a full window drops its oldest
    sample. *)
Theorem push_sample_window x samples :
  (length samples <= 100)%nat ->
  let s := push_sample x samples in
  (length s <= 100)%nat /\
  last s = Some x /\
  ((length samples < 100)%nat -> s = samples ++ [x]) /\
  (length samples = 100%nat -> s = drop 1 samples ++ [x]).
Proof.
  intros Hlen. cbn zeta. unfold push_sample. rewrite length_app. cbn [length].
  destruct (100 <? Z.of_nat (length samples + 1)) eqn:Hfull.
  - apply Z.ltb_lt in Hfull.
    destruct samples as [|y samples]; [cbn [length] in Hfull; lia|].
    cbn [app drop length] in *. rewrite drop_0.
    split; [rewrite length_app; cbn [length]; lia|].
    split; [apply last_snoc|]. split; [lia|done].
  - apply Z.ltb_ge in Hfull.
    split; [rewrite length_app; cbn [length]; lia|].
    split; [apply last_snoc|]. split; [done|lia].
Qed.

(** *** Storing a turn *)

Lemma check_and_cleanup_frame cfg env u w :
  exists w',
    _check_and_cleanup cfg env u w = (Returned tt, w') /\
    stm_buffer w' = stm_buffer w /\
    next_id w' = next_id w /\
    sleeps w' = sleeps w.
Proof.
  unfold _check_and_cleanup, bind, gets.
  destruct (cleanup_registered u w); [by eexists|].
  unfold check_resume, try_except, bind, db_call.
  destruct (fault env (db_calls w)); cbn; [by eexists|].
  destruct (stm_limit cfg <? _); by eexists.
Qed.

Lemma as_opt_text_opt_text o : as_opt_text (opt_text o) = Returned o.
Proof. by destruct o. Qed.

(** A pass of the retry loop whose insert goes through. *)
Lemma store_attempt_success cfg env u c em mo w :
  fault env (db_calls w) = None ->
  exists now w',
    store_attempt cfg env (PyInt u) (PyStr c) (opt_text em) (opt_text mo) w
      = (Returned (stored (next_id w) now), w') /\
    stm_buffer w' =
      stm_buffer w ++
      [{| id := next_id w; user_id := u; role := "user"; content := c;
          emotion := em; mode := mo; created_at := clock w + 1 |}] /\
    next_id w' = next_id w + 1 /\
    sleeps w' = sleeps w.
Proof.
  intros Hf. unfold store_attempt, bind at 1, db_call. rewrite Hf.
  unfold insert_row, bind, lift. cbn [as_int as_text].
  rewrite !as_opt_text_opt_text.
  match goal with |- context [_check_and_cleanup cfg env u ?x] =>
    destruct (check_and_cleanup_frame cfg env u x)
      as (w2 & -> & Ht & Hn & Hs) end.
  cbn in Ht, Hn, Hs.
  destruct (performance_log_enabled cfg); cbn -[stored];
    do 2 eexists; (split; [reflexivity|]); by cbn.
Qed.

(** Any pass: it raises before anything is written, or it writes one
    row and returns. *)
Lemma store_attempt_outcome cfg env uid content emotion mode w :
  let r := store_attempt cfg env uid content emotion mode w in
  (exists e, r = (Raised e, tick w)) \/
  (exists u c em mo now,
     uid = PyInt u /\ content = PyStr c /\
     fst r = Returned (stored (next_id w) now) /\
     stm_buffer (snd r) =
       stm_buffer w ++
       [{| id := next_id w; user_id := u; role := "user"; content := c;
           emotion := em; mode := mo; created_at := clock w + 1 |}] /\
     next_id (snd r) = next_id w + 1).
Proof.
  cbn zeta.
  destruct (fault env (db_calls w)) as [e|] eqn:Hf.
  { left. exists e. unfold store_attempt, bind, db_call. by rewrite Hf. }
  assert (Hbad : forall e,
    insert_row uid (PyStr "user") content emotion mode (tick w)
      = (Raised e, tick w) ->
    exists e', store_attempt cfg env uid content emotion mode w
                 = (Raised e', tick w)).
  { intros e He. exists e. unfold store_attempt, bind at 1, db_call.
    by rewrite Hf, He. }
  destruct uid as [| | u | | | |]; try (left; by eapply Hbad).
  destruct content as [| | | c | | |]; try (left; by eapply Hbad).
  assert (Hem : (exists em, emotion = opt_text em) \/
                as_opt_text emotion
                  = Raised (StorageError
                      "invalid input for query argument (text)")).
  { destruct emotion; try (by right);
      [left; by exists None|left; by eexists (Some _)]. }
  assert (Hmo : (exists mo, mode = opt_text mo) \/
                as_opt_text mode
                  = Raised (StorageError
                      "invalid input for query argument (text)")).
  { destruct mode; try (by right);
      [left; by exists None|left; by eexists (Some _)]. }
  destruct Hem as [[em ->]|Hem].
  2:{ left. eapply Hbad. unfold insert_row, bind, lift. cbn [as_int as_text].
      by rewrite Hem. }
  destruct Hmo as [[mo ->]|Hmo].
  2:{ left. eapply Hbad. unfold insert_row, bind, lift. cbn [as_int as_text].
      by rewrite as_opt_text_opt_text, Hmo. }
  right.
  destruct (store_attempt_success cfg env u c em mo w Hf)
    as (now & w' & -> & Ht & Hn & _).
  exists u, c, em, mo, now. by cbn.
Qed.


(** The loop, whatever the passes do: nothing is written, or one row is
    written and its id returned. *)
Lemma store_loop_writes_once cfg env uid content emotion mode attempts :
  forall w,
    let r := store_loop cfg (store_attempt cfg env uid content emotion mode)
                        attempts w in
    (stm_buffer (snd r) = stm_buffer w /\
     next_id (snd r) = next_id w /\
     (fst r = Returned PyNone \/ exists e, fst r = Raised e)) \/
    (exists u c em mo t now,
       uid = PyInt u /\ content = PyStr c /\
       fst r = Returned (stored (next_id w) now) /\
       stm_buffer (snd r) =
         stm_buffer w ++
         [{| id := next_id w; user_id := u; role := "user"; content := c;
             emotion := em; mode := mo; created_at := t |}] /\
       next_id (snd r) = next_id w + 1).
Proof.
  induction attempts as [|attempt rest IH]; intros w; cbn zeta.
  { left. cbn. auto. }
  cbn [store_loop]. unfold try_except.
  destruct (store_attempt_outcome cfg env uid content emotion mode w)
    as [[e He]|(u & c & em & mo & now & -> & -> & Hv & Ht & Hn)];
    cbn zeta in *.
  - rewrite He.
    destruct (attempt <? retry_attempts cfg - 1).
    + unfold bind at 1, sleep, modify.
      match goal with |- context [store_loop _ _ rest ?x] =>
        specialize (IH x); cbn zeta in IH; change (stm_buffer x) with
          (stm_buffer w) in IH; change (next_id x) with (next_id w) in IH
      end.
      exact IH.
    + left. cbn. eauto.
  - destruct (store_attempt _ _ _ _ _ _ w) as [[v|e|] w']; cbn in Hv;
      try done.
    right. exists u, c, em, mo, (clock w + 1), now. by cbn.
Qed.


(** The passes that fail before the insert goes through. *)
Lemma store_loop_retries cfg env body :
  (forall w e, fault env (db_calls w) = Some e -> body w = (Raised e, tick w)) ->
  forall (k n : nat) i w (errs : nat -> exn),
    (k < n)%nat ->
    i + Z.of_nat n = retry_attempts cfg ->
    (forall j, (j < k)%nat ->
               fault env (db_calls w + j)%nat = Some (errs j)) ->
    exists wk,
      store_loop cfg body (seqZ i (Z.of_nat n)) w
        = store_loop cfg body (seqZ (i + Z.of_nat k) (Z.of_nat (n - k))) wk /\
      stm_buffer wk = stm_buffer w /\
      next_id wk = next_id w /\
      clock wk = clock w + Z.of_nat k /\
      db_calls wk = (db_calls w + k)%nat /\
      sleeps wk = sleeps w ++ replicate k (retry_delay_seconds cfg).
Proof.
  intros Hbody. induction k as [|k IH]; intros n i w errs Hk Hi Hf.
  - exists w. rewrite Z.add_0_r, Nat.sub_0_r, Nat.add_0_r, app_nil_r.
    repeat split. lia.
  - destruct n as [|n]; [lia|].
    rewrite seqZ_cons by lia. cbn [store_loop]. unfold try_except at 1.
    rewrite (Hbody w (errs 0%nat)) by (rewrite <- (Hf 0%nat); [f_equal|]; lia).
    replace (i <? retry_attempts cfg - 1) with true by lia.
    unfold bind at 1, sleep, modify.
    replace (Z.pred (Z.of_nat (S n))) with (Z.of_nat n) by lia.
    destruct (IH n (Z.succ i)
                 (set_sleeps (tick w)
                    (sleeps (tick w) ++ [retry_delay_seconds cfg]))
                 (fun j => errs (S j)))
      as (wk & Hrun & Ht & Hn & Hc & Hd & Hs).
    + lia.
    + lia.
    + intros j Hj. cbn. rewrite <- (Hf (S j)) by lia. f_equal. lia.
    + exists wk. rewrite Hrun. cbn in *.
      replace (Z.succ i + Z.of_nat k) with (i + Z.of_nat (S k)) by lia.
      rewrite Ht, Hn, Hc, Hd, Hs, <- app_assoc. cbn.
      repeat split; auto; lia.
Qed.

(** X10: When the insert fails on the first [k] attempts, fewer than
    [retry_attempts], and then goes through, [_store_user_message]
    sleeps [k] times, writes the message once, with the next id of the
    table and the instant of the successful insert, and returns the
    success dictionary with that id; the cleanup check that follows the
    insert may fail without consequence. *)
Theorem store_user_message_retries cfg env w data u c em mo (k : nat)
    (errs : nat -> exn) :
  subscript data "user_id" = Returned (PyInt u) ->
  subscript data "content" = Returned (PyStr c) ->
  get data "emotion" PyNone = Returned (opt_text em) ->
  get data "mode" PyNone = Returned (opt_text mo) ->
  Z.of_nat k < retry_attempts cfg ->
  (forall j, (j < k)%nat -> fault env (db_calls w + j)%nat = Some (errs j)) ->
  fault env (db_calls w + k)%nat = None ->
  exists now w',
    _store_user_message cfg env data w
      = (Returned (stored (next_id w) now), w') /\
    stm_buffer w' =
      stm_buffer w ++
      [{| id := next_id w; user_id := u; role := "user"; content := c;
          emotion := em; mode := mo;
          created_at := clock w + Z.of_nat k + 1 |}] /\
    next_id w' = next_id w + 1 /\
    sleeps w' = sleeps w ++ replicate k (retry_delay_seconds cfg).
Proof.
  intros Hu Hc Hem Hmo Hk Hf Hok.
  unfold _store_user_message, bind, lift. rewrite Hu, Hc, Hem, Hmo.
  unfold range, try_except.
  set (n := Z.to_nat (retry_attempts cfg)).
  replace (seqZ 0 (retry_attempts cfg)) with (seqZ 0 (Z.of_nat n))
    by (f_equal; lia).
  set (body := store_attempt _ _ _ _ _ _).
  destruct (store_loop_retries cfg env body
              (fun w e => MemoryActorFacts.store_attempt_fault _ _ _ _ _ _ w e)
              k n 0 w errs) as (wk & -> & Ht & Hn & Hcl & Hd & Hs);
    [lia|lia|done|].
  replace (Z.of_nat (n - k)) with (Z.succ (Z.of_nat (n - k - 1))) by lia.
  rewrite seqZ_cons by lia. cbn [store_loop]. unfold try_except.
  destruct (store_attempt_success cfg env u c em mo wk)
    as (now & w' & Hrun & Ht' & Hn' & Hs'); [by rewrite Hd|].
  subst body. cbn beta. rewrite Hrun.
  exists now, w'. rewrite Ht', Hn', Hs', Ht, Hn, Hcl, Hs. done.
Qed.

(** X11: [_store_bot_response] makes a single attempt: it never sleeps and
    never looks at the cleanup tasks, and a failing insert is final:
    nothing is written and the failure dictionary is returned after one
    round trip. *)
Theorem store_bot_response_single_attempt env data w :
  let r := _store_bot_response env data w in
  sleeps (snd r) = sleeps w /\
  _cleanup_tasks (snd r) = _cleanup_tasks w /\
  running (snd r) = running w /\
  (db_calls (snd r) <= S (db_calls w))%nat /\
  (forall uid content e,
     subscript data "user_id" = Returned uid ->
     subscript data "content" = Returned content ->
     fault env (db_calls w) = Some e ->
     fst r = Returned (failure e) /\
     stm_buffer (snd r) = stm_buffer w /\
     db_calls (snd r) = S (db_calls w)).
Proof.
  cbn zeta. unfold _store_bot_response, bind, lift.
  destruct data as [| | | | | |d]; try (by repeat split; auto).
  cbn [get]. set (mode := default PyNone (d !! "mode")).
  destruct (subscript (PyDict d) "user_id") as [uid|e|] eqn:Hu;
    [|by repeat split; auto..].
  destruct (subscript (PyDict d) "content") as [content|e|] eqn:Hc;
    [|by repeat split; auto..].
  unfold try_except, db_call.
  destruct (fault env (db_calls w)) as [e|] eqn:Hf.
  { cbn. split; [done|]. split; [done|]. split; [done|]. split; [lia|].
    intros ? ? e' _ _ [= <-]. by repeat split. }
  destruct (MemoryActorFacts.insert_row_cases uid "assistant" content PyNone
              mode (tick w)) as [[e He]|(u & w1 & -> & He)].
  - rewrite He. cbn. split; [done|]. split; [done|]. split; [done|].
    split; [lia|]. by intros ? ? ? _ _ [=].
  - assert (Hw1 : sleeps w1 = sleeps w /\ _cleanup_tasks w1 = _cleanup_tasks w
                  /\ running w1 = running w /\ db_calls w1 = S (db_calls w)).
    { unfold insert_row, bind, lift in He. cbn [as_int as_text] in He.
      destruct (as_text content); cbn in He; try done.
      destruct (as_opt_text mode); cbn in He; try done.
      injection He as <-. by cbn. }
    rewrite He. cbn. destruct Hw1 as (-> & -> & -> & ->).
    split; [done|]. split; [done|]. split; [done|].
    split; [lia|]. by intros ? ? ? _ _ [=].
Qed.

(** *** Cleanup *)

Lemma nodup_ids_filter (f : StmRow -> bool) t :
  NoDup (map id t) -> NoDup (map id (List.filter f t)).
Proof.
  induction t as [|x t IH]; [done|]. cbn. rewrite NoDup_cons.
  intros [Hx Hnd]. destruct (f x); cbn; [|auto].
  apply NoDup_cons. split; [|auto].
  intros (y & Hy & Hin)%list_elem_of_fmap. apply Hx.
  apply list_elem_of_fmap. exists y. split; [done|].
  by apply elem_of_list_filter in Hin as [Hin _].
Qed.

Lemma delete_ids_length t victims :
  NoDup (map id t) -> victims ⊆ t -> NoDup victims ->
  (length (delete_ids (map id victims) t) + length victims = length t)%nat.
Proof.
  intros Hnd Hsub Hv.
  assert (Hp : victims ++ delete_ids (map id victims) t ≡ₚ t).
  { apply NoDup_Permutation.
    - apply NoDup_app. split; [done|]. split.
      + intros x Hx Hd.
        apply (MemoryActorFacts.delete_ids_spec t victims Hnd Hsub) in Hd.
        tauto.
      + apply (NoDup_fmap_1 id). by apply nodup_ids_filter.
    - by apply (NoDup_fmap_1 id).
    - intros x.
      rewrite elem_of_app, (MemoryActorFacts.delete_ids_spec t victims Hnd Hsub).
      split; [intros [?|[? ?]]; auto|]. intros Hx.
      destruct (decide (id x ∈ map id victims)) as [Hin|Hout].
      + left. apply list_elem_of_fmap in Hin as (v & Heq & Hin).
        by rewrite (MemoryActorFacts.id_determines_row t x v Hnd Hx
                      (Hsub _ Hin) Heq).
      + right. split; [done|]. intros Hin. apply Hout.
        by apply list_elem_of_fmap_2. }
  apply Permutation_length in Hp. rewrite length_app in Hp. lia.
Qed.

(** The run of a cleanup whose two round trips go through. *)
Lemma cleanup_run cfg env w data u :
  subscript data "user_id" = Returned (PyInt u) ->
  0 <= cleanup_batch_size cfg ->
  fault env (db_calls w) = None ->
  fault env (S (db_calls w)) = None ->
  let count := Z.of_nat (length (rows_of u (stm_buffer w))) in
  stm_limit cfg < count ->
  _cleanup_old_messages cfg env data w =
    (Returned (dict_of
       [("success", PyBool true);
        ("deleted_count", PyInt (count - stm_limit cfg));
        ("remaining_count", PyInt (stm_limit cfg))]),
     set_counters
       (set_table (tick (tick w))
          (delete_ids
             (map id (select_oldest (stm_buffer w) u
                (Z.to_nat (count - stm_limit cfg + cleanup_batch_size cfg))))
             (stm_buffer w)))
       (_message_count w) (_error_count w) (cleanup_operations w + 1)).
Proof.
  intros Hu Hbatch Hf1 Hf2 count Hex.
  unfold _cleanup_old_messages, bind, lift, try_except, db_call.
  rewrite Hu, Hf1. cbn -[rows_of select_oldest delete_ids]. fold count.
  replace (stm_limit cfg <? count) with true by lia.
  change (db_calls (tick w)) with (S (db_calls w)). rewrite Hf2.
  by replace (count - stm_limit cfg + cleanup_batch_size cfg <? 0)
    with false by lia.
Qed.

(** A cleanup of a user within the limit leaves the table alone,
    whether the count goes through or not. *)
Lemma cleanup_within_limit cfg env w data u :
  subscript data "user_id" = Returned (PyInt u) ->
  Z.of_nat (length (rows_of u (stm_buffer w))) <= stm_limit cfg ->
  stm_buffer (snd (_cleanup_old_messages cfg env data w)) = stm_buffer w.
Proof.
  intros Hu Hle.
  unfold _cleanup_old_messages, bind, lift, try_except, db_call.
  rewrite Hu. destruct (fault env (db_calls w)); [done|].
  cbn -[rows_of].
  by replace (stm_limit cfg <? _) with false by lia.
Qed.

(** X12: What a cleanup leaves behind.  With a batch size between 0 and the
    limit and a database that answers: a user within the limit keeps
    all turns; a user above the limit is left with
    [stm_limit - cleanup_batch_size] turns, [cleanup_batch_size] more
    having been deleted than the [deleted_count] of the result says and
    as many fewer being left than its [remaining_count] says.  The
    turns of other users are untouched, and a second cleanup, whatever
    the database does, deletes nothing more. *)
Theorem cleanup_leaves_room cfg env env' w data u :
  subscript data "user_id" = Returned (PyInt u) ->
  NoDup (map id (stm_buffer w)) ->
  0 <= cleanup_batch_size cfg <= stm_limit cfg ->
  fault env (db_calls w) = None ->
  fault env (S (db_calls w)) = None ->
  let count := Z.of_nat (length (rows_of u (stm_buffer w))) in
  let r := _cleanup_old_messages cfg env data w in
  (count <= stm_limit cfg -> stm_buffer (snd r) = stm_buffer w) /\
  (stm_limit cfg < count ->
   Z.of_nat (length (rows_of u (stm_buffer (snd r))))
     = stm_limit cfg - cleanup_batch_size cfg /\
   Z.of_nat (length (stm_buffer w)) - Z.of_nat (length (stm_buffer (snd r)))
     = count - stm_limit cfg + cleanup_batch_size cfg /\
   exists v,
     fst r = Returned v /\
     subscript v "deleted_count" = Returned (PyInt (count - stm_limit cfg)) /\
     subscript v "remaining_count" = Returned (PyInt (stm_limit cfg))) /\
  (forall u', u' <> u ->
     rows_of u' (stm_buffer (snd r)) = rows_of u' (stm_buffer w)) /\
  stm_buffer (snd (_cleanup_old_messages cfg env' data (snd r)))
    = stm_buffer (snd r).
Proof.
  intros Hu Hnd Hbatch Hf1 Hf2 count r.
  destruct (Z_le_gt_dec count (stm_limit cfg)) as [Hle|Hgt].
  { assert (Ht : stm_buffer (snd r) = stm_buffer w)
      by (by apply (cleanup_within_limit cfg env w data u)).
    split; [done|]. split; [lia|]. split; [by intros; rewrite Ht|].
    apply (cleanup_within_limit cfg env' _ data u); [done|].
    rewrite Ht. done. }
  assert (Hr := cleanup_run cfg env w data u Hu (proj1 Hbatch) Hf1 Hf2
                  ltac:(fold count; lia)).
  fold count in Hr. fold r in Hr.
  set (n := Z.to_nat (count - stm_limit cfg + cleanup_batch_size cfg)) in *.
  set (victims := select_oldest (stm_buffer w) u n) in *.
  destruct (MemoryActorFacts.select_oldest_spec (stm_buffer w) u n)
    as (_ & Hlen & Hin & others & Hperm & _).
  fold victims in Hlen, Hin, Hperm.
  assert (Hn : length victims = n) by (rewrite Hlen; subst n count; lia).
  assert (Hsub : victims ⊆ stm_buffer w) by (intros x Hx; by apply Hin).
  assert (HndL : NoDup (map id (rows_of u (stm_buffer w))))
    by (by apply nodup_ids_filter).
  assert (Hv : NoDup victims).
  { apply (NoDup_fmap_1 id) in HndL. rewrite <- Hperm in HndL.
    by apply NoDup_app in HndL as [? _]. }
  assert (Ht : stm_buffer (snd r)
               = delete_ids (map id victims) (stm_buffer w))
    by (by rewrite Hr).
  assert (Hleft : Z.of_nat (length (rows_of u (stm_buffer (snd r))))
                  = stm_limit cfg - cleanup_batch_size cfg).
  { rewrite Ht. unfold rows_of, delete_ids. rewrite filter_swap.
    fold (rows_of u (stm_buffer w)).
    fold (delete_ids (map id victims) (rows_of u (stm_buffer w))).
    assert (Hsub' : victims ⊆ rows_of u (stm_buffer w)).
    { intros x Hx. apply MemoryActorFacts.elem_of_rows_of. by apply Hin. }
    pose proof (delete_ids_length (rows_of u (stm_buffer w)) victims HndL
                  Hsub' Hv) as Hd.
    rewrite Hn in Hd. subst n count. lia. }
  split; [lia|]. split; [|split].
  - intros _. split; [done|]. split.
    + rewrite Ht.
      pose proof (delete_ids_length (stm_buffer w) victims Hnd Hsub Hv).
      subst n. lia.
    + eexists. split; [by rewrite Hr|].
      unfold dict_of, subscript.
      rewrite !list_to_map_cons.
      rewrite lookup_insert_ne, lookup_insert_eq by done.
      by rewrite !lookup_insert_ne, lookup_insert_eq by done.
  - intros u' Hu'. rewrite Ht. unfold rows_of, delete_ids.
    apply filter_absorbs. intros x Hx Hux.
    apply bool_decide_eq_true in Hux.
    apply negb_true_iff, bool_decide_eq_false.
    intros (v & Heq & Hvin)%list_elem_of_fmap.
    rewrite (MemoryActorFacts.id_determines_row (stm_buffer w) x v Hnd Hx
               (Hsub _ Hvin) Heq) in Hux.
    destruct (Hin v Hvin) as [_ Huv]. congruence.
  - apply (cleanup_within_limit cfg env' _ data u); [done|]. lia.
Qed.

(** *** Statistics *)

Lemma count_roles (rows : list StmRow) :
  let n r := length (List.filter (fun x => bool_decide (role x = r)) rows) in
  (n "user" + n "assistant" <= length rows)%nat /\
  ((forall r, r ∈ rows -> role r = "user" \/ role r = "assistant") ->
   (n "user" + n "assistant" = length rows)%nat).
Proof.
  cbn zeta. induction rows as [|x rows [IH1 IH2]]; [done|]. cbn [List.filter].
  split.
  - repeat case_bool_decide; cbn [length]; try lia. congruence.
  - intros Hroles.
    assert (Hrest : forall r, r ∈ rows -> role r = "user" \/ role r = "assistant")
      by (intros r Hr; apply Hroles; by right).
    specialize (IH2 Hrest).
    destruct (Hroles x ltac:(by left)) as [Hx|Hx];
      repeat case_bool_decide; cbn [length]; try lia; congruence.
Qed.

Lemma foldr_min_spec t ts :
  foldr Z.min t ts ∈ t :: ts /\ forall x, x ∈ t :: ts -> foldr Z.min t ts <= x.
Proof.
  induction ts as [|y ts [IH1 IH2]]; cbn.
  - split; [by left|]. intros x ->%list_elem_of_singleton. lia.
  - split.
    + destruct (Z.min_spec y (foldr Z.min t ts)) as [[_ ->]|[_ ->]].
      * right. by left.
      * apply elem_of_cons in IH1 as [->|IH1]; [by left|by do 2 right].
    + intros x Hx.
      assert (Hc : x = y \/ x ∈ t :: ts).
      { apply elem_of_cons in Hx as [->|Hx]; [right; by left|].
        apply elem_of_cons in Hx as [->|Hx]; [by left|right; by right]. }
      destruct Hc as [->|Hc]; [lia|]. specialize (IH2 x Hc). lia.
Qed.

Lemma foldr_max_spec t ts :
  foldr Z.max t ts ∈ t :: ts /\ forall x, x ∈ t :: ts -> x <= foldr Z.max t ts.
Proof.
  induction ts as [|y ts [IH1 IH2]]; cbn.
  - split; [by left|]. intros x ->%list_elem_of_singleton. lia.
  - split.
    + destruct (Z.max_spec y (foldr Z.max t ts)) as [[_ ->]|[_ ->]].
      * apply elem_of_cons in IH1 as [->|IH1]; [by left|by do 2 right].
      * right. by left.
    + intros x Hx.
      assert (Hc : x = y \/ x ∈ t :: ts).
      { apply elem_of_cons in Hx as [->|Hx]; [right; by left|].
        apply elem_of_cons in Hx as [->|Hx]; [by left|right; by right]. }
      destruct Hc as [->|Hc]; [lia|]. specialize (IH2 x Hc). lia.
Qed.

(** X13: [_get_user_stats], when the query goes through: the total is the
    number of turns of the user; the turns counted as the user's and as
    the assistant's are no more than the total, and make up the total
    when every turn has one of these two roles; a user without turns
    gets [None] for the first and the last message, any other user the
    instants of the earliest and of the latest turn. *)
Theorem user_stats_add_up env data w u :
  subscript data "user_id" = Returned (PyInt u) ->
  fault env (db_calls w) = None ->
  let rows := rows_of u (stm_buffer w) in
  exists um bm first last,
    fst (_get_user_stats env data w) =
      Returned (dict_of
        [("success", PyBool true); ("user_id", PyInt u);
         ("total_messages", PyInt (Z.of_nat (length rows)));
         ("user_messages", PyInt um);
         ("bot_messages", PyInt bm);
         ("first_message", first);
         ("last_message", last)]) /\
    0 <= um /\ 0 <= bm /\
    um + bm <= Z.of_nat (length rows) /\
    ((forall r, r ∈ rows -> role r = "user" \/ role r = "assistant") ->
     um + bm = Z.of_nat (length rows)) /\
    match rows with
    | [] => first = PyNone /\ last = PyNone
    | _ =>
        exists a b,
          first = PyIso a /\ last = PyIso b /\
          a ∈ map created_at rows /\ b ∈ map created_at rows /\
          forall r, r ∈ rows -> a <= created_at r <= b
    end.
Proof.
  intros Hu Hf rows.
  unfold _get_user_stats, bind, lift, try_except, db_call, gets.
  rewrite Hu, Hf. cbn [as_int]. cbn beta iota.
  change (stm_buffer (tick w)) with (stm_buffer w). fold rows.
  do 4 eexists. split; [reflexivity|].
  destruct (count_roles rows) as [Hle Heq]. cbn zeta in Hle, Heq.
  split; [lia|]. split; [lia|]. split; [lia|].
  split; [intros Hroles; specialize (Heq Hroles); lia|].
  destruct rows as [|r0 rs]; [done|]. cbn [map opt_iso].
  destruct (foldr_min_spec (created_at r0) (map created_at rs)) as [Hmin Hlo].
  destruct (foldr_max_spec (created_at r0) (map created_at rs)) as [Hmax Hhi].
  do 2 eexists. split; [reflexivity|]. split; [reflexivity|].
  split; [done|]. split; [done|].
  intros r Hr.
  assert (Hc : created_at r ∈ created_at r0 :: map created_at rs).
  { change (created_at r ∈ map created_at (r0 :: rs)).
    by apply list_elem_of_fmap_2. }
  split; [by apply Hlo|by apply Hhi].
Qed.

(** *** The counters *)

Section Leaves.

Context {B : Type}.
Variable f : World -> B.

Hypothesis f_tick : forall w, f (tick w) = f w.
Hypothesis f_table : forall w t, f (set_table w t) = f w.
Hypothesis f_next_id : forall w n, f (set_next_id w n) = f w.
Hypothesis f_tasks : forall w m r n, f (set_tasks w m r n) = f w.
Hypothesis f_operations :
  forall w co, f (set_counters w (_message_count w) (_error_count w) co) = f w.
Hypothesis f_latencies : forall w s r, f (set_latencies w s r) = f w.
Hypothesis f_sleeps : forall w l, f (set_sleeps w l) = f w.

Lemma leaves_ret {A} (a : A) : leaves f (ret a).
Proof. by intros w. Qed.

Lemma leaves_raise {A} e : leaves f (@raise _ A e).
Proof. by intros w. Qed.

Lemma leaves_lift {A} (o : outcome A) : leaves f (lift o).
Proof. by intros w. Qed.

Lemma leaves_gets {A} (g : World -> A) : leaves f (gets g).
Proof. by intros w. Qed.

Lemma leaves_bind {A C} (m : M World A) (k : A -> M World C) :
  leaves f m -> (forall a, leaves f (k a)) -> leaves f (bind m k).
Proof.
  intros Hm Hk w. unfold bind. specialize (Hm w).
  destruct (m w) as [[a|e|] w1]; cbn in *; [|done..].
  by rewrite (Hk a w1).
Qed.

Lemma leaves_try_except {A} (m : M World A) h :
  leaves f m -> (forall e, leaves f (h e)) -> leaves f (try_except m h).
Proof.
  intros Hm Hh w. unfold try_except. specialize (Hm w).
  destruct (m w) as [[a|e|] w1]; cbn in *; [done| |done].
  by rewrite (Hh e w1).
Qed.

Lemma leaves_db_call {A} env (query : M World A) :
  leaves f query -> leaves f (db_call env query).
Proof.
  intros Hq w. unfold db_call. destruct (fault env (db_calls w)); cbn.
  - apply f_tick.
  - by rewrite Hq, f_tick.
Qed.

Lemma leaves_insert_row uid role content emotion mode :
  leaves f (insert_row uid role content emotion mode).
Proof.
  unfold insert_row.
  repeat (apply leaves_bind; [apply leaves_lift|intros ?]).
  intros w. cbn. by rewrite f_next_id, f_table.
Qed.

Lemma leaves_count_rows uid : leaves f (count_rows uid).
Proof.
  unfold count_rows. apply leaves_bind; [apply leaves_lift|intros ?].
  apply leaves_gets.
Qed.

Lemma leaves_cleanup_old_messages cfg env data :
  leaves f (_cleanup_old_messages cfg env data).
Proof.
  unfold _cleanup_old_messages.
  apply leaves_bind; [apply leaves_lift|intros uid].
  apply leaves_try_except; [|intros e; apply leaves_ret].
  apply leaves_bind; [apply leaves_db_call, leaves_count_rows|intros count].
  case_match; [|apply leaves_ret].
  apply leaves_bind.
  { apply leaves_db_call. unfold delete_oldest.
    repeat (apply leaves_bind; [apply leaves_lift|intros ?]).
    intros w. cbn. by rewrite f_table. }
  intros _. apply leaves_bind; [|intros _; apply leaves_ret].
  intros w. cbn. by rewrite f_operations.
Qed.

Lemma leaves_check_and_cleanup cfg env u :
  leaves f (_check_and_cleanup cfg env u).
Proof.
  unfold _check_and_cleanup.
  apply leaves_bind; [apply leaves_gets|intros present].
  destruct present; [apply leaves_ret|].
  unfold check_resume.
  apply leaves_try_except; [|intros e; apply leaves_ret].
  apply leaves_bind; [apply leaves_db_call, leaves_count_rows|intros count].
  case_match; [|apply leaves_ret].
  intros w. cbn. by rewrite f_tasks.
Qed.

Lemma leaves_store_attempt cfg env uid content emotion mode :
  leaves f (store_attempt cfg env uid content emotion mode).
Proof.
  unfold store_attempt.
  apply leaves_bind; [apply leaves_db_call, leaves_insert_row|intros mid].
  apply leaves_bind; [apply leaves_lift|intros u].
  apply leaves_bind; [apply leaves_check_and_cleanup|intros _].
  apply leaves_bind.
  { case_match; [|apply leaves_ret]. intros w. cbn. by rewrite f_latencies. }
  intros _. apply leaves_bind; [apply leaves_gets|intros now].
  apply leaves_ret.
Qed.

Lemma leaves_store_loop cfg body attempts :
  leaves f body -> leaves f (store_loop cfg body attempts).
Proof.
  intros Hbody. induction attempts as [|attempt rest IH]; [apply leaves_ret|].
  cbn [store_loop]. apply leaves_try_except; [done|]. intros e.
  case_match; [|apply leaves_raise].
  apply leaves_bind; [|by intros _].
  intros w. cbn. by rewrite f_sleeps.
Qed.

Lemma leaves_store_user_message cfg env data :
  leaves f (_store_user_message cfg env data).
Proof.
  unfold _store_user_message.
  repeat (apply leaves_bind; [apply leaves_lift|intros ?]).
  apply leaves_try_except; [|intros e; apply leaves_ret].
  apply leaves_store_loop, leaves_store_attempt.
Qed.

Lemma leaves_store_bot_response env data :
  leaves f (_store_bot_response env data).
Proof.
  unfold _store_bot_response.
  repeat (apply leaves_bind; [apply leaves_lift|intros ?]).
  apply leaves_try_except; [|intros e; apply leaves_ret].
  apply leaves_bind; [apply leaves_db_call, leaves_insert_row|intros mid].
  apply leaves_bind; [apply leaves_gets|intros now]. apply leaves_ret.
Qed.

Lemma leaves_get_conversation_context cfg env data :
  leaves f (_get_conversation_context cfg env data).
Proof.
  unfold _get_conversation_context.
  repeat (apply leaves_bind; [apply leaves_lift|intros ?]).
  apply leaves_try_except; [|intros e; apply leaves_ret].
  apply leaves_bind.
  { apply leaves_db_call. unfold fetch_recent.
    repeat (apply leaves_bind; [apply leaves_lift|intros ?]).
    apply leaves_gets. }
  intros messages. case_match.
  apply leaves_bind; [|intros _; apply leaves_ret].
  case_match; [|apply leaves_ret]. intros w. cbn. by rewrite f_latencies.
Qed.

Lemma leaves_get_user_stats env data :
  leaves f (_get_user_stats env data).
Proof.
  unfold _get_user_stats.
  apply leaves_bind; [apply leaves_lift|intros uid].
  apply leaves_try_except; [|intros e; apply leaves_ret].
  apply leaves_bind; [|intros rows; apply leaves_ret].
  apply leaves_db_call.
  apply leaves_bind; [apply leaves_lift|intros u]. apply leaves_gets.
Qed.

(** The five operations and the answer to an unknown type. *)
Lemma leaves_operations cfg env message_type data :
  leaves f
    (if type_is message_type "store_user_message" then
       _store_user_message cfg env data
     else if type_is message_type "store_bot_response" then
       _store_bot_response env data
     else if type_is message_type "get_conversation_context" then
       _get_conversation_context cfg env data
     else if type_is message_type "cleanup_old_messages" then
       _cleanup_old_messages cfg env data
     else if type_is message_type "get_user_stats" then
       _get_user_stats env data
     else ret (unknown_type message_type)).
Proof.
  repeat case_match;
    auto using leaves_store_user_message, leaves_store_bot_response,
      leaves_get_conversation_context, leaves_cleanup_old_messages,
      leaves_get_user_stats, leaves_ret.
Qed.

End Leaves.

(** X14: [handle_message] counts every message once, whatever becomes of it.
    It counts an error exactly when an exception leaves the dispatch,
    and the result is then the dictionary with the text of that
    exception under ['error'] alone; a failure that an operation
    reports in its result is not counted. *)
Theorem handle_message_counts cfg env msg w :
  let r := handle_message cfg env msg w in
  _message_count (snd r) = _message_count w + 1 /\
  (_error_count (snd r) = _error_count w \/
   _error_count (snd r) = _error_count w + 1 /\
   exists e, fst r = Returned (dict_of [("error", PyStr (str e))])).
Proof.
  cbn zeta. unfold handle_message, try_except.
  match goal with |- context [match ?body w with _ => _ end] =>
    assert (Hm : _message_count (snd (body w)) = _message_count w + 1);
    [|assert (He : _error_count (snd (body w)) = _error_count w);
      [|destruct (body w) as [[v|e|] w']] ]
  end.
  - unfold bind at 1, increment_message_count, modify.
    match goal with |- context [bind ?m ?k ?x] =>
      change (_message_count w + 1) with (_message_count x);
      apply (leaves_bind _message_count m k); try done
    end.
    intros [message_type data]. by apply leaves_operations.
  - unfold bind at 1, increment_message_count, modify.
    match goal with |- context [bind ?m ?k ?x] =>
      change (_error_count w) with (_error_count x);
      apply (leaves_bind _error_count m k); try done
    end.
    intros [message_type data]. by apply leaves_operations.
  - cbn in *. auto.
  - cbn in *. split; [done|]. right. split; [lia|]. by exists e.
  - cbn in *. auto.
Qed.

(** *** The answers of the operations *)

Lemma answers_success b l : answers (dict_of (("success", b) :: l)).
Proof.
  eexists. split; [reflexivity|]. rewrite list_to_map_cons, lookup_insert_eq.
  eauto.
Qed.

Lemma as_int_cases v :
  (exists u, v = PyInt u) \/ (exists e, as_int v = Raised e).
Proof. destruct v; cbn; eauto. Qed.

Lemma as_limit_cases v :
  (exists n, as_limit v = Returned n) \/ (exists e, as_limit v = Raised e).
Proof. destruct v as [| |z| | | |]; cbn; eauto. destruct (z <? 0); eauto. Qed.

Lemma store_user_message_answers cfg env data uid content w :
  subscript data "user_id" = Returned uid ->
  subscript data "content" = Returned content ->
  exists v w',
    _store_user_message cfg env data w = (Returned v, w') /\
    (answers v \/ v = PyNone).
Proof.
  intros Hu Hc.
  destruct (MemoryActorFacts.subscript_dict _ _ _ Hu) as [d ->].
  unfold _store_user_message, bind, lift. rewrite Hu, Hc. cbn [get].
  unfold try_except.
  match goal with |- context [store_loop cfg (store_attempt _ _ _ _ ?em ?mo) ?l w] =>
    destruct (store_loop_writes_once cfg env uid content em mo l w)
      as [(_ & _ & Hv)|(u & c & em' & mo' & t & now & _ & _ & Hv & _)];
    cbn zeta in Hv;
    destruct (store_loop cfg _ l w) as [[v|e|] w'] eqn:Hrun
  end; cbn [fst] in Hv; unfold ret.
  - destruct Hv as [[= ->]|[? [=]]]. eauto.
  - do 2 eexists. split; [reflexivity|]. left. apply answers_success.
  - by destruct Hv as [[=]|[? [=]]].
  - injection Hv as ->. do 2 eexists. split; [reflexivity|]. left.
    apply answers_success.
  - done.
  - done.
Qed.

Lemma store_bot_response_answers env data uid content w :
  subscript data "user_id" = Returned uid ->
  subscript data "content" = Returned content ->
  exists v w',
    _store_bot_response env data w = (Returned v, w') /\ answers v.
Proof.
  intros Hu Hc.
  destruct (MemoryActorFacts.subscript_dict _ _ _ Hu) as [d ->].
  unfold _store_bot_response, bind, lift. rewrite Hu, Hc. cbn [get].
  unfold try_except, db_call.
  destruct (fault env (db_calls w));
    [do 2 eexists; split; [reflexivity|apply answers_success]|].
  match goal with |- context [insert_row _ _ _ _ ?mo (tick w)] =>
    destruct (MemoryActorFacts.insert_row_cases uid "assistant" content
                PyNone mo (tick w)) as [[e ->]|(u & w1 & -> & ->)]
  end; cbn; do 2 eexists; (split; [reflexivity|apply answers_success]).
Qed.

Lemma get_conversation_context_answers cfg env data uid w :
  subscript data "user_id" = Returned uid ->
  exists v w',
    _get_conversation_context cfg env data w = (Returned v, w') /\ answers v.
Proof.
  intros Hu.
  destruct (MemoryActorFacts.subscript_dict _ _ _ Hu) as [d ->].
  unfold _get_conversation_context, bind, lift. rewrite Hu. cbn [get].
  unfold try_except, db_call.
  destruct (fault env (db_calls w));
    [do 2 eexists; split; [reflexivity|apply answers_success]|].
  unfold fetch_recent, bind, lift, gets.
  destruct (as_int_cases uid) as [[u ->]|[e ->]];
    [cbn [as_int]|do 2 eexists; split; [reflexivity|apply answers_success]].
  match goal with |- context [as_limit ?l] =>
    destruct (as_limit_cases l) as [[n ->]|[e ->]] end;
    [|do 2 eexists; split; [reflexivity|apply answers_success]].
  destruct (accumulate _ _ _ _) as [kept total].
  destruct (performance_log_enabled cfg); cbn -[dict_of];
    do 2 eexists; (split; [reflexivity|apply answers_success]).
Qed.

Lemma cleanup_old_messages_answers cfg env data uid w :
  subscript data "user_id" = Returned uid ->
  exists v w',
    _cleanup_old_messages cfg env data w = (Returned v, w') /\ answers v.
Proof.
  intros Hu.
  unfold _cleanup_old_messages, bind at 1, lift. rewrite Hu.
  unfold try_except, bind at 1, db_call at 1.
  destruct (fault env (db_calls w));
    [do 2 eexists; split; [reflexivity|apply answers_success]|].
  unfold count_rows, bind at 1, lift, gets.
  destruct (as_int_cases uid) as [[u ->]|[e ->]];
    [cbn [as_int]|do 2 eexists; split; [reflexivity|apply answers_success]].
  cbn beta iota.
  destruct (stm_limit cfg <? _);
    [|do 2 eexists; split; [reflexivity|apply answers_success]].
  unfold bind at 1, db_call.
  destruct (fault env (db_calls (tick w)));
    [do 2 eexists; split; [reflexivity|apply answers_success]|].
  unfold delete_oldest, bind, lift. cbn [as_int as_limit].
  destruct (_ <? 0); cbn -[dict_of];
    do 2 eexists; (split; [reflexivity|apply answers_success]).
Qed.

Lemma get_user_stats_answers env data uid w :
  subscript data "user_id" = Returned uid ->
  exists v w',
    _get_user_stats env data w = (Returned v, w') /\ answers v.
Proof.
  intros Hu.
  unfold _get_user_stats, bind at 1, lift. rewrite Hu.
  unfold try_except, bind, db_call.
  destruct (fault env (db_calls w));
    [do 2 eexists; split; [reflexivity|apply answers_success]|].
  unfold lift, gets.
  destruct (as_int_cases uid) as [[u ->]|[e ->]]; cbn [as_int];
    do 2 eexists; (split; [reflexivity|apply answers_success]).
Qed.

(** The dispatch on a known type whose required fields are there. *)
Lemma operations_answer cfg env message_type data uid w :
  message_type ∈ ["store_user_message"; "store_bot_response";
                  "get_conversation_context"; "cleanup_old_messages";
                  "get_user_stats"] ->
  subscript data "user_id" = Returned uid ->
  (message_type = "store_user_message" \/
   message_type = "store_bot_response" ->
   exists content, subscript data "content" = Returned content) ->
  exists v w',
    (if type_is (PyStr message_type) "store_user_message" then
       _store_user_message cfg env data
     else if type_is (PyStr message_type) "store_bot_response" then
       _store_bot_response env data
     else if type_is (PyStr message_type) "get_conversation_context" then
       _get_conversation_context cfg env data
     else if type_is (PyStr message_type) "cleanup_old_messages" then
       _cleanup_old_messages cfg env data
     else if type_is (PyStr message_type) "get_user_stats" then
       _get_user_stats env data
     else ret (unknown_type (PyStr message_type))) w = (Returned v, w') /\
    (answers v \/ v = PyNone).
Proof.
  intros Hty Hu Hc.
  repeat (apply elem_of_cons in Hty as [->|Hty]);
    [..|by apply elem_of_nil in Hty];
    repeat match goal with |- context [type_is ?a ?b] =>
      let x := eval vm_compute in (type_is a b) in
      change (type_is a b) with x end; cbn iota.
  - destruct Hc as [content Hc]; [by left|].
    by apply (store_user_message_answers cfg env data uid content).
  - destruct Hc as [content Hc]; [by right|].
    destruct (store_bot_response_answers env data uid content w Hu Hc)
      as (v & w' & ? & ?). eauto.
  - destruct (get_conversation_context_answers cfg env data uid w Hu)
      as (v & w' & ? & ?). eauto.
  - destruct (cleanup_old_messages_answers cfg env data uid w Hu)
      as (v & w' & ? & ?). eauto.
  - destruct (get_user_stats_answers env data uid w Hu)
      as (v & w' & ? & ?). eauto.
Qed.

(** *** At concrete inputs *)

Lemma push_sample_window_witness :
  (length [1; 2] <= 100)%nat /\
  last (push_sample 3 [1; 2]) = Some 3.
Proof.
  split; [cbn; lia|].
  exact (proj1 (proj2 (push_sample_window 3 [1; 2] ltac:(cbn; lia)))).
Defined.

Lemma store_user_message_retries_witness :
  subscript hello "user_id" = Returned (PyInt 7) /\
  fault flaky_once 0%nat = Some (StorageError "connection lost") /\
  fault flaky_once 1%nat = None /\
  exists now w',
    _store_user_message MEMORY_CONFIG flaky_once hello (memory_with [])
      = (Returned (stored 1 now), w') /\
    stm_buffer w' =
      [{| id := 1; user_id := 7; role := "user"; content := "hello";
          emotion := None; mode := None; created_at := 3 |}] /\
    next_id w' = 2 /\
    sleeps w' = [1].
Proof.
  split; [reflexivity|]. split; [reflexivity|]. split; [reflexivity|].
  exact (store_user_message_retries MEMORY_CONFIG flaky_once (memory_with [])
           hello 7 "hello" None None 1
           (fun _ => StorageError "connection lost")
           eq_refl eq_refl eq_refl eq_refl ltac:(done)
           ltac:(intros [|j] Hj; [reflexivity|lia]) eq_refl).
Defined.

Lemma store_bot_response_single_attempt_witness :
  let r := _store_bot_response unreachable hello (memory_with []) in
  fst r = Returned (failure (StorageError "connection lost")) /\
  stm_buffer (snd r) = [] /\
  db_calls (snd r) = 1%nat.
Proof.
  exact (proj2 (proj2 (proj2 (proj2
    (store_bot_response_single_attempt unreachable hello (memory_with [])))))
    (PyInt 7) (PyStr "hello") (StorageError "connection lost")
    eq_refl eq_refl eq_refl).
Defined.

Lemma cleanup_leaves_room_witness :
  let r := _cleanup_old_messages MEMORY_CONFIG healthy hello crowded in
  subscript hello "user_id" = Returned (PyInt 7) /\
  Z.of_nat (length (rows_of 7 (stm_buffer crowded))) = 26 /\
  Z.of_nat (length (rows_of 7 (stm_buffer (snd r)))) = 15 /\
  stm_buffer (snd (_cleanup_old_messages MEMORY_CONFIG unreachable hello
                     (snd r)))
    = stm_buffer (snd r).
Proof.
  pose proof (cleanup_leaves_room MEMORY_CONFIG healthy unreachable crowded
                hello 7 eq_refl ltac:(compute_done) ltac:(done) eq_refl
                eq_refl) as H.
  cbn zeta in H. destruct H as (_ & H2 & _ & H4).
  split; [reflexivity|]. split; [reflexivity|].
  split; [exact (proj1 (H2 ltac:(reflexivity)))|exact H4].
Defined.

Lemma user_stats_add_up_witness :
  subscript hello "user_id" = Returned (PyInt 7) /\
  exists um bm first last,
    fst (_get_user_stats healthy hello crowded) =
      Returned (dict_of
        [("success", PyBool true); ("user_id", PyInt 7);
         ("total_messages", PyInt 26);
         ("user_messages", PyInt um);
         ("bot_messages", PyInt bm);
         ("first_message", first);
         ("last_message", last)]) /\
    um + bm <= 26.
Proof.
  split; [reflexivity|].
  destruct (user_stats_add_up healthy hello crowded 7 eq_refl eq_refl)
    as (um & bm & first & last & H1 & _ & _ & H4 & _).
  exists um, bm, first, last. split; [exact H1|exact H4].
Defined.

Lemma serial_runs_one_task_witness :
  running crowded = [] /\
  _cleanup_tasks crowded = ∅ /\
  (length (outstanding 7
     (foldl (fun w m => serial_step MEMORY_CONFIG m w) crowded
            [Trigger 7 healthy; Trigger 7 healthy])) <= 1)%nat.
Proof.
  split; [reflexivity|]. split; [reflexivity|].
  exact (MemoryActorFacts.serial_runs_one_task MEMORY_CONFIG
           [Trigger 7 healthy; Trigger 7 healthy] crowded 7 eq_refl eq_refl).
Defined.

End MemoryActorLaws.

(** ** Session coordinator: retries, metrics and contracts *)

Module UserSessionLaws.

Import MemoryActor UserSession Scenarios.

Implicit Types (w : UserSession.World) (env : UserSession.Env)
  (cfg : CoordinationConfig).

(** *** One attempt of a coordinated call *)

Lemma attempt_fails env actor_name msg timeout attempts delay_ms attempt rest
    w e b :
  wait_for (memory env (length (sent w))) = Raised e ->
  save_event env (length (saved w)) = Some b ->
  coordinate_loop env actor_name msg timeout attempts delay_ms
                  (attempt :: rest) w =
    let w1 := after_failure actor_name msg timeout e w in
    if attempt <? attempts - 1 then
      coordinate_loop env actor_name msg timeout attempts delay_ms rest
        (set_out (saved w1) (sent w1) (asked w1) (slept_ms w1 ++ [delay_ms])
                 w1)
    else (Raised e, w1).
Proof.
  intros He Hs. cbn [coordinate_loop]. unfold try_except, bind at 1 2.
  unfold call_memory. rewrite He.
  destruct e; cbn -[coordinate_loop];
    unfold bind, save, count_timeout, modify, sleep_ms, raise;
    cbn -[coordinate_loop]; rewrite Hs;
    destruct (attempt <? attempts - 1); unfold set_out, after_failure; cbn;
    done.
Qed.

Lemma attempt_succeeds env actor_name msg timeout attempts delay_ms attempt
    rest w v b :
  memory env (length (sent w)) = Replies v ->
  save_event env (length (saved w)) = Some b ->
  coordinate_loop env actor_name msg timeout attempts delay_ms
                  (attempt :: rest) w =
    (Returned v,
     set_out (saved w ++ [ActorCoordinationEvent actor_name "response" true
                            None (message_user_id msg)])
             (sent w ++ [msg]) (asked w) (slept_ms w) w).
Proof.
  intros Hv Hs. cbn [coordinate_loop]. unfold try_except, bind at 1 2.
  unfold call_memory. rewrite Hv. cbn -[coordinate_loop].
  unfold bind, save. cbn -[coordinate_loop]. by rewrite Hs.
Qed.

(** The attempts that fail before the last one. *)
Lemma coordinate_loop_retries env actor_name msg timeout attempts delay_ms
    (errs : list exn) :
  forall (n : nat) i w,
    (length errs < n)%nat ->
    i + Z.of_nat n = attempts ->
    (forall j e, errs !! j = Some e ->
       wait_for (memory env (length (sent w) + j)) = Raised e) ->
    (forall j, (j < length errs)%nat ->
       is_Some (save_event env (length (saved w) + j))) ->
    exists wk,
      coordinate_loop env actor_name msg timeout attempts delay_ms
                      (seqZ i (Z.of_nat n)) w
      = coordinate_loop env actor_name msg timeout attempts delay_ms
          (seqZ (i + Z.of_nat (length errs)) (Z.of_nat (n - length errs))) wk /\
      sent wk = sent w ++ replicate (length errs) msg /\
      saved wk = saved w ++
        map (failure_event actor_name timeout (message_user_id msg)) errs /\
      slept_ms wk = slept_ms w ++ replicate (length errs) delay_ms /\
      asked wk = asked w /\
      actor_timeouts wk = actor_timeouts w +
        Z.of_nat (length (List.filter
                            (fun e => bool_decide (e = TimeoutError)) errs)) /\
      total_messages wk = total_messages w /\
      successful_flows wk = successful_flows w /\
      failed_flows wk = failed_flows w /\
      avg_response_time wk = avg_response_time w.
Proof.
  induction errs as [|e errs IH]; intros n i w Hn Hi He Hs.
  - exists w. cbn [length]. rewrite Z.add_0_r, Nat.sub_0_r, !app_nil_r.
    cbn. repeat split; try done. lia.
  - destruct n as [|n]; [cbn in Hn; lia|]. cbn [length] in *.
    rewrite seqZ_cons by lia.
    destruct (Hs 0%nat ltac:(lia)) as [b Hb]. rewrite Nat.add_0_r in Hb.
    rewrite (attempt_fails _ _ _ _ _ _ _ _ w e b);
      [|by rewrite <- (He 0%nat e eq_refl), Nat.add_0_r|done].
    cbn zeta. replace (i <? attempts - 1) with true by lia.
    replace (Z.pred (Z.of_nat (S n))) with (Z.of_nat n) by lia.
    match goal with |- context [coordinate_loop _ _ _ _ _ _ _ ?x] =>
      destruct (IH n (Z.succ i) x) as
        (wk & Hrun & Hsent & Hsaved & Hslept & Hasked & Hto & Htm & Hsf
            & Hff & Havg)
    end.
    + lia.
    + lia.
    + intros j e' Hj. cbn. rewrite length_app. cbn.
      rewrite <- (He (S j) e' Hj). do 2 f_equal. lia.
    + intros j Hj. cbn. rewrite length_app. cbn.
      destruct (Hs (S j) ltac:(lia)) as [b' Hb'].
      exists b'. rewrite <- Hb'. f_equal. lia.
    + exists wk. rewrite Hrun. cbn in *.
      replace (Z.succ i + Z.of_nat (length errs))
        with (i + Z.of_nat (S (length errs))) by lia.
      rewrite Hsent, Hsaved, Hslept, Hasked, Hto, Htm, Hsf, Hff, Havg.
      rewrite <- !app_assoc. cbn.
      repeat split; try done.
      destruct (bool_decide (e = TimeoutError)); cbn [length]; lia.
Qed.

(** *** The coordinated call as a whole *)

(** X18: A call whose first attempts fail, fewer than the attempts
    configured for the actor, and whose next attempt is answered:
    [_coordinate_actor_call] returns the answer; the message has been
    sent once per attempt, the event store has been handed one event
    per failed attempt and the [response] event, the coordinator has
    slept the configured delay after each failed attempt, and the
    timeouts among the failures have been counted. *)
Theorem coordinate_actor_call_retries cfg env actor_name msg attempts
    delay_ms (errs : list exn) v w :
  default (coordination_retry_attempts cfg, coordination_retry_delay_ms cfg)
          (retry_patterns cfg !! actor_name) = (attempts, delay_ms) ->
  Z.of_nat (length errs) < attempts ->
  (forall j e, errs !! j = Some e ->
     wait_for (memory env (length (sent w) + j)) = Raised e) ->
  memory env (length (sent w) + length errs) = Replies v ->
  (forall j, (j <= length errs)%nat ->
     is_Some (save_event env (length (saved w) + j))) ->
  exists w',
    _coordinate_actor_call cfg env actor_name msg w = (Returned v, w') /\
    sent w' = sent w ++ replicate (S (length errs)) msg /\
    saved w' = saved w ++
      map (failure_event actor_name (actor_timeout_seconds cfg)
             (message_user_id msg)) errs ++
      [ActorCoordinationEvent actor_name "response" true None
         (message_user_id msg)] /\
    slept_ms w' = slept_ms w ++ replicate (length errs) delay_ms /\
    actor_timeouts w' = actor_timeouts w +
      Z.of_nat (length (List.filter
                          (fun e => bool_decide (e = TimeoutError)) errs)).
Proof.
  intros Hcfg Hk He Hv Hs. unfold _coordinate_actor_call. rewrite Hcfg.
  unfold range. set (n := Z.to_nat attempts).
  replace (seqZ 0 attempts) with (seqZ 0 (Z.of_nat n)) by (f_equal; lia).
  destruct (coordinate_loop_retries env actor_name msg
              (actor_timeout_seconds cfg) attempts delay_ms errs n 0 w)
    as (wk & -> & Hsent & Hsaved & Hslept & Hasked & Hto & _);
    [lia|lia|done|by intros j Hj; apply Hs; lia|].
  replace (Z.of_nat (n - length errs))
    with (Z.succ (Z.of_nat (n - length errs - 1))) by lia.
  rewrite seqZ_cons by lia.
  destruct (Hs (length errs) ltac:(lia)) as [b Hb].
  rewrite (attempt_succeeds _ _ _ _ _ _ _ _ wk v b).
  - eexists. split; [reflexivity|]. cbn.
    rewrite Hsent, Hsaved, Hslept, Hto, <- !app_assoc.
    repeat split; try done.
    by rewrite replicate_cons_app.
  - by rewrite Hsent, length_app, length_replicate.
  - by rewrite Hsaved, length_app, length_map.
Qed.

(** X19: A call all of whose attempts fail, as many as are configured for
    the actor (at least one): [_coordinate_actor_call] raises the
    error of the last attempt; the message has been sent once per
    attempt, the event store has been handed one event per attempt,
    the coordinator has slept after every attempt but the last, and the
    timeouts have been counted. *)
Theorem coordinate_actor_call_gives_up cfg env actor_name msg attempts
    delay_ms (errs : list exn) last w :
  default (coordination_retry_attempts cfg, coordination_retry_delay_ms cfg)
          (retry_patterns cfg !! actor_name) = (attempts, delay_ms) ->
  Z.of_nat (length (errs ++ [last])) = attempts ->
  (forall j e, (errs ++ [last]) !! j = Some e ->
     wait_for (memory env (length (sent w) + j)) = Raised e) ->
  (forall j, (j <= length errs)%nat ->
     is_Some (save_event env (length (saved w) + j))) ->
  exists w',
    _coordinate_actor_call cfg env actor_name msg w = (Raised last, w') /\
    sent w' = sent w ++ replicate (S (length errs)) msg /\
    saved w' = saved w ++
      map (failure_event actor_name (actor_timeout_seconds cfg)
             (message_user_id msg)) (errs ++ [last]) /\
    slept_ms w' = slept_ms w ++ replicate (length errs) delay_ms /\
    actor_timeouts w' = actor_timeouts w +
      Z.of_nat (length (List.filter
                          (fun e => bool_decide (e = TimeoutError))
                          (errs ++ [last]))).
Proof.
  intros Hcfg Hn He Hs. unfold _coordinate_actor_call. rewrite Hcfg.
  rewrite length_app in Hn. cbn [length] in Hn.
  unfold range. set (n := Z.to_nat attempts).
  replace (seqZ 0 attempts) with (seqZ 0 (Z.of_nat n)) by (f_equal; lia).
  destruct (coordinate_loop_retries env actor_name msg
              (actor_timeout_seconds cfg) attempts delay_ms errs n 0 w)
    as (wk & -> & Hsent & Hsaved & Hslept & Hasked & Hto & _);
    [lia|lia| |by intros j Hj; apply Hs; lia|].
  { intros j e Hj. apply He. by apply lookup_app_l_Some. }
  replace (Z.of_nat (n - length errs)) with (Z.succ 0) by lia.
  rewrite seqZ_cons, seqZ_nil by lia.
  destruct (Hs (length errs) ltac:(lia)) as [b Hb].
  rewrite (attempt_fails _ _ _ _ _ _ _ _ wk last b).
  - cbn zeta. replace (0 + Z.of_nat (length errs) <? attempts - 1)
      with false by lia.
    eexists. split; [reflexivity|]. cbn.
    rewrite Hsent, Hsaved, Hslept, Hto, <- !app_assoc, map_app, List.filter_app,
      length_app.
    repeat split; try done.
    + by rewrite replicate_cons_app.
    + cbn. destruct (bool_decide (last = TimeoutError)); cbn [length]; lia.
  - rewrite Hsent, length_app, length_replicate. apply He.
    rewrite lookup_app_r by lia. by rewrite Nat.sub_diag.
  - by rewrite Hsaved, length_app, length_map.
Qed.

(** *** The flow of a user message *)

(** X20: A message longer than the limit of 4096 characters never reaches
    the memory actor or the generation service: [handle_user_message]
    counts the message and a failed flow, hands the [user_flow_error]
    event to the event store and, when the store returns, answers with
    the fallback text. *)
Theorem overlong_message_gets_fallback cfg env text uid w :
  user_message_max_text_length < Z.of_nat (str_len text) ->
  let r := handle_user_message cfg env text uid w in
  fst r = match save_event env (length (saved w)) with
          | Some _ => Returned FALLBACK
          | None => Blocked
          end /\
  sent (snd r) = sent w /\
  asked (snd r) = asked w /\
  (exists data,
     saved (snd r) =
       saved w ++ [SystemEvent "user_flow_error" (Some uid) data "error"]) /\
  total_messages (snd r) = total_messages w + 1 /\
  failed_flows (snd r) = failed_flows w + 1 /\
  successful_flows (snd r) = successful_flows w.
Proof.
  intros Hlen. cbn zeta.
  unfold handle_user_message, bind at 1, modify, try_except.
  unfold pipeline, bind at 1, lift, new_UserMessageEvent.
  replace (user_message_max_text_length <? Z.of_nat (str_len text))
    with true by lia.
  unfold bind, modify, _log_coordination_event, bind, lift, save.
  cbn. destruct (save_event env (length (saved w))); cbn;
    repeat split; try done; by eexists.
Qed.

(** *** The context handed to the formatter *)

Lemma get_message_dict r k dflt :
  k = "role" \/ k = "content" ->
  get (message_dict r) k dflt =
    Returned (PyStr (if String.eqb k "role" then role r else content r)).
Proof.
  intros [-> | ->]; unfold message_dict, dict_of, get;
    rewrite !list_to_map_cons.
  - by rewrite lookup_insert_ne, lookup_insert_eq by done.
  - by rewrite !lookup_insert_ne, lookup_insert_eq by done.
Qed.

(** X23: The turns that [_get_conversation_context] returns are always
    accepted by [_format_context_for_generation], which makes one line
    [role: content] per turn, in the order of the turns. *)
Theorem memory_context_is_formatted (rows : list StmRow) :
  _format_context_for_generation (PyList (map message_dict rows)) =
    Returned (join_lines
                (map (fun r => role r +:+ ": " +:+ content r) rows)).
Proof.
  cbn [_format_context_for_generation].
  assert (H : context_parts (map message_dict rows) =
              Returned (map (fun r => role r +:+ ": " +:+ content r) rows)).
  { induction rows as [|r rows IH]; [done|]. cbn [map context_parts].
    rewrite (get_message_dict r "role") by auto.
    rewrite (get_message_dict r "content") by auto.
    by rewrite IH. }
  by rewrite H.
Qed.

(** *** The metrics *)

Lemma bind_raised {W A C} (m : M W A) (k : A -> M W C) (x x' : W) e :
  bind m k x = (Raised e, x') ->
  m x = (Raised e, x') \/
  exists a x1, m x = (Returned a, x1) /\ k a x1 = (Raised e, x').
Proof.
  unfold bind.
  destruct (m x) as [[a|e'|] x1]; [|intros [= -> ->]; by left|done].
  intros H. right. by exists a, x1.
Qed.

Lemma lift_raised {W A} (o : outcome A) (x x' : W) e :
  lift o x = (Raised e, x') -> o = Raised e /\ x' = x.
Proof. unfold lift. by intros [= -> ->]. Qed.

Lemma format_returns_len messages s :
  _format_context_for_generation messages = Returned s ->
  exists n, len messages = Returned n.
Proof. destruct messages; cbn; try done; eauto. Qed.

Lemma log_info_never_raises env subtype uid data w e :
  fst (_log_coordination_event env subtype uid data "info" w) <> Raised e.
Proof.
  unfold _log_coordination_event, bind, lift, save. cbn.
  by destruct (save_event env (length (saved w))).
Qed.

(** The pipeline leaves the count of messages alone. *)
Lemma pipeline_keeps_total_messages cfg env text uid :
  keeps env total_messages (pipeline cfg env text uid).
Proof.
  unfold pipeline.
  repeat first
    [ apply UserSessionFacts.keeps_ret
    | apply UserSessionFacts.keeps_save; done
    | apply UserSessionFacts.keeps_actor_call; done
    | apply UserSessionFacts.keeps_service_call; done
    | apply UserSessionFacts.keeps_log; done
    | apply UserSessionFacts.keeps_lift;
      first [ apply UserSessionFacts.create_memory_message_ends
            | apply MemoryActorFacts.get_ends
            | apply UserSessionFacts.format_context_ends
            | by unfold new_UserMessageEvent; case_match
            | by unfold new_BotResponseEvent; case_match
            | by unfold len; case_match ]
    | by intros w
    | apply UserSessionFacts.keeps_bind; [|intros ?] ].
Qed.

(** Nothing raises once the successful flow has been counted. *)
Lemma pipeline_raised cfg env text uid w e w' :
  pipeline cfg env text uid w = (Raised e, w') ->
  successful_flows w' = successful_flows w.
Proof.
  unfold pipeline. intros H.
  set (out := fun sv sn ak sl x => eq_refl
         : successful_flows (set_out sv sn ak sl x) = successful_flows x).
  set (tmo := fun ato x => eq_refl
         : successful_flows
             (set_metrics (total_messages x) (successful_flows x)
                (failed_flows x) ato (avg_response_time x) x)
           = successful_flows x).
  apply bind_raised in H as [H|(user_event & w1 & E1 & H)];
    [by apply lift_raised in H as [_ ->]|].
  apply UserSessionFacts.lift_returned in E1 as [_ ->].
  apply bind_raised in H as [H|(? & w2 & E2 & H)].
  { UserSessionFacts.unchanged H
      (UserSessionFacts.keeps_save env successful_flows out user_event).
    done. }
  UserSessionFacts.unchanged E2
    (UserSessionFacts.keeps_save env successful_flows out user_event).
  apply bind_raised in H as [H|(store_message & w3 & E3 & H)];
    [by apply lift_raised in H as [_ ->]|].
  apply UserSessionFacts.lift_returned in E3 as [_ ->].
  apply bind_raised in H as [H|(? & w4 & E4 & H)].
  { UserSessionFacts.unchanged H
      (UserSessionFacts.keeps_actor_call env successful_flows out tmo cfg
         "memory" store_message).
    congruence. }
  UserSessionFacts.unchanged E4
    (UserSessionFacts.keeps_actor_call env successful_flows out tmo cfg
       "memory" store_message).
  apply bind_raised in H as [H|(context_message & w5 & E5 & H)];
    [apply lift_raised in H as [_ ->]; congruence|].
  apply UserSessionFacts.lift_returned in E5 as [_ ->].
  apply bind_raised in H as [H|(context_response & w6 & E6 & H)].
  { UserSessionFacts.unchanged H
      (UserSessionFacts.keeps_actor_call env successful_flows out tmo cfg
         "memory" context_message).
    congruence. }
  UserSessionFacts.unchanged E6
    (UserSessionFacts.keeps_actor_call env successful_flows out tmo cfg
       "memory" context_message).
  apply bind_raised in H as [H|(messages & w7 & E7 & H)];
    [apply lift_raised in H as [_ ->]; congruence|].
  apply UserSessionFacts.lift_returned in E7 as [_ ->].
  apply bind_raised in H as [H|(context_text & w8 & E8 & H)];
    [apply lift_raised in H as [_ ->]; congruence|].
  apply UserSessionFacts.lift_returned in E8 as [E8 ->].
  apply bind_raised in H as [H|(response_text & w9 & E9 & H)].
  { UserSessionFacts.unchanged H
      (UserSessionFacts.keeps_service_call env successful_flows out text).
    congruence. }
  UserSessionFacts.unchanged E9
    (UserSessionFacts.keeps_service_call env successful_flows out text).
  apply bind_raised in H as [H|(bot_event & w10 & E10 & H)];
    [apply lift_raised in H as [_ ->]; congruence|].
  apply UserSessionFacts.lift_returned in E10 as [_ ->].
  apply bind_raised in H as [H|(? & w11 & E11 & H)].
  { UserSessionFacts.unchanged H
      (UserSessionFacts.keeps_save env successful_flows out bot_event).
    congruence. }
  UserSessionFacts.unchanged E11
    (UserSessionFacts.keeps_save env successful_flows out bot_event).
  apply bind_raised in H as [H|(response_message & w12 & E12 & H)];
    [apply lift_raised in H as [_ ->]; congruence|].
  apply UserSessionFacts.lift_returned in E12 as [_ ->].
  apply bind_raised in H as [H|(? & w13 & E13 & H)].
  { UserSessionFacts.unchanged H
      (UserSessionFacts.keeps_actor_call env successful_flows out tmo cfg
         "memory" response_message).
    congruence. }
  apply bind_raised in H as [H|(? & w14 & E14 & H)]; [done|].
  apply bind_raised in H as [H|(context_messages & w15 & E15 & H)].
  { apply lift_raised in H as [H _].
    destruct (format_returns_len _ _ E8) as [n Hn]. congruence. }
  apply bind_raised in H as [H|(? & w16 & E16 & H)]; [|done].
  exfalso. eapply log_info_never_raises. by rewrite H.
Qed.

Lemma handler_metrics env uid e w1 :
  let h :=
    bind (modify (fun w =>
            set_metrics (total_messages w) (successful_flows w)
                        (failed_flows w + 1) (actor_timeouts w)
                        (avg_response_time w) w))
      (fun _ =>
         bind (_log_coordination_event env "user_flow_error" uid
                 (dict_of [("error", PyStr (str e))]) "error")
           (fun _ => ret FALLBACK)) in
  (forall s, fst (h w1) = Returned s -> s = FALLBACK) /\
  total_messages (snd (h w1)) = total_messages w1 /\
  successful_flows (snd (h w1)) = successful_flows w1 /\
  failed_flows (snd (h w1)) = failed_flows w1 + 1.
Proof.
  cbn zeta. unfold bind, modify, _log_coordination_event, bind, lift, save.
  cbn. destruct (save_event env (length (saved w1))); cbn; [|done].
  repeat split; try done. by intros s [= <-].
Qed.

(** X22: Every call of [handle_user_message] counts the message, and a call
    that returns has counted exactly one flow: a successful one, or a
    failed one with the fallback text as the answer.  So the messages
    stay the sum of the successful and the failed flows from one
    returned call to the next. *)
Theorem returned_call_is_counted_once cfg env text uid w s :
  fst (handle_user_message cfg env text uid w) = Returned s ->
  let w' := snd (handle_user_message cfg env text uid w) in
  total_messages w' = total_messages w + 1 /\
  (successful_flows w' = successful_flows w + 1 /\
   failed_flows w' = failed_flows w \/
   successful_flows w' = successful_flows w /\
   failed_flows w' = failed_flows w + 1 /\ s = FALLBACK) /\
  (total_messages w = successful_flows w + failed_flows w ->
   total_messages w' = successful_flows w' + failed_flows w').
Proof.
  set (w0 := set_metrics (total_messages w + 1) (successful_flows w)
               (failed_flows w) (actor_timeouts w) (avg_response_time w) w).
  assert (Hr : handle_user_message cfg env text uid w
               = try_except (pipeline cfg env text uid) _ w0) by reflexivity.
  unfold try_except in Hr. rewrite Hr. clear Hr.
  destruct (UserSessionFacts.pipeline_keeps_failed_flows cfg env text uid w0)
    as [Hff _].
  destruct (pipeline_keeps_total_messages cfg env text uid w0) as [Htm _].
  change (failed_flows w0) with (failed_flows w) in Hff.
  change (total_messages w0) with (total_messages w + 1) in Htm.
  destruct (pipeline cfg env text uid w0) as [[s'|e|] w1] eqn:Hp;
    cbn [fst snd] in *.
  - intros [= <-].
    destruct (UserSessionFacts.pipeline_returned cfg env text uid w0 s' w1 Hp)
      as [Hsf _].
    change (successful_flows w0) with (successful_flows w) in Hsf.
    split; [done|]. split; [by left|]. lia.
  - pose proof (pipeline_raised cfg env text uid w0 e w1 Hp) as Hsf.
    change (successful_flows w0) with (successful_flows w) in Hsf.
    destruct (handler_metrics env uid e w1) as (H1 & H2 & H3 & H4).
    cbn zeta in *. intros Hs. specialize (H1 s Hs).
    split; [lia|]. split; [right; repeat split; try done; lia|]. lia.
  - done.
Qed.

(** *** The contract of the memory messages *)

Lemma has_field_subscript data k :
  has_field data k = true -> exists v, subscript data k = Returned v.
Proof.
  destruct data as [| | | | | |d]; cbn; try done.
  intros [v Hv]%bool_decide_eq_true. rewrite Hv. eauto.
Qed.

(** What [create_memory_message] accepts. *)
Lemma create_memory_message_accepts message_type data msg :
  create_memory_message message_type data = Returned msg ->
  msg = ActorMessage (PyStr message_type) data /\
  (exists uid, subscript data "user_id" = Returned uid) /\
  (message_type = "store_user_message" \/
   message_type = "store_bot_response" ->
   exists content, subscript data "content" = Returned content) /\
  message_type ∈ ["store_user_message"; "store_bot_response";
                  "get_conversation_context"; "cleanup_old_messages";
                  "get_user_stats"].
Proof.
  unfold create_memory_message, MEMORY_MESSAGE_TYPES.
  destruct (decide (message_type = "store_user_message")) as [->|H1].
  { rewrite lookup_insert_eq. cbn.
    destruct (has_field data "user_id") eqn:Hu; cbn; [|done].
    destruct (has_field data "content") eqn:Hc; cbn; [|done].
    intros [= <-]. split; [done|].
    split; [by apply has_field_subscript|].
    split; [intros _; by apply has_field_subscript|]. set_solver. }
  rewrite lookup_insert_ne by done.
  destruct (decide (message_type = "store_bot_response")) as [->|H2].
  { rewrite lookup_insert_eq. cbn.
    destruct (has_field data "user_id") eqn:Hu; cbn; [|done].
    destruct (has_field data "content") eqn:Hc; cbn; [|done].
    intros [= <-]. split; [done|].
    split; [by apply has_field_subscript|].
    split; [intros _; by apply has_field_subscript|]. set_solver. }
  rewrite lookup_insert_ne by done.
  destruct (decide (message_type = "get_conversation_context")) as [->|H3].
  { rewrite lookup_insert_eq. cbn.
    destruct (has_field data "user_id") eqn:Hu; cbn; [|done].
    intros [= <-]. split; [done|].
    split; [by apply has_field_subscript|].
    split; [by intros [[=]|[=]]|]. set_solver. }
  rewrite lookup_insert_ne by done.
  destruct (decide (message_type = "cleanup_old_messages")) as [->|H4].
  { rewrite lookup_insert_eq. cbn.
    destruct (has_field data "user_id") eqn:Hu; cbn; [|done].
    intros [= <-]. split; [done|].
    split; [by apply has_field_subscript|].
    split; [by intros [[=]|[=]]|]. set_solver. }
  rewrite lookup_insert_ne by done.
  destruct (decide (message_type = "get_user_stats")) as [->|H5].
  { rewrite lookup_singleton_eq. cbn.
    destruct (has_field data "user_id") eqn:Hu; cbn; [|done].
    intros [= <-]. split; [done|].
    split; [by apply has_field_subscript|].
    split; [by intros [[=]|[=]]|]. set_solver. }
  by rewrite lookup_singleton_ne.
Qed.

(** X17: A message that [create_memory_message] has accepted is answered by
    the operation of its type: with at least one attempt configured,
    [MemoryActor.handle_message] returns a dictionary with a ['success']
    key for it, whatever the values in the dictionary of the message
    and whatever the database does, and counts the message and no
    error. *)
Theorem accepted_message_is_answered mcfg menv message_type
    (d : gmap string pyval) msg (mw : MemoryActor.World) :
  0 < retry_attempts mcfg ->
  create_memory_message message_type (PyDict d) = Returned msg ->
  let r := MemoryActor.handle_message mcfg menv msg mw in
  (exists v, fst r = Returned v /\ answers v) /\
  _error_count (snd r) = _error_count mw /\
  _message_count (snd r) = _message_count mw + 1.
Proof.
  intros Hn Hmsg. set (data := PyDict d) in *.
  destruct (create_memory_message_accepts _ _ _ Hmsg)
    as (-> & [uid Hu] & Hc & Hty).
  cbn zeta.
  destruct (MemoryActorFacts.dispatch_settles mcfg menv
              (ActorMessage (PyStr message_type) data) mw Hn)
    as (v' & w'' & Hrun & d' & -> & _).
  set (w1 := set_counters mw (_message_count mw + 1) (_error_count mw)
               (cleanup_operations mw)).
  destruct (MemoryActorLaws.operations_answer mcfg menv message_type data
              uid w1 Hty Hu Hc) as (v & w' & Hop & Hv).
  pose proof (MemoryActorLaws.leaves_operations _error_count
                ltac:(done) ltac:(done) ltac:(done) ltac:(done) ltac:(done)
                ltac:(done) ltac:(done) mcfg menv (PyStr message_type) data
                w1) as He.
  pose proof (MemoryActorLaws.leaves_operations _message_count
                ltac:(done) ltac:(done) ltac:(done) ltac:(done) ltac:(done)
                ltac:(done) ltac:(done) mcfg menv (PyStr message_type) data
                w1) as Hm.
  rewrite Hop in He, Hm. cbn [snd] in He, Hm.
  assert (Hrun' : MemoryActor.handle_message mcfg menv
                    (ActorMessage (PyStr message_type) data) mw
                  = (Returned v, w')).
  { unfold MemoryActor.handle_message, try_except, bind at 1,
      increment_message_count, modify.
    unfold bind at 1, lift. cbn [unpack]. fold w1. by rewrite Hop. }
  rewrite Hrun' in Hrun |- *. injection Hrun as -> ->. cbn [fst snd].
  split; [|done].
  exists (PyDict d'). split; [done|]. by destruct Hv.
Qed.

(** *** A failing generation *)

Lemma actor_call_first_reply cfg env actor_name msg attempts delay_ms v b w :
  default (coordination_retry_attempts cfg, coordination_retry_delay_ms cfg)
          (retry_patterns cfg !! actor_name) = (attempts, delay_ms) ->
  0 < attempts ->
  memory env (length (sent w)) = Replies v ->
  save_event env (length (saved w)) = Some b ->
  _coordinate_actor_call cfg env actor_name msg w =
    (Returned v,
     set_out (saved w ++ [ActorCoordinationEvent actor_name "response" true
                            None (message_user_id msg)])
             (sent w ++ [msg]) (asked w) (slept_ms w) w).
Proof.
  intros Hcfg Hn Hv Hs. unfold _coordinate_actor_call. rewrite Hcfg.
  unfold range. rewrite seqZ_cons by lia. by apply attempt_succeeds with b.
Qed.

Lemma create_store_message uid text :
  create_memory_message "store_user_message"
    (to_memory_format (UserMessageEvent uid text))
  = Returned (ActorMessage (PyStr "store_user_message")
                (to_memory_format (UserMessageEvent uid text))).
Proof. by vm_compute. Qed.

Lemma create_context_message uid :
  create_memory_message "get_conversation_context"
    (dict_of [("user_id", PyInt uid); ("limit", PyInt 10)])
  = Returned (ActorMessage (PyStr "get_conversation_context")
                (dict_of [("user_id", PyInt uid); ("limit", PyInt 10)])).
Proof. by vm_compute. Qed.

(** X21: When the generation service fails after the memory actor has
    answered the first two calls, the user's turn has gone to the memory
    actor and stays there without an assistant turn: the coordinator
    has sent the [store_user_message] and the [get_conversation_context]
    messages and nothing else, has asked the generation service once,
    with the text of the user alone, and answers with the fallback
    text, one failed flow counted. *)
Theorem failed_generation_leaves_user_turn cfg env text uid attempts delay_ms
    v1 v2 messages context e w :
  Z.of_nat (str_len text) <= user_message_max_text_length ->
  default (coordination_retry_attempts cfg, coordination_retry_delay_ms cfg)
          (retry_patterns cfg !! "memory") = (attempts, delay_ms) ->
  0 < attempts ->
  (forall n, is_Some (save_event env n)) ->
  memory env (length (sent w)) = Replies v1 ->
  memory env (length (sent w) + 1) = Replies v2 ->
  get v2 "messages" (PyList []) = Returned messages ->
  _format_context_for_generation messages = Returned context ->
  wait_for (ask_deepseek env (length (asked w))) = Raised e ->
  let r := handle_user_message cfg env text uid w in
  fst r = Returned FALLBACK /\
  sent (snd r) =
    sent w ++
    [ActorMessage (PyStr "store_user_message")
       (to_memory_format (UserMessageEvent uid text));
     ActorMessage (PyStr "get_conversation_context")
       (dict_of [("user_id", PyInt uid); ("limit", PyInt 10)])] /\
  asked (snd r) = asked w ++ [text] /\
  failed_flows (snd r) = failed_flows w + 1 /\
  successful_flows (snd r) = successful_flows w.
Proof.
  intros Hlen Hcfg Hn Hsave Hm1 Hm2 Hget Hfmt Hgen. cbn zeta.
  set (w0 := set_metrics (total_messages w + 1) (successful_flows w)
               (failed_flows w) (actor_timeouts w) (avg_response_time w) w).
  assert (Hr : handle_user_message cfg env text uid w
               = try_except (pipeline cfg env text uid) _ w0) by reflexivity.
  rewrite Hr. clear Hr. unfold try_except.
  assert (Hp : exists w1,
    pipeline cfg env text uid w0 = (Raised e, w1) /\
    sent w1 =
      sent w ++
      [ActorMessage (PyStr "store_user_message")
         (to_memory_format (UserMessageEvent uid text));
       ActorMessage (PyStr "get_conversation_context")
         (dict_of [("user_id", PyInt uid); ("limit", PyInt 10)])] /\
    asked w1 = asked w ++ [text] /\
    failed_flows w1 = failed_flows w /\
    successful_flows w1 = successful_flows w).
  { unfold pipeline. unfold bind at 1, lift, new_UserMessageEvent.
    replace (user_message_max_text_length <? Z.of_nat (str_len text))
      with false by lia.
    unfold bind at 1, save.
    destruct (Hsave (length (saved w0))) as [b1 ->].
    unfold bind at 1. rewrite create_store_message.
    unfold bind at 1.
    match goal with |- context [_coordinate_actor_call cfg env "memory" ?m ?x] =>
      destruct (Hsave (length (saved x))) as [b2 Hb2];
      rewrite (actor_call_first_reply cfg env "memory" m attempts delay_ms
                 v1 b2 x Hcfg Hn Hm1 Hb2)
    end.
    unfold bind at 1. rewrite create_context_message.
    unfold bind at 1.
    match goal with |- context [_coordinate_actor_call cfg env "memory" ?m ?x] =>
      destruct (Hsave (length (saved x))) as [b3 Hb3];
      rewrite (actor_call_first_reply cfg env "memory" m attempts delay_ms
                 v2 b3 x Hcfg Hn)
    end; [|by cbn; rewrite length_app|done].
    unfold bind at 1. rewrite Hget.
    unfold bind at 1. rewrite Hfmt.
    unfold bind at 1, _coordinate_service_call, try_except, call_generation.
    cbn [asked set_out]. change (asked w0) with (asked w).
    rewrite Hgen. unfold raise.
    eexists. split; [reflexivity|]. cbn. by rewrite <- app_assoc. }
  destruct Hp as (w1 & -> & Hsent & Hasked & Hff & Hsf).
  unfold bind, modify, _log_coordination_event, bind, lift, save. cbn.
  destruct (Hsave (length (saved w1))) as [b ->]. cbn.
  by rewrite Hsent, Hasked, Hff, Hsf.
Qed.

(** *** At concrete inputs *)

Lemma coordinate_actor_call_retries_witness :
  exists w',
    _coordinate_actor_call COORDINATION_CONFIG memory_slow_once "memory"
                           stats_request fresh_session
      = (Returned stats_answer, w') /\
    sent w' = [stats_request; stats_request] /\
    saved w' =
      [ActorCoordinationEvent "memory" "timeout" false
         (Some "Timeout after 30s") (Some 42);
       ActorCoordinationEvent "memory" "response" true None (Some 42)] /\
    slept_ms w' = [500] /\
    actor_timeouts w' = 1.
Proof.
  exact (coordinate_actor_call_retries COORDINATION_CONFIG memory_slow_once
           "memory" stats_request 3 500 [TimeoutError] stats_answer
           fresh_session eq_refl ltac:(done)
           ltac:(intros [|j] e; [intros [= <-]; reflexivity|done])
           eq_refl ltac:(intros j _; by eexists)).
Defined.

Lemma coordinate_actor_call_gives_up_witness :
  exists w',
    _coordinate_actor_call COORDINATION_CONFIG memory_silent "memory"
                           stats_request fresh_session
      = (Raised TimeoutError, w') /\
    sent w' = [stats_request; stats_request; stats_request] /\
    saved w' =
      replicate 3 (ActorCoordinationEvent "memory" "timeout" false
                     (Some "Timeout after 30s") (Some 42)) /\
    slept_ms w' = [500; 500] /\
    actor_timeouts w' = 3.
Proof.
  exact (coordinate_actor_call_gives_up COORDINATION_CONFIG memory_silent
           "memory" stats_request 3 500 [TimeoutError; TimeoutError]
           TimeoutError fresh_session eq_refl eq_refl
           ltac:(intros [|[|[|j]]] e; try done; by intros [= <-])
           ltac:(intros j _; by eexists)).
Defined.

Lemma overlong_message_gets_fallback_witness :
  let r := handle_user_message COORDINATION_CONFIG all_well long_text 42
                               fresh_session in
  user_message_max_text_length < Z.of_nat (str_len long_text) /\
  fst r = Returned FALLBACK /\
  sent (snd r) = [] /\
  asked (snd r) = [] /\
  failed_flows (snd r) = 1.
Proof.
  assert (Hlen : user_message_max_text_length
                 < Z.of_nat (str_len long_text))
    by (vm_compute; reflexivity).
  destruct (overlong_message_gets_fallback COORDINATION_CONFIG all_well
              long_text 42 fresh_session Hlen)
    as (H1 & H2 & H3 & _ & _ & H6 & _).
  split; [exact Hlen|]. split; [exact H1|]. split; [exact H2|].
  split; [exact H3|exact H6].
Defined.

Lemma returned_call_is_counted_once_witness :
  let w' := snd (handle_user_message COORDINATION_CONFIG all_well "hi" 42
                                     fresh_session) in
  fst (handle_user_message COORDINATION_CONFIG all_well "hi" 42
                           fresh_session) = Returned "Echo: hi" /\
  total_messages w' = 1 /\
  total_messages w' = successful_flows w' + failed_flows w'.
Proof.
  assert (Hs : fst (handle_user_message COORDINATION_CONFIG all_well "hi" 42
                                        fresh_session) = Returned "Echo: hi")
    by (vm_compute; reflexivity).
  destruct (returned_call_is_counted_once COORDINATION_CONFIG all_well "hi"
              42 fresh_session "Echo: hi" Hs) as (H1 & _ & H3).
  split; [exact Hs|]. split; [exact H1|]. exact (H3 eq_refl).
Defined.

Lemma accepted_message_is_answered_witness :
  let r := MemoryActor.handle_message MEMORY_CONFIG unreachable
             (ActorMessage (PyStr "store_user_message") hello)
             (memory_with []) in
  create_memory_message "store_user_message" hello
    = Returned (ActorMessage (PyStr "store_user_message") hello) /\
  (exists v, fst r = Returned v /\ answers v) /\
  _error_count (snd r) = 0 /\
  _message_count (snd r) = 1.
Proof.
  assert (Hm : create_memory_message "store_user_message" hello
               = Returned (ActorMessage (PyStr "store_user_message") hello))
    by (vm_compute; reflexivity).
  split; [exact Hm|].
  exact (accepted_message_is_answered MEMORY_CONFIG unreachable
           "store_user_message" _ _ (memory_with []) ltac:(done) Hm).
Defined.

Lemma failed_generation_leaves_user_turn_witness :
  let r := handle_user_message COORDINATION_CONFIG generation_down
                               cyrillic_text 42 fresh_session in
  Z.of_nat (String.length cyrillic_text) = 6000 /\
  Z.of_nat (str_len cyrillic_text) = 3000 /\
  fst r = Returned FALLBACK /\
  sent (snd r) =
    [ActorMessage (PyStr "store_user_message")
       (to_memory_format (UserMessageEvent 42 cyrillic_text));
     ActorMessage (PyStr "get_conversation_context")
       (dict_of [("user_id", PyInt 42); ("limit", PyInt 10)])] /\
  asked (snd r) = [cyrillic_text] /\
  failed_flows (snd r) = 1 /\
  successful_flows (snd r) = 0.
Proof.
  cbn zeta. split; [vm_compute; reflexivity|].
  split; [vm_compute; reflexivity|].
  exact (failed_generation_leaves_user_turn COORDINATION_CONFIG
           generation_down cyrillic_text 42 3 500
           (dict_of [("success", PyBool true); ("messages", PyList [])])
           (dict_of [("success", PyBool true); ("messages", PyList [])])
           (PyList []) EmptyString (ValueError "service unavailable")
           fresh_session ltac:(vm_compute; discriminate) eq_refl ltac:(done)
           ltac:(intros n; by eexists) eq_refl eq_refl eq_refl eq_refl
           eq_refl).
Defined.

End UserSessionLaws.

(** ** Actor base class: the life cycle *)

Module BaseActorLaws.

Import BaseActor.

(** X24: However an actor is started and stopped, it is running exactly
    when it is initialised, it has a start time whenever it runs, and
    its name and its counters are what they were at creation; so
    [health_check] says [healthy] exactly for an initialised actor and
    then gives an uptime. *)
Theorem lifecycle_keeps_flags_together n (calls : list call) now :
  let a := foldl perform (new n) calls in
  is_initialized a = is_running a /\
  (is_running a = true -> is_Some (_start_time a)) /\
  name a = n /\ _message_count a = 0 /\ _error_count a = 0 /\
  MemoryActor.subscript (health_check now a) "status" =
    Returned (MemoryActor.PyStr
                (if is_initialized a then "healthy" else "stopped")) /\
  (is_initialized a = true ->
   exists t, _start_time a = Some t /\
     MemoryActor.subscript (health_check now a) "uptime_seconds" =
       Returned (MemoryActor.PyInt (now - t))).
Proof.
  cbn zeta.
  assert (H : forall a,
    is_initialized a = is_running a /\
    (is_running a = true -> is_Some (_start_time a)) /\
    name a = n /\ _message_count a = 0 /\ _error_count a = 0 ->
    let a' := foldl perform a calls in
    is_initialized a' = is_running a' /\
    (is_running a' = true -> is_Some (_start_time a')) /\
    name a' = n /\ _message_count a' = 0 /\ _error_count a' = 0).
  { induction calls as [|c calls IH]; intros a Ha; [done|].
    cbn [foldl]. apply IH. destruct Ha as (Hf & Ht & Hn & Hm & He).
    destruct c as [t|g]; cbn [perform].
    - unfold initialize. destruct (is_initialized a) eqn:Hi; cbn;
        repeat split; eauto.
    - unfold shutdown. destruct (is_running a) eqn:Hr; cbn;
        [|repeat split; auto; congruence].
      unfold bind, try_except, lift, modify, ret, raise.
      destruct g as [[]|e|]; cbn; [by repeat split| |by repeat split].
      destruct e; cbn; repeat split; auto; congruence. }
  destruct (H (new n)) as (Hf & Ht & Hn & Hm & He); [by cbn|].
  cbn zeta in *. set (a := foldl perform (new n) calls) in *.
  split; [done|]. split; [done|]. split; [done|]. split; [done|].
  split; [done|]. split.
  - unfold health_check, MemoryActor.dict_of, MemoryActor.subscript.
    rewrite !list_to_map_cons.
    rewrite lookup_insert_ne, lookup_insert_eq by done. by rewrite Hf.
  - intros Hi. rewrite Hf in Hi. destruct (Ht Hi) as [t Hst].
    exists t. split; [done|].
    unfold health_check, MemoryActor.dict_of, MemoryActor.subscript.
    rewrite !list_to_map_cons.
    rewrite !lookup_insert_ne, lookup_insert_eq by done. by rewrite Hst.
Qed.

(** X25: [shutdown] of an actor that does not run does nothing and does not
    wait for the cleanup.  [shutdown] of a running actor stops it when
    the cleanup finishes or runs into the timeout; when the cleanup
    raises any other exception, [shutdown] raises it too and the actor
    stays running and initialised.  The start time is kept in all
    cases. *)
Theorem shutdown_stops_unless_cleanup_raises graceful a :
  let r := shutdown graceful a in
  _start_time (snd r) = _start_time a /\
  (is_running a = false -> r = (Returned tt, a)) /\
  (is_running a = true ->
   match UserSession.wait_for graceful with
   | Returned _ | Raised TimeoutError =>
       fst r = Returned tt /\
       is_running (snd r) = false /\ is_initialized (snd r) = false
   | Raised e => r = (Raised e, a)
   | Blocked => False
   end).
Proof.
  cbn zeta. unfold shutdown.
  destruct (is_running a) eqn:Hr; cbn; [|done].
  unfold bind, try_except, lift, modify, ret, raise.
  destruct graceful as [[]|e|]; cbn; [done| |done].
  destruct e; cbn; done.
Qed.

(** X26: [initialize] sets the start time once: a second [initialize]
    changes nothing, and a restart after a [shutdown] that went
    through starts the clock again while the counters go on. *)
Theorem initialize_starts_the_clock_once a t1 t2 t3 graceful :
  let a1 := snd (initialize t1 a) in
  snd (initialize t2 a1) = a1 /\
  (is_initialized a = false ->
   _start_time a1 = Some t1 /\
   (fst (shutdown graceful a1) = Returned tt ->
    let a3 := snd (initialize t3 (snd (shutdown graceful a1))) in
    _start_time a3 = Some t3 /\ is_running a3 = true /\
    _message_count a3 = _message_count a /\
    _error_count a3 = _error_count a)).
Proof.
  cbn zeta. unfold initialize.
  destruct (is_initialized a) eqn:Hi; cbn; [by rewrite Hi|].
  split; [done|]. intros _. split; [done|].
  unfold shutdown. cbn.
  unfold bind, try_except, lift, modify, ret, raise.
  destruct graceful as [[]|e|]; cbn; [done| |done].
  destruct e; cbn; done.
Qed.

(** *** At concrete inputs *)

Lemma shutdown_stops_unless_cleanup_raises_witness :
  let a := snd (initialize 100 (new "memory")) in
  is_running a = true /\
  fst (shutdown UserSession.Hangs a) = Returned tt /\
  is_running (snd (shutdown UserSession.Hangs a)) = false /\
  shutdown (UserSession.Fails (StorageError "connection lost")) a
    = (Raised (StorageError "connection lost"), a).
Proof.
  cbn zeta. split; [reflexivity|].
  pose proof (proj2 (proj2 (shutdown_stops_unless_cleanup_raises
                              UserSession.Hangs
                              (snd (initialize 100 (new "memory")))))
                eq_refl) as (H1 & H2 & _).
  split; [exact H1|]. split; [exact H2|].
  exact (proj2 (proj2 (shutdown_stops_unless_cleanup_raises
                         (UserSession.Fails (StorageError "connection lost"))
                         (snd (initialize 100 (new "memory")))))
           eq_refl).
Defined.

Lemma initialize_starts_the_clock_once_witness :
  let a1 := snd (initialize 100 (new "memory")) in
  is_initialized (new "memory") = false /\
  _start_time a1 = Some 100 /\
  _start_time (snd (initialize 300
                      (snd (shutdown (UserSession.Replies tt) a1))))
    = Some 300.
Proof.
  cbn zeta. split; [reflexivity|].
  destruct (proj2 (initialize_starts_the_clock_once (new "memory") 100 200
                     300 (UserSession.Replies tt)) eq_refl) as [H1 H2].
  split; [exact H1|]. exact (proj1 (H2 eq_refl)).
Defined.

End BaseActorLaws.
